(** * Grid and SOSEGrid of mitgcm_python (grid.py): a shallow embedding

    The development follows [grid.py]: the [Grid] class (construction from the
    raw arrays, ice shelf draft, bathymetry, masks, accessors) and the
    [SOSEGrid] class (splitting, trimming and extending the SOSE axes so that
    they cover a model grid, and [read_field]).

    Conventions of the embedding.
    - NumPy arrays of floats are nested lists of rationals ([Q]); comparisons
      are the exact ones ([Qeq_bool], [Qle_bool]), so numeric equality in the
      statements is [==].  NaN only occurs in the draft computation, where it
      marks the cells not yet assigned: there an entry is an [option Q] and
      [None] is NaN.
    - The arithmetic expressions of the code are written as they are in the
      source and read in exact arithmetic, with one exception: the number of
      rows added south of SOSE and the latitudes of these rows (the ceiling
      of a quotient, multiples of [sose_res]), where every operation is
      followed by the rounding of IEEE binary64 ([round64]); the arrays the
      loader returns hold doubles.
    - Python integers (indices, sizes) are [Z]; indexing and slicing follow
      Python (negative indices count from the end, slices are clipped).
    - [sys.exit()] after a [print] and the exceptions of the runtime are the
      errors of the [result] monad.
    - Elementwise operations between arrays need operands of the same
      shape; every mismatch is a [ValueError].  Assignment to a slice
      broadcasts its value as NumPy does ([set_slice], [read_field]).
    - The loader ([read_netcdf], [rdmds]) is outside [grid.py]: the arrays it
      returns are the inputs of the constructors, the depth variables already
      squeezed to rank 1.
    - A [print] that is not followed by [sys.exit()] leaves no trace. *)

From Stdlib Require Import ZArith QArith Qround Qabs Qpower Lia Lqa.
From Stdlib Require Import Ascii String.
From stdpp Require Import base option list.

Local Open Scope Z_scope.

(** ** Errors *)

Inductive exn : Type :=
  | SystemExit (msg : string)   (* print msg; sys.exit() *)
  | IndexError
  | ValueError
  | OverflowError
  | AttributeError.

Inductive result (A : Type) : Type :=
  | Ok (a : A)
  | Err (e : exn).
Arguments Ok {A} a.
Arguments Err {A} e.

#[global] Instance result_ret : MRet result := fun A a => Ok a.
#[global] Instance result_bind : MBind result := fun A B f m =>
  match m with
  | Ok a => f a
  | Err e => Err e
  end.

#[global] Instance result_fmap : FMap result := fun A B f m =>
  match m with
  | Ok a => Ok (f a)
  | Err e => Err e
  end.

Definition fatal {A : Type} (msg : string) : result A := Err (SystemExit msg).

(** A loop [for x in xs: ...] whose body may fail. *)
Fixpoint mapM {A B : Type} (f : A -> result B) (l : list A) : result (list B) :=
  match l with
  | [] => Ok []
  | x :: l' =>
      y ← f x;
      ys ← mapM f l';
      Ok (y :: ys)
  end.

(** Elementwise combination of two arrays along one axis: the lengths have to
    agree. *)
Fixpoint zipM {A B C : Type} (f : A -> B -> result C)
    (l1 : list A) (l2 : list B) : result (list C) :=
  match l1, l2 with
  | [], [] => Ok []
  | x :: l1', y :: l2' =>
      z ← f x y;
      zs ← zipM f l1' l2';
      Ok (z :: zs)
  | _, _ => Err ValueError
  end.

(** ** Floats and arrays *)

Definition Qltb (x y : Q) : bool := negb (Qle_bool y x).
Definition Qgtb (x y : Q) : bool := Qltb y x.
Definition Qgeb (x y : Q) : bool := Qle_bool y x.
Definition Qneqb (x y : Q) : bool := negb (Qeq_bool x y).

(** Double precision.  [round64 q] is the double nearest to [q], ties to
    even: a significand of 53 bits, that is an integer [m] with
    [2^52 <= |m| <= 2^53] times a power of two.  The range of the exponent is
    not bounded (no overflow to infinity, no gradual underflow); the
    latitudes and resolutions the operations are applied to are far from
    both ends. *)

(** The integer nearest to [s], ties to even. *)
Definition round_half_even (s : Q) : Z :=
  let f := Qfloor s in
  let r := (s - inject_Z f)%Q in
  if Qltb r (1 # 2) then f
  else if Qltb (1 # 2) r then f + 1
  else if Z.even f then f else f + 1.

(** For [a > 0], the exponent [e] with [2^52 <= a / 2^e < 2^53]: the first
    guess, from the lengths of numerator and denominator, is right or one too
    large. *)
Definition exponent64 (a : Q) : Z :=
  let e := Z.log2 (Qnum a) - Z.log2 (Zpos (Qden a)) - 52 in
  if Qltb (a * 2 ^ (- e)) (2 ^ 52) then e - 1 else e.

Definition round64 (q : Q) : Q :=
  if Qeq_bool q 0 then 0%Q
  else
    let a := Qabs q in
    let e := exponent64 a in
    let m := Qred (inject_Z (round_half_even (a * 2 ^ (- e))) * 2 ^ e) in
    if Qltb q 0 then (- m)%Q else m.

(** The unit roundoff [2^-53]. *)
Definition u64 : Q := 1 # 9007199254740992.

(** [x + y], [x - y], [x * y], [x / y] on doubles, and an integer of an
    [int64] array converted to a double. *)
Definition fl_add (x y : Q) : Q := round64 (x + y).
Definition fl_sub (x y : Q) : Q := round64 (x - y).
Definition fl_mul (x y : Q) : Q := round64 (x * y).
Definition fl_div (x y : Q) : Q := round64 (x / y).
Definition of_int (n : Z) : Q := round64 (inject_Z n).

Abbreviation arr1 := (list Q).
Abbreviation arr2 := (list (list Q)).
Abbreviation arr3 := (list (list (list Q))).
Abbreviation arr4 := (list (list (list (list Q)))).
Abbreviation mask2 := (list (list bool)).

(** What [rdmds] can return for a field: an array of rank 2, 3 or 4. *)
Inductive ndarray : Type :=
  | A2 (a : arr2)
  | A3 (a : arr3)
  | A4 (a : arr4).

Definition len {A : Type} (l : list A) : Z := Z.of_nat (length l).

(** [a[n]] *)
Definition py_index {A : Type} (l : list A) (n : Z) : result A :=
  let m := if n <? 0 then n + len l else n in
  if m <? 0 then Err IndexError
  else match l !! Z.to_nat m with
       | Some x => Ok x
       | None => Err IndexError
       end.

(** The position a slice bound stands for in an axis of length [n]. *)
Definition clip (n : Z) (i : Z) : nat :=
  Z.to_nat (Z.min n (Z.max 0 (if i <? 0 then i + n else i))).

Definition slice_lo {A : Type} (l : list A) (lo : option Z) : nat :=
  match lo with Some i => clip (len l) i | None => 0%nat end.
Definition slice_hi {A : Type} (l : list A) (hi : option Z) : nat :=
  match hi with Some i => clip (len l) i | None => length l end.

(** The entry at [(j, i)] and at [(k, j, i)], if there is one, and the arrays
    with a given shape. *)
Definition at2 {A : Type} (a : list (list A)) (j i : nat) : option A :=
  a !! j ≫= (.!! i).
Definition at3 {A : Type} (a : list (list (list A))) (k j i : nat) : option A :=
  a !! k ≫= fun p => at2 p j i.
Definition shape2 {A : Type} (a : list (list A)) (ny nx : nat) : Prop :=
  length a = ny ∧ Forall (fun r => length r = nx) a.
Definition shape3 {A : Type} (a : list (list (list A))) (nz ny nx : nat) : Prop :=
  length a = nz ∧ Forall (fun p => shape2 p ny nx) a.

(** The column of an array of rank 3 over the point [(j, i)], and the sum of
    a list of numbers. *)
Definition column {A : Type} (a : list (list (list A))) (j i : nat) : list A :=
  omap (fun p => at2 p j i) a.
Definition Qsum (l : arr1) : Q := foldr Qplus 0%Q l.

(** [a[lo:hi]]; a bound left out is [None]. *)
Definition py_slice {A : Type} (l : list A) (lo hi : option Z) : list A :=
  take (slice_hi l hi - slice_lo l lo)%nat (drop (slice_lo l lo) l).

(** [range(n)] *)
Definition range (n : Z) : list Z := map Z.of_nat (seq 0 (Z.to_nat n)).

(** [np.nonzero(cond)[0][0]] *)
Fixpoint first_true (l : list bool) : option nat :=
  match l with
  | [] => None
  | b :: l' => if b then Some 0%nat else S <$> first_true l'
  end.

Definition nonzero_first (cond : list bool) : result Z :=
  match first_true cond with
  | Some n => Ok (Z.of_nat n)
  | None => Err IndexError
  end.

(** [np.amin], [np.amax] over all the entries of an array. *)
Definition Qmin' (x y : Q) : Q := if Qle_bool x y then x else y.
Definition Qmax' (x y : Q) : Q := if Qle_bool x y then y else x.

Definition amin (l : arr1) : result Q :=
  match l with
  | [] => Err ValueError
  | x :: l' => Ok (foldl Qmin' x l')
  end.
Definition amax (l : arr1) : result Q :=
  match l with
  | [] => Err ValueError
  | x :: l' => Ok (foldl Qmax' x l')
  end.
Definition amin2 (a : arr2) : result Q := amin (concat a).
Definition amax2 (a : arr2) : result Q := amax (concat a).

(** [np.diff(a)] and [np.all(np.diff(a) > 0)] *)
Definition diff (l : arr1) : arr1 :=
  zip_with (fun a b => b - a)%Q l (tail l).
Definition strictly_increasing (l : arr1) : bool :=
  forallb (fun d => Qgtb d 0) (diff l).

(** [a[0,:]] and [a[:,0]] of an array of rank 2. *)
Definition row0 (a : arr2) : result arr1 := py_index a 0.
Definition col0 (a : arr2) : result arr1 := mapM (fun r => py_index r 0) a.

(** [np.meshgrid(x, y)] *)
Definition meshgrid (x y : arr1) : arr2 * arr2 :=
  (map (fun _ => x) y, map (fun yj => map (fun _ => yj) x) y).

(** [np.zeros(shape) + fill], one axis at a time; a negative extent is a
    [ValueError]. *)
Definition full {A : Type} (n : Z) (x : A) : result (list A) :=
  if n <? 0 then Err ValueError else Ok (replicate (Z.to_nat n) x).

(** ** The [utils] and [constants] modules

    Neither module is among the sources; [grid.py] imports [fix_lon_range],
    [split_longitude] from the first and four constants from the second. *)

(** Modelled from the spec: [utils.fix_lon_range], which remaps every value
    into the half-open interval (max_lon-360, max_lon] by adding or
    subtracting 360 as needed.  [max_lon = None] (a grid whose X axis is not
    a longitude) leaves the value as it is. *)
Definition fix_lon (max_lon : option Q) (x : Q) : Q :=
  match max_lon with
  | Some m => x - 360 * inject_Z (Qceiling ((x - m) / 360))
  | None => x
  end.
Definition fix_lon_range (lon : arr1) (max_lon : option Q) : arr1 :=
  map (fix_lon max_lon) lon.
Definition fix_lon_range2 (lon : arr2) (max_lon : option Q) : arr2 :=
  map (fun r => fix_lon_range r max_lon) lon.

(** Modelled from the spec: [utils.split_longitude], which rotates (does not
    interpolate) the longitude axis, the last one, at index [split]:
    [array[...,split:]] followed by [array[...,:split]]. *)
Definition split_longitude (l : arr1) (split : Z) : arr1 :=
  py_slice l (Some split) None ++ py_slice l None (Some split).
Definition split_longitude2 (a : arr2) (split : Z) : arr2 :=
  map (fun r => split_longitude r split) a.
Definition split_longitude3 (a : arr3) (split : Z) : arr3 :=
  map (fun r => split_longitude2 r split) a.
Definition split_longitude4 (a : arr4) (split : Z) : arr4 :=
  map (fun r => split_longitude3 r split) a.
Definition split_longitude_nd (a : ndarray) (split : Z) : ndarray :=
  match a with
  | A2 a => A2 (split_longitude2 a split)
  | A3 a => A3 (split_longitude3 a split)
  | A4 a => A4 (split_longitude4 a split)
  end.

(** A bounding box of [constants]: [lon_min, lon_max, lat_min, lat_max]. *)
Record bounds : Type := Bounds {
  lon_min : Q;
  lon_max : Q;
  lat_min : Q;
  lat_max : Q
}.

(** The names [grid.py] imports from [constants]; their values are
    parameters of the model. *)
Record constants : Type := Constants {
  fris_bounds : bounds;
  ewed_bounds : bounds;
  sose_res : Q;
  sws_shelf_bounds : bounds
}.

(** ** Elementwise operations on arrays of rank 2 *)

(** [f(a)] for a comparison with a scalar, as in [lon >= bound]. *)
Definition cmp2 (f : Q -> bool) (a : arr2) : mask2 := map (map f) a.

(** [a * b] on boolean arrays, [a - b] and [a + b] on float arrays. *)
Definition zip2 {A B C : Type} (f : A -> B -> C)
    (a : list (list A)) (b : list (list B)) : result (list (list C)) :=
  zipM (zipM (fun x y => Ok (f x y))) a b.
Definition mask_and (a b : mask2) : result mask2 := zip2 andb a b.
Definition invert (a : mask2) : mask2 := map (map negb) a.

(** [np.sum(a, axis=0)]: the layers are added one after the other.  (A
    nested list without layers has lost its horizontal extents, so its sum is
    the empty array; the grids have at least one layer.) *)
Fixpoint add_layers (acc : arr2) (layers : arr3) : result arr2 :=
  match layers with
  | [] => Ok acc
  | l :: ls =>
      acc' ← zip2 Qplus acc l;
      add_layers acc' ls
  end.
Definition sum_axis0 (a : arr3) : result arr2 :=
  match a with
  | [] => Ok []
  | l :: ls => add_layers l ls
  end.

(** ** The [Grid] class *)

Module Grid.

(** The coordinate arrays as the loader returns them: of rank 2 (binary
    files) or already of rank 1 (xmitgcm NetCDF output). *)
Inductive coords : Type :=
  | Coords2D (XC YC XG YG : arr2)
  | Coords1D (XC YC XG YG : arr1).

(** The variables read at the top of [Grid.__init__], under the names of the
    binary files; the depth variables are already squeezed. *)
Record raw_grid : Type := RawGrid {
  XY : coords;
  DXG : arr2;
  DYG : arr2;
  RAC : arr2;
  RC : arr1;
  RF : arr1;
  DRF : arr1;
  DRC : arr1;
  hFacC : arr3;
  hFacW : arr3;
  hFacS : arr3;
  Depth : arr2
}.

Record t : Type := Make {
  lon_2d : arr2;
  lat_2d : arr2;
  lon_corners_2d : arr2;
  lat_corners_2d : arr2;
  lon_1d : arr1;
  lat_1d : arr1;
  lon_corners_1d : arr1;
  lat_corners_1d : arr1;
  dx_s : arr2;
  dy_w : arr2;
  dA : arr2;
  z : arr1;
  z_edges : arr1;
  dz : arr1;
  dz_t : arr1;
  hfac : arr3;
  hfac_w : arr3;
  hfac_s : arr3;
  wct : arr2;
  nx : Z;
  ny : Z;
  nz : Z;
  draft : arr2;
  bathy : arr2;
  land_mask : mask2;
  land_mask_u : mask2;
  land_mask_v : mask2;
  ice_mask : mask2;
  ice_mask_u : mask2;
  ice_mask_v : mask2;
  fris_mask : mask2;
  fris_mask_u : mask2;
  fris_mask_v : mask2;
  ewed_mask : mask2;
  sws_shelf_mask : mask2
}.

(** [build_land_mask]: [np.sum(hfac, axis=0)==0] *)
Definition build_land_mask (hfac : arr3) : result mask2 :=
  s ← sum_axis0 hfac;
  Ok (cmp2 (fun x => Qeq_bool x 0) s).

(** [build_ice_mask]: [(np.sum(hfac, axis=0)!=0)*(hfac[0,:]<1)] *)
Definition build_ice_mask (hfac : arr3) : result mask2 :=
  s ← sum_axis0 hfac;
  top ← py_index hfac 0;
  mask_and (cmp2 (fun x => Qneqb x 0) s) (cmp2 (fun x => Qltb x 1) top).

(** [ice_mask*(lon >= b[0])*(lon <= b[1])*(lat >= b[2])*(lat <= b[3])] *)
Definition select_box (ice_mask : mask2) (lon lat : arr2) (b : bounds)
    : result mask2 :=
  m ← mask_and ice_mask (cmp2 (fun x => Qgeb x (lon_min b)) lon);
  m ← mask_and m (cmp2 (fun x => Qle_bool x (lon_max b)) lon);
  m ← mask_and m (cmp2 (fun x => Qgeb x (lat_min b)) lat);
  mask_and m (cmp2 (fun x => Qle_bool x (lat_max b)) lat).

(** [mask[index] = True] *)
Definition set_true (mask index : mask2) : result mask2 := zip2 orb mask index.

(** The two parts of FRIS, split along 45W. *)
Definition fris_regions (c : constants) : list bounds :=
  [ Bounds (lon_min (fris_bounds c)) (-45) (lat_min (fris_bounds c)) (-747 # 10);
    Bounds (-45) (lon_max (fris_bounds c)) (lat_min (fris_bounds c)) (-7785 # 100) ].

Fixpoint fris_loop (regions : list bounds) (ice_mask : mask2) (lon lat : arr2)
    (fris_mask : mask2) : result mask2 :=
  match regions with
  | [] => Ok fris_mask
  | b :: rest =>
      index ← select_box ice_mask lon lat b;
      fris_mask' ← set_true fris_mask index;
      fris_loop rest ice_mask lon lat fris_mask'
  end.

(** [build_fris_mask] *)
Definition build_fris_mask (c : constants) (ice_mask : mask2) (lon lat : arr2)
    : result mask2 :=
  fris_loop (fris_regions c) ice_mask lon lat (map (map (fun _ => false)) ice_mask).

(** [build_ewed_mask] *)
Definition build_ewed_mask (c : constants) (ice_mask : mask2) (lon lat : arr2)
    : result mask2 :=
  select_box ice_mask lon lat (ewed_bounds c).

(** [build_sws_shelf_mask] *)
Definition build_sws_shelf_mask (c : constants) (land_mask ice_mask : mask2)
    (lon lat bathy : arr2) : result mask2 :=
  m ← mask_and (invert land_mask) (invert ice_mask);
  m ← mask_and m (cmp2 (fun x => Qgeb x (-1250)) bathy);
  select_box m lon lat (sws_shelf_bounds c).

(** The ice shelf draft.  While the loop runs an entry is [None] (NaN) as
    long as no wet cell has been seen in its column. *)
Abbreviation nan_arr2 := (list (list (option Q))).

Definition isnan2 (d : nan_arr2) : mask2 := map (map (fun x => bool_decide (x = None))) d.

(** [draft[index] = values[index]] *)
Definition assign_where (index : mask2) (values : arr2) (d : nan_arr2) : nan_arr2 :=
  zip_with (fun ix vd => zip_with (fun (b : bool) (p : Q * option Q) =>
                                     if b then Some (fst p) else snd p)
                                  ix (zip (fst vd) (snd vd)))
           index (zip values d).

(** One turn of the loop over [k]. *)
Definition draft_step (hfac : arr3) (z_edges dz : arr1) (d : nan_arr2) (k : Z)
    : result nan_arr2 :=
  hfac_tmp ← py_index hfac k;
  index ← mask_and (cmp2 (fun h => Qneqb h 0) hfac_tmp) (isnan2 d);
  ze ← py_index z_edges k;
  dzk ← py_index dz k;
  Ok (assign_where index (map (map (fun h => ze - dzk * (1 - h))%Q) hfac_tmp) d).

Fixpoint draft_loop (hfac : arr3) (z_edges dz : arr1) (d : nan_arr2)
    (ks : list Z) : result nan_arr2 :=
  match ks with
  | [] => Ok d
  | k :: ks' =>
      d' ← draft_step hfac z_edges dz d k;
      draft_loop hfac z_edges dz d' ks'
  end.

Definition calc_draft (hfac : arr3) (z_edges dz : arr1) (nx ny nz : Z)
    : result arr2 :=
  row ← full nx (None : option Q);
  d0 ← full ny row;
  d ← draft_loop hfac z_edges dz d0 (range nz);
  Ok (map (map (default 0%Q)) d).

(** The block of [Grid.__init__] that makes the 1D versions of the latitude
    and longitude arrays (or the 2D versions, for xmitgcm output): [(lon_2d,
    lat_2d, lon_corners_2d, lat_corners_2d, lon_1d, lat_1d, lon_corners_1d,
    lat_corners_1d)]. *)
Definition axes (xy : coords)
    : result (arr2 * arr2 * arr2 * arr2 * arr1 * arr1 * arr1 * arr1) :=
  match xy with
  | Coords2D XC YC XG YG =>
      lon_1d ← row0 XC;
      lat_1d ← col0 YC;
      lon_corners_1d ← row0 XG;
      lat_corners_1d ← col0 YG;
      Ok (XC, YC, XG, YG, lon_1d, lat_1d, lon_corners_1d, lat_corners_1d)
  | Coords1D XC YC XG YG =>
      let '(lon_2d, lat_2d) := meshgrid XC YC in
      let '(lon_corners_2d, lat_corners_2d) := meshgrid XG YG in
      Ok (lon_2d, lat_2d, lon_corners_2d, lat_corners_2d, XC, YC, XG, YG)
  end.

(** The range chosen automatically: (0, 360) if the domain crosses 180E. *)
Definition auto_max_lon (lo hi : Q) : Q :=
  if Qltb lo 180 && Qgtb hi 180 then 360%Q else 180%Q.

(** The block that decides on the longitude range: [(lon_1d, max_lon)]. *)
Definition decide_lon_range (x_is_lon : bool) (max_lon : option Q)
    (lon_1d : arr1) : result (arr1 * option Q) :=
  match max_lon with
  | None =>
      if x_is_lon then
        (* Choose range automatically *)
        lo ← amin lon_1d;
        hi ← amax lon_1d;
        let max_lon := auto_max_lon lo hi in
        (* Do one array to test *)
        let lon_1d := fix_lon_range lon_1d (Some max_lon) in
        (* Make sure it's strictly increasing now *)
        if negb (strictly_increasing lon_1d) then
          fatal "Error (Grid): Longitude is not strictly increasing either in the range (0, 360) or (-180, 180)."
        else Ok (lon_1d, Some max_lon)
      else Ok (lon_1d, None)
  | Some m => Ok (lon_1d, Some m)
  end.

(** [Grid.__init__].  The dispatch on [path] (NetCDF file or directory of
    binary files) only selects the loader; [raw] is what the loader returned. *)
Definition init (c : constants) (raw : raw_grid) (x_is_lon : bool)
    (max_lon : option Q) : result t :=
  '(lon_2d, lat_2d, lon_corners_2d, lat_corners_2d,
    lon_1d, lat_1d, lon_corners_1d, lat_corners_1d) ← axes (XY raw);
  '(lon_1d, max_lon) ← decide_lon_range x_is_lon max_lon lon_1d;
  let lon_1d := fix_lon_range lon_1d max_lon in
  let lon_corners_1d := fix_lon_range lon_corners_1d max_lon in
  let lon_2d := fix_lon_range2 lon_2d max_lon in
  let lon_corners_2d := fix_lon_range2 lon_corners_2d max_lon in
  (* Save dimensions *)
  let nx := len lon_1d in
  let ny := len lat_1d in
  let nz := len (RC raw) in
  (* Calculate ice shelf draft *)
  draft ← calc_draft (hFacC raw) (RF raw) (DRF raw) nx ny nz;
  (* Calculate bathymetry *)
  bathy ← zip2 Qminus draft (Depth raw);
  (* Land masks *)
  land_mask ← build_land_mask (hFacC raw);
  land_mask_u ← build_land_mask (hFacW raw);
  land_mask_v ← build_land_mask (hFacS raw);
  (* Ice shelf masks *)
  ice_mask ← build_ice_mask (hFacC raw);
  ice_mask_u ← build_ice_mask (hFacW raw);
  ice_mask_v ← build_ice_mask (hFacS raw);
  (* FRIS masks *)
  fris_mask ← build_fris_mask c ice_mask lon_2d lat_2d;
  fris_mask_u ← build_fris_mask c ice_mask_u lon_corners_2d lat_2d;
  fris_mask_v ← build_fris_mask c ice_mask_v lon_2d lat_corners_2d;
  (* Eastern Weddell ice shelf mask *)
  ewed_mask ← build_ewed_mask c ice_mask lon_2d lat_2d;
  (* Southern Weddell Sea continental shelf mask *)
  sws_shelf_mask ← build_sws_shelf_mask c land_mask ice_mask lon_2d lat_2d bathy;
  Ok {| lon_2d := lon_2d; lat_2d := lat_2d;
        lon_corners_2d := lon_corners_2d; lat_corners_2d := lat_corners_2d;
        lon_1d := lon_1d; lat_1d := lat_1d;
        lon_corners_1d := lon_corners_1d; lat_corners_1d := lat_corners_1d;
        dx_s := DXG raw; dy_w := DYG raw; dA := RAC raw;
        z := RC raw; z_edges := RF raw; dz := DRF raw; dz_t := DRC raw;
        hfac := hFacC raw; hfac_w := hFacW raw; hfac_s := hFacS raw;
        wct := Depth raw;
        nx := nx; ny := ny; nz := nz;
        draft := draft; bathy := bathy;
        land_mask := land_mask; land_mask_u := land_mask_u;
        land_mask_v := land_mask_v;
        ice_mask := ice_mask; ice_mask_u := ice_mask_u;
        ice_mask_v := ice_mask_v;
        fris_mask := fris_mask; fris_mask_u := fris_mask_u;
        fris_mask_v := fris_mask_v;
        ewed_mask := ewed_mask; sws_shelf_mask := sws_shelf_mask |}.

(** The arrays [get_lon_lat] hands out are of rank 1 or 2. *)
Inductive coord_array : Type :=
  | Rank1 (a : arr1)
  | Rank2 (a : arr2).

(** [get_lon_lat (self, gtype='t', dim=2)]; an argument left out is [None]. *)
Definition get_lon_lat (self : t) (gtype : option string) (dim : option Z)
    : result (coord_array * coord_array) :=
  let gtype := default "t"%string gtype in
  let dim := default 2 dim in
  '(lon, lon_corners, lat, lat_corners) ←
    (if dim =? 1 then
       Ok (Rank1 (lon_1d self), Rank1 (lon_corners_1d self),
           Rank1 (lat_1d self), Rank1 (lat_corners_1d self))
     else if dim =? 2 then
       Ok (Rank2 (lon_2d self), Rank2 (lon_corners_2d self),
           Rank2 (lat_2d self), Rank2 (lat_corners_2d self))
     else fatal "Error (get_lon_lat): dim must be 1 or 2");
  if String.eqb gtype "t" || String.eqb gtype "w" then Ok (lon, lat)
  else if String.eqb gtype "u" then Ok (lon_corners, lat)
  else if String.eqb gtype "v" then Ok (lon, lat_corners)
  else if String.eqb gtype "psi" then Ok (lon_corners, lat_corners)
  else fatal ("Error (get_lon_lat): invalid gtype " ++ gtype).

(** [get_ice_mask (self, gtype='t')] *)
Definition get_ice_mask (self : t) (gtype : option string) : result mask2 :=
  let gtype := default "t"%string gtype in
  if String.eqb gtype "t" then Ok (ice_mask self)
  else if String.eqb gtype "u" then Ok (ice_mask_u self)
  else if String.eqb gtype "v" then Ok (ice_mask_v self)
  else fatal ("Error (get_ice_mask): no mask exists for the " ++ gtype ++ " grid").

(** [get_fris_mask (self, gtype='t')] *)
Definition get_fris_mask (self : t) (gtype : option string) : result mask2 :=
  let gtype := default "t"%string gtype in
  if String.eqb gtype "t" then Ok (fris_mask self)
  else if String.eqb gtype "u" then Ok (fris_mask_u self)
  else if String.eqb gtype "v" then Ok (fris_mask_v self)
  else fatal ("Error (get_fris_mask): no mask exists for the " ++ gtype ++ " grid").

(** [get_hfac (self, gtype='t')] *)
Definition get_hfac (self : t) (gtype : option string) : result arr3 :=
  let gtype := default "t"%string gtype in
  if String.eqb gtype "t" then Ok (hfac self)
  else if String.eqb gtype "u" then Ok (hfac_w self)
  else if String.eqb gtype "v" then Ok (hfac_s self)
  else fatal ("Error (get_hfac): no hfac exists for the " ++ gtype ++ " grid").

(** [get_land_mask (self, gtype='t')] *)
Definition get_land_mask (self : t) (gtype : option string) : result mask2 :=
  let gtype := default "t"%string gtype in
  if String.eqb gtype "t" then Ok (land_mask self)
  else if String.eqb gtype "u" then Ok (land_mask_u self)
  else if String.eqb gtype "v" then Ok (land_mask_v self)
  else fatal ("Error (get_land_mask): no mask exists for the " ++ gtype ++ " grid").

(** The hfac array, the land mask and the ice mask of the tracer, u and v
    grids. *)
Definition subgrids (self : t) : list (arr3 * mask2 * mask2) :=
  [ (hfac self, land_mask self, ice_mask self);
    (hfac_w self, land_mask_u self, ice_mask_u self);
    (hfac_s self, land_mask_v self, ice_mask_v self) ].

(** A point of a bounding box of [constants]. *)
Definition in_box (b : bounds) (x y : Q) : Prop :=
  (lon_min b <= x <= lon_max b /\ lat_min b <= y <= lat_max b)%Q.

(** The two regions of the FRIS mask in words: region A reaches from the
    western bound to 45W and up to 74.7S, region B from 45W (excluded) to the
    eastern bound and up to 77.85S; [fris_mask_spec] says that [m] marks the
    ice shelf points of the two regions. *)
Definition fris_region_A (c : constants) (x y : Q) : Prop :=
  (lon_min (fris_bounds c) <= x <= -45 /\
   lat_min (fris_bounds c) <= y <= -747 # 10)%Q.
Definition fris_region_B (c : constants) (x y : Q) : Prop :=
  (-45 < x /\ x <= lon_max (fris_bounds c) /\
   lat_min (fris_bounds c) <= y <= -7785 # 100)%Q.
Definition fris_mask_spec (c : constants) (ice_mask : mask2) (lon lat : arr2)
    (m : mask2) : Prop :=
  forall j i,
    (is_Some (at2 m j i) <-> is_Some (at2 ice_mask j i)) /\
    forall b, at2 m j i = Some b ->
      exists ic x y,
        at2 ice_mask j i = Some ic /\ at2 lon j i = Some x /\
        at2 lat j i = Some y /\
        (b = true <-> ic = true /\ (fris_region_A c x y \/ fris_region_B c x y)) /\
        (x == -45 -> b = true -> y <= -747 # 10)%Q.

End Grid.

(** [grid_check_split (grid_path, split)]; [raw] is what the loader returns
    for [grid_path]. *)
Definition grid_check_split (c : constants) (raw : Grid.raw_grid) (split : Z)
    : result Grid.t :=
  if split =? 180 then
    grid ← Grid.init c raw true (Some 180%Q);
    first ← py_index (Grid.lon_1d grid) 0;
    last ← py_index (Grid.lon_1d grid) (-1);
    if Qgtb first last then
      fatal "Error (grid_check_split): Looks like your domain crosses 180E. Run this again with split=0."
    else Ok grid
  else if split =? 0 then
    grid ← Grid.init c raw true (Some 360%Q);
    first ← py_index (Grid.lon_1d grid) 0;
    last ← py_index (Grid.lon_1d grid) (-1);
    if Qgtb first last then
      fatal "Error (grid_check_split): Looks like your domain crosses 0E. Run this again with split=180."
    else Ok grid
  else fatal "Error (grid_check_split): split must be 180 or 0".

(** ** Slices of arrays and assignment to slices *)

(** NumPy broadcasts the value of an assignment: along an axis where the
    value has length one, its single entry stands for every index of the
    window. *)
Definition broadcast {B : Type} (n : nat) (src : list B) : list B :=
  match src with
  | [x] => replicate n x
  | _ => src
  end.

(** [dest[lo:hi] = src] along one axis, [upd] doing the assignment of one
    entry (itself an assignment to a slice for an array of higher rank).  A
    value that cannot be broadcast to the window is a [ValueError]. *)
Definition set_slice {A B : Type} (upd : A -> B -> result A)
    (dest : list A) (lo hi : Z) (src : list B) : result (list A) :=
  let a := clip (len dest) lo in
  let b := clip (len dest) hi in
  mid ← zipM upd (take (b - a)%nat (drop a dest)) (broadcast (b - a) src);
  Ok (take a dest ++ mid ++ drop (a + (b - a))%nat dest).

Definition put (old new : Q) : result Q := Ok new.

(** [a[j0:j1, i0:i1]] and [a[k0:k1, j0:j1, i0:i1]] *)
Definition slice2 (a : arr2) (j0 j1 i0 i1 : Z) : arr2 :=
  map (fun r => py_slice r (Some i0) (Some i1)) (py_slice a (Some j0) (Some j1)).
Definition slice3 (a : arr3) (k0 k1 j0 j1 i0 i1 : Z) : arr3 :=
  map (fun p => slice2 p j0 j1 i0 i1) (py_slice a (Some k0) (Some k1)).

(** [dest[j0:j1, i0:i1] = src] and [dest[k0:k1, j0:j1, i0:i1] = src] *)
Definition set_slice2 (j0 j1 i0 i1 : Z) (dest src : arr2) : result arr2 :=
  set_slice (fun d s => set_slice put d i0 i1 s) dest j0 j1 src.
Definition set_slice3 (k0 k1 j0 j1 i0 i1 : Z) (dest src : arr3) : result arr3 :=
  set_slice (set_slice2 j0 j1 i0 i1) dest k0 k1 src.

(** ['z' in dimensions] *)
Fixpoint has_char (c : ascii) (s : string) : bool :=
  match s with
  | EmptyString => false
  | String c' s' => Ascii.eqb c c' || has_char c s'
  end.

(** ** The [SOSEGrid] class *)

Module SOSEGrid.

(** The SOSE grid files read by [SOSEGrid.__init__]; [RC] is already
    squeezed. *)
Record raw_sose : Type := RawSose {
  XC : arr2;
  XG : arr2;
  YC : arr2;
  YG : arr2;
  RC : arr1;
  hFacC : arr3;
  hFacW : arr3;
  hFacS : arr3
}.

(** The attributes of a [SOSEGrid].  The twelve indices only exist when
    [trim_extend] is set; they are 0 otherwise and nothing reads them then.
    The three [hfac] arrays and the land masks are assigned last. *)
Record t : Type := Make {
  trim_extend : bool;
  lon_1d : arr1;
  lon_corners_1d : arr1;
  lat_1d : arr1;
  lat_corners_1d : arr1;
  z : arr1;
  i_split : Z;
  i0_before : Z;
  i0_after : Z;
  i1_before : Z;
  i1_after : Z;
  j0_before : Z;
  j0_after : Z;
  j1_before : Z;
  j1_after : Z;
  k0_before : Z;
  k0_after : Z;
  k1_before : Z;
  k1_after : Z;
  nx : Z;
  ny : Z;
  nz : Z;
  hfac : arr3;
  hfac_w : arr3;
  hfac_s : arr3;
  land_mask : mask2;
  land_mask_u : mask2;
  land_mask_v : mask2
}.

(** [data[..., j0_after:j1_after, i0_after:i1_after] =
     data_orig[..., j0_before:j1_before, i0_before:i1_before]] on one
    horizontal slab, and the same with the depth axis. *)
Definition trim2 (self : t) (data data_orig : arr2) : result arr2 :=
  set_slice2 (j0_after self) (j1_after self) (i0_after self) (i1_after self)
    data
    (slice2 data_orig (j0_before self) (j1_before self)
                      (i0_before self) (i1_before self)).
Definition trim3 (self : t) (data data_orig : arr3) : result arr3 :=
  set_slice3 (k0_after self) (k1_after self) (j0_after self) (j1_after self)
    (i0_after self) (i1_after self)
    data
    (slice3 data_orig (k0_before self) (k1_before self)
                      (j0_before self) (j1_before self)
                      (i0_before self) (i1_before self)).

(** [data_orig.shape[0]] *)
Definition shape0 (a : ndarray) : Z :=
  match a with
  | A2 a => len a
  | A3 a => len a
  | A4 a => len a
  end.

(** [read_field (self, file_path, dimensions, fill_value=-9999)]; [file] is
    the array [rdmds] returns for [file_path].  The new array has the rank
    the dimensions ask for; the source has the rank of the file.  With [z]
    among the dimensions the source is indexed with three slices, an
    [IndexError] for a file of rank 2.  The assignment broadcasts: a source
    of lower rank is written to every index of the leading axis, and a source
    of higher rank is accepted when its leading axes have length one. *)
Definition read_field (self : t) (file : ndarray) (dimensions : string)
    (fill_value : option Q) : result ndarray :=
  let fill_value := default (-9999)%Q fill_value in
  if trim_extend self then
    (* Read the field and split along longitude *)
    let data_orig := split_longitude_nd file (i_split self) in
    (* Create a new array of the correct dimension *)
    row ← full (nx self) fill_value;
    slab ← full (ny self) row;
    if has_char "z" dimensions then
      vol ← full (nz self) slab;
      if has_char "t" dimensions then
        data ← full (shape0 data_orig) vol;
        match data_orig with
        | A2 _ => Err IndexError
        | A3 src =>
            v ← trim3 self vol src;
            A4 <$> full (len src) v
        | A4 src => A4 <$> zipM (trim3 self) data src
        end
      else
        match data_orig with
        | A2 _ => Err IndexError
        | A3 src => A3 <$> trim3 self vol src
        | A4 [src] => A3 <$> trim3 self vol src
        | A4 _ => Err ValueError
        end
    else
      if has_char "t" dimensions then
        data ← full (shape0 data_orig) slab;
        match data_orig with
        | A2 src =>
            s ← trim2 self slab src;
            A3 <$> full (len src) s
        | A3 src => A3 <$> zipM (trim2 self) data src
        | A4 [[src]] => (fun s => A3 [s]) <$> trim2 self slab src
        | A4 _ => Err ValueError
        end
      else
        match data_orig with
        | A2 src => A2 <$> trim2 self slab src
        | A3 [src] => A2 <$> trim2 self slab src
        | A4 [[src]] => A2 <$> trim2 self slab src
        | _ => Err ValueError
        end
  else
    (* Nothing fancy to do *)
    Ok file.

(** [self.read_field(grid_dir+name, 'xyz', fill_value=0)], as used by the
    constructor for the three hfac files; the result is of rank 3. *)
Definition read_hfac (self : t) (file : arr3) : result arr3 :=
  r ← read_field self (A3 file) "xyz" (Some 0%Q);
  match r with
  | A3 a => Ok a
  | _ => Err ValueError
  end.

(** The latitudes added south of the grid:
    [np.flipud(-1*(np.arange(j0_after)+1)*sose_res + first)].  The integers
    [-1*(m+1)] become doubles when they are multiplied by [sose_res]; the
    product and the sum are rounded. *)
Definition extend_south (c : constants) (j0_after : Z) (first : Q) : arr1 :=
  reverse (map (fun m => fl_add (fl_mul (of_int (-1 * (m + 1))) (sose_res c))
                                first)
               (range j0_after)).

(** [x*np.ones([n])] *)
Definition ones_times (x : Q) (n : Z) : result arr1 := full n x.

(** What [read_field] promises, in words.  Index [n] of the new array lies in
    the window [lo:hi] of an axis, and [before] is the index of the source it
    is copied from.  A source [covers] the grid if it has the entries the
    "before" indices address.  [aligned2] and [aligned3]: the array has the
    shape of the grid, holds the source inside the three windows and the fill
    value everywhere else. *)
Definition in_window (lo hi : Z) (n : nat) : bool :=
  (lo <=? Z.of_nat n) && (Z.of_nat n <? hi).
Definition before (lo_after lo_before : Z) (n : nat) : nat :=
  Z.to_nat (Z.of_nat n - lo_after + lo_before).

(** The relations between the four indices of an axis of length [n] that the
    constructor establishes. *)
Definition axis_ok (lo_before hi_before lo_after hi_after n : Z) : Prop :=
  0 <= lo_before <= hi_before /\ 0 <= lo_after /\
  hi_after = hi_before - lo_before + lo_after /\ hi_after <= n.
Definition indices_ok (self : t) : Prop :=
  axis_ok (i0_before self) (i1_before self) (i0_after self) (i1_after self)
          (nx self) /\
  axis_ok (j0_before self) (j1_before self) (j0_after self) (j1_after self)
          (ny self) /\
  axis_ok (k0_before self) (k1_before self) (k0_after self) (k1_after self)
          (nz self).

(** One row of [aligned2]. *)
Definition aligned1 (self : t) (fill : Q) (row_orig row : arr1) : Prop :=
  length row = Z.to_nat (nx self) /\
  forall i : nat, Z.of_nat i < nx self ->
    if in_window (i0_after self) (i1_after self) i
    then exists v,
           row_orig !! before (i0_after self) (i0_before self) i = Some v /\
           row !! i = Some v
    else row !! i = Some fill.

Definition covers2 (self : t) (a : arr2) : Prop :=
  j1_before self <= len a /\ Forall (fun r => i1_before self <= len r) a.
Definition covers3 (self : t) (a : arr3) : Prop :=
  k1_before self <= len a /\ Forall (covers2 self) a.

Definition aligned2 (self : t) (fill : Q) (data_orig data : arr2) : Prop :=
  shape2 data (Z.to_nat (ny self)) (Z.to_nat (nx self)) /\
  forall j i : nat, Z.of_nat j < ny self -> Z.of_nat i < nx self ->
    if in_window (j0_after self) (j1_after self) j
       && in_window (i0_after self) (i1_after self) i
    then exists v,
           at2 data_orig (before (j0_after self) (j0_before self) j)
                         (before (i0_after self) (i0_before self) i) = Some v /\
           at2 data j i = Some v
    else at2 data j i = Some fill.

Definition aligned3 (self : t) (fill : Q) (data_orig data : arr3) : Prop :=
  shape3 data (Z.to_nat (nz self)) (Z.to_nat (ny self)) (Z.to_nat (nx self)) /\
  forall k j i : nat,
    Z.of_nat k < nz self -> Z.of_nat j < ny self -> Z.of_nat i < nx self ->
    if in_window (k0_after self) (k1_after self) k
       && in_window (j0_after self) (j1_after self) j
       && in_window (i0_after self) (i1_after self) i
    then exists v,
           at3 data_orig (before (k0_after self) (k0_before self) k)
                         (before (j0_after self) (j0_before self) j)
                         (before (i0_after self) (i0_before self) i) = Some v /\
           at3 data k j i = Some v
    else at3 data k j i = Some fill.

(** The blocks of the constructor that compute the trimming indices. *)

(** Western bound: [i0_before]. *)
Definition western_bound (xmin : Q) (lon_1d : arr1) : result Z :=
  first ← py_index lon_1d 0;
  if Qeq_bool xmin first then Ok 0
  else if Qgtb xmin first then
    n ← nonzero_first (map (fun x => Qgtb x xmin) lon_1d);
    Ok (n - 1)
  else fatal "Error (SOSEGrid): not allowed to extend westward".

(** Eastern bound: [i1_before]. *)
Definition eastern_bound (xmax : Q) (lon_corners_1d : arr1) (sose_nx : Z)
    : result Z :=
  last ← py_index lon_corners_1d (-1);
  if Qeq_bool xmax last then Ok sose_nx
  else if Qltb xmax last then
    n ← nonzero_first (map (fun x => Qgtb x xmax) lon_corners_1d);
    Ok (n + 1)
  else fatal "Error (SOSEGrid): not allowed to extend eastward".

(** Southern bound: [(j0_before, j0_after)].  The number of rows to add is
    [int(np.ceil((self.lat_1d[0]-ymin)/sose_res))], a difference and a
    quotient of doubles; [np.ceil] and [int] are exact.  A zero [sose_res]
    makes the quotient infinite and [int] fail. *)
Definition southern_bound (c : constants) (ymin : Q) (lat_1d : arr1)
    : result (Z * Z) :=
  first ← py_index lat_1d 0;
  if Qeq_bool ymin first then Ok (0, 0)
  else if Qgtb ymin first then
    n ← nonzero_first (map (fun y => Qgtb y ymin) lat_1d);
    Ok (n - 1, 0)
  else if Qltb ymin first then
    if Qeq_bool (sose_res c) 0 then Err OverflowError
    else Ok (0, Qceiling (fl_div (fl_sub first ymin) (sose_res c)))
  else Err AttributeError.

(** Northern bound: [j1_before]. *)
Definition northern_bound (ymax : Q) (lat_corners_1d : arr1) (sose_ny : Z)
    : result Z :=
  last ← py_index lat_corners_1d (-1);
  if Qeq_bool ymax last then Ok sose_ny
  else if Qltb ymax last then
    n ← nonzero_first (map (fun y => Qgtb y ymax) lat_corners_1d);
    Ok (n + 1)
  else fatal "Error (SOSEGrid): not allowed to extend northward".

(** Depth: [(k0_after, k1_before, k1_after, nz)]; [k0_before] is 0. *)
Definition depth_bounds (z_shallow z_deep : Q) (z : arr1) (sose_nz : Z)
    : result (Z * Z * Z * Z) :=
  first ← py_index z 0;
  let k0_after := if Qle_bool z_shallow first then 0 else 1 in
  last ← py_index z (-1);
  k1_before ←
    (if Qgtb z_deep last then
       n ← nonzero_first (map (fun d => Qltb d z_deep) z);
       Ok (n + 1)
     else Ok sose_nz);
  let k1_after := k1_before + k0_after in
  last ← py_index z (-1);
  let nz := if Qltb z_deep last then k1_after + 1 else k1_after in
  Ok (k0_after, k1_before, k1_after, nz).

(** The six checks that close the trimming and extending. *)
Definition check_bounds (lon_corners_1d lat_corners_1d z : arr1)
    (xmin xmax ymin ymax z_shallow z_deep : Q) : result unit :=
  w ← py_index lon_corners_1d 0;
  if Qgtb w xmin then fatal "Error (SOSEGrid): western bound not cleared" else
  e ← py_index lon_corners_1d (-1);
  if Qltb e xmax then fatal "Error (SOSEGrid): eastern bound not cleared" else
  s ← py_index lat_corners_1d 0;
  if Qgtb s ymin then fatal "Error (SOSEGrid): southern bound not cleared" else
  n ← py_index lat_corners_1d (-1);
  if Qltb n ymax then fatal "Error (SOSEGrid): northern bound not cleared" else
  top ← py_index z 0;
  if Qltb top z_shallow then fatal "Error (SOSEGrid): shallow bound not cleared" else
  bottom ← py_index z (-1);
  if Qgtb bottom z_deep then fatal "Error (SOSEGrid): deep bound not cleared" else
  Ok ().

(** The longitude range for [split]; [model_grid = None] switches the
    trimming off.  The two mismatch messages are printed without
    [sys.exit()], so only the evaluation of the tested extremum remains. *)
Definition choose_max_lon (model_grid : option Grid.t) (split : Z) : result Q :=
  match model_grid with
  | Some mg =>
      if split =? 180 then
        _ ← amax2 (Grid.lon_2d mg);
        Ok 180%Q
      else if split =? 0 then
        _ ← amin2 (Grid.lon_2d mg);
        Ok 360%Q
      else fatal "Error (SOSEGrid): split must be 180 or 0"
  | None => Ok 360%Q
  end.

(** The longitude axes, split and checked:
    [(i_split, lon_1d, lon_corners_1d)]. *)
Definition read_longitude (raw : raw_sose) (max_lon : Q) (split : Z)
    : result (Z * arr1 * arr1) :=
  lon_1d ← row0 (fix_lon_range2 (XC raw) (Some max_lon));
  '(i_split, lon_1d) ←
    (if split =? 180 then
       i ← nonzero_first (map (fun x => Qltb x 0) lon_1d);
       Ok (i, split_longitude lon_1d i)
     else Ok (0, lon_1d));
  lon_corners_1d ←
    row0 (split_longitude2 (fix_lon_range2 (XG raw) (Some max_lon)) i_split);
  first ← py_index lon_corners_1d 0;
  let lon_corners_1d :=
    if Qgtb first 0 then <[0%nat := (first - 360)%Q]> lon_corners_1d
    else lon_corners_1d in
  if negb (strictly_increasing lon_1d)
     || negb (strictly_increasing lon_corners_1d) then
    fatal "Error (SOSEGrid): longitude is not strictly increasing"
  else Ok (i_split, lon_1d, lon_corners_1d).

(** The object once its hfac arrays and land masks are assigned. *)
Definition with_hfac (self : t) (h hw hs : arr3) (m mu mv : mask2) : t :=
  {| trim_extend := trim_extend self;
     lon_1d := lon_1d self; lon_corners_1d := lon_corners_1d self;
     lat_1d := lat_1d self; lat_corners_1d := lat_corners_1d self;
     z := z self; i_split := i_split self;
     i0_before := i0_before self; i0_after := i0_after self;
     i1_before := i1_before self; i1_after := i1_after self;
     j0_before := j0_before self; j0_after := j0_after self;
     j1_before := j1_before self; j1_after := j1_after self;
     k0_before := k0_before self; k0_after := k0_after self;
     k1_before := k1_before self; k1_after := k1_after self;
     nx := nx self; ny := ny self; nz := nz self;
     hfac := h; hfac_w := hw; hfac_s := hs;
     land_mask := m; land_mask_u := mu; land_mask_v := mv |}.

(** The part of the constructor under [if self.trim_extend:], up to the six
    checks: the object with its axes trimmed and extended. *)
Definition trim_axes (c : constants) (mg : Grid.t) (i_split : Z)
    (lon_1d lon_corners_1d lat_1d lat_corners_1d z : arr1) : result t :=
  let sose_nx := len lon_1d in
  let sose_ny := len lat_1d in
  let sose_nz := len z in
  (* Find bounds on model grid *)
  xmin ← amin2 (Grid.lon_corners_2d mg);
  xmax ← amax2 (Grid.lon_2d mg);
  ymin ← amin2 (Grid.lat_corners_2d mg);
  ymax ← amax2 (Grid.lat_2d mg);
  z_shallow ← py_index (Grid.z mg) 0;
  z_deep ← py_index (Grid.z mg) (-1);
  i0_before ← western_bound xmin lon_1d;
  let i0_after := 0 in
  i1_before ← eastern_bound xmax lon_corners_1d sose_nx;
  let i1_after := i1_before - i0_before + i0_after in
  let nx := i1_after in
  '(j0_before, j0_after) ← southern_bound c ymin lat_1d;
  j1_before ← northern_bound ymax lat_corners_1d sose_ny;
  let j1_after := j1_before - j0_before + j0_after in
  let ny := j1_after in
  let k0_before := 0 in
  '(k0_after, k1_before, k1_after, nz) ← depth_bounds z_shallow z_deep z sose_nz;
  (* Longitude: can only trim *)
  let lon_1d' := py_slice lon_1d (Some i0_before) (Some i1_before) in
  let lon_corners_1d' :=
    py_slice lon_corners_1d (Some i0_before) (Some i1_before) in
  (* Latitude: can extend on south side, trim on both sides *)
  first ← py_index lat_1d j0_before;
  let lat_extend := extend_south c j0_after first in
  let lat_trim := py_slice lat_1d (Some j0_before) (Some j1_before) in
  let lat_1d' := lat_extend ++ lat_trim in
  first_corner ← py_index lat_corners_1d j0_before;
  let lat_corners_extend := extend_south c j0_after first_corner in
  let lat_corners_trim :=
    py_slice lat_corners_1d (Some j0_before) (Some j1_before) in
  let lat_corners_1d' := lat_corners_extend ++ lat_corners_trim in
  (* Depth: can extend on both sides, trim on deep side *)
  z_above ← ones_times 0 k0_after;
  let z_middle := py_slice z (Some k0_before) (Some k1_before) in
  mz1 ← py_index (Grid.z mg) (-1);
  mz2 ← py_index (Grid.z mg) (-2);
  z_below ← ones_times (2 * mz1 - mz2)%Q (nz - k1_after);
  let z' := z_above ++ z_middle ++ z_below in
  (* Make sure we cleared those bounds *)
  _ ← check_bounds lon_corners_1d' lat_corners_1d' z'
        xmin xmax ymin ymax z_shallow z_deep;
  Ok {| trim_extend := true;
        lon_1d := lon_1d'; lon_corners_1d := lon_corners_1d';
        lat_1d := lat_1d'; lat_corners_1d := lat_corners_1d';
        z := z'; i_split := i_split;
        i0_before := i0_before; i0_after := i0_after;
        i1_before := i1_before; i1_after := i1_after;
        j0_before := j0_before; j0_after := j0_after;
        j1_before := j1_before; j1_after := j1_after;
        k0_before := k0_before; k0_after := k0_after;
        k1_before := k1_before; k1_after := k1_after;
        nx := nx; ny := ny; nz := nz;
        hfac := []; hfac_w := []; hfac_s := [];
        land_mask := []; land_mask_u := []; land_mask_v := [] |}.

(** [SOSEGrid.__init__ (self, grid_dir, model_grid=None, split=0)] *)
Definition init (c : constants) (raw : raw_sose) (model_grid : option Grid.t)
    (split : option Z) : result t :=
  let split := default 0 split in
  max_lon ← choose_max_lon model_grid split;
  '(i_split, lon_1d, lon_corners_1d) ← read_longitude raw max_lon split;
  (* Read latitude at cell centres and corners, and depth *)
  lat_1d ← col0 (YC raw);
  lat_corners_1d ← col0 (YG raw);
  let z := RC raw in
  '(self, h, hw, hs) ←
    match model_grid with
    | Some mg =>
        self ← trim_axes c mg i_split lon_1d lon_corners_1d
                 lat_1d lat_corners_1d z;
        (* Now read the rest of the variables we need *)
        h ← read_hfac self (hFacC raw);
        hw ← read_hfac self (hFacW raw);
        hs ← read_hfac self (hFacS raw);
        Ok (self, h, hw, hs)
    | None =>
        Ok ({| trim_extend := false;
               lon_1d := lon_1d; lon_corners_1d := lon_corners_1d;
               lat_1d := lat_1d; lat_corners_1d := lat_corners_1d;
               z := z; i_split := i_split;
               i0_before := 0; i0_after := 0; i1_before := 0; i1_after := 0;
               j0_before := 0; j0_after := 0; j1_before := 0; j1_after := 0;
               k0_before := 0; k0_after := 0; k1_before := 0; k1_after := 0;
               nx := len lon_1d; ny := len lat_1d; nz := len z;
               hfac := []; hfac_w := []; hfac_s := [];
               land_mask := []; land_mask_u := []; land_mask_v := [] |},
            hFacC raw, hFacW raw, hFacS raw)
    end;
  (* Create land masks *)
  m ← Grid.build_land_mask h;
  mu ← Grid.build_land_mask hw;
  mv ← Grid.build_land_mask hs;
  Ok (with_hfac self h hw hs m mu mv).

(** [get_lon_lat (self, gtype='t', dim=1)]; an argument left out is [None]. *)
Definition get_lon_lat (self : t) (gtype : option string) (dim : option Z)
    : result (Grid.coord_array * Grid.coord_array) :=
  let gtype := default "t"%string gtype in
  let dim := default 1 dim in
  if negb (dim =? 1) then
    fatal "Error (get_lon_lat): must have dim=1 for SOSE grid"
  else if String.eqb gtype "t" || String.eqb gtype "w" then
    Ok (Grid.Rank1 (lon_1d self), Grid.Rank1 (lat_1d self))
  else if String.eqb gtype "u" then
    Ok (Grid.Rank1 (lon_corners_1d self), Grid.Rank1 (lat_1d self))
  else if String.eqb gtype "v" then
    Ok (Grid.Rank1 (lon_1d self), Grid.Rank1 (lat_corners_1d self))
  else if String.eqb gtype "psi" then
    Ok (Grid.Rank1 (lon_corners_1d self), Grid.Rank1 (lat_corners_1d self))
  else fatal ("Error (get_lon_lat): invalid gtype " ++ gtype).

(** The functions inherited from [Grid] that a SOSE grid does not want. *)
Definition build_ice_mask (self : t) (hfac : arr3) : result mask2 :=
  fatal "Error (SOSEGrid): no ice shelves to mask".
Definition build_fris_mask (self : t) (hfac : arr3) : result mask2 :=
  fatal "Error (SOSEGrid): no ice shelves to mask".
Definition get_ice_mask (self : t) (gtype : option string) : result mask2 :=
  fatal "Error (SOSEGrid): no ice shelves to mask".
Definition get_fris_mask (self : t) (gtype : option string) : result mask2 :=
  fatal "Error (SOSEGrid): no ice shelves to mask".

End SOSEGrid.

(** ** Sample grids

    A 4 x 4 x 3 model domain whose top layer is half filled by ice
    ([hfac = 0.5], then two full cells: a water column of 25 m below a draft
    of 5 m), and a coarse SOSE grid around it.  The constants are sample
    values of the right kind (boxes in degrees, a resolution of 1/6 degree). *)

Module Examples.

Definition consts : constants :=
  {| fris_bounds := Bounds (-85) (-29) (-84) (-74);
     ewed_bounds := Bounds (-30) 40 (-77) (-65);
     sose_res := 1 # 6;
     sws_shelf_bounds := Bounds (-70) (-30) (-79) (-72) |}.

Definition layer (h : Q) : arr2 := replicate 4 (replicate 4 h).

(** The model grid files, with the centre longitudes [lon] and the centre
    latitudes [lat]. *)
Definition model_raw (lon lat : arr1) : Grid.raw_grid :=
  let lon_c := map (fun x => x - 5)%Q lon in
  let lat_c := map (fun y => y - (1 # 10))%Q lat in
  {| Grid.XY := Grid.Coords2D (fst (meshgrid lon lat)) (snd (meshgrid lon lat))
                  (fst (meshgrid lon_c lat_c)) (snd (meshgrid lon_c lat_c));
     Grid.DXG := layer 1000; Grid.DYG := layer 1000; Grid.RAC := layer 1000000;
     Grid.RC := [-5; -15; -25]%Q;
     Grid.RF := [0; -10; -20; -30]%Q;
     Grid.DRF := [10; 10; 10]%Q;
     Grid.DRC := [5; 10; 10; 5]%Q;
     Grid.hFacC := [layer (1 # 2); layer 1; layer 1];
     Grid.hFacW := [layer (1 # 2); layer 1; layer 1];
     Grid.hFacS := [layer (1 # 2); layer 1; layer 1];
     Grid.Depth := layer 25 |}.

(** Two layers over a row of two points: a dry column and a wet one. *)
Definition small_hfac : arr3 := [[[0; 1 # 2]]; [[0; 1]]]%Q.

Definition weddell_raw : Grid.raw_grid :=
  model_raw [-60; -50; -40; -30]%Q [-703 # 10; -701 # 10; -699 # 10; -697 # 10]%Q.

(** The same cavity under the Filchner-Ronne Ice Shelf, across 45W. *)
Definition fris_raw : Grid.raw_grid :=
  model_raw [-60; -50; -45; -40]%Q [-80; -78; -76; -74]%Q.

(** A domain across 180E whose files give longitude in the range 0-360. *)
Definition dateline_raw : Grid.raw_grid :=
  model_raw [170; 175; 185; 190]%Q [-703 # 10; -701 # 10; -699 # 10; -697 # 10]%Q.

(** A 2 x 2 x 3 domain with a land column at [(0,0)], open ocean at
    [(0,1)], an ice shelf cavity at [(1,0)] and a shallow column at
    [(1,1)]. *)
Definition open_raw : Grid.raw_grid :=
  let lon := [-60; -50]%Q in
  let lat := [-76; -74]%Q in
  let lon_c := [-65; -55]%Q in
  let lat_c := [-77; -75]%Q in
  let h := [ [[0; 1]; [1 # 2; 1]]; [[0; 1]; [1; 1 # 4]]; [[0; 1]; [1; 0]] ]%Q in
  {| Grid.XY := Grid.Coords2D (fst (meshgrid lon lat)) (snd (meshgrid lon lat))
                  (fst (meshgrid lon_c lat_c)) (snd (meshgrid lon_c lat_c));
     Grid.DXG := replicate 2 (replicate 2 1000%Q);
     Grid.DYG := replicate 2 (replicate 2 1000%Q);
     Grid.RAC := replicate 2 (replicate 2 1000000%Q);
     Grid.RC := [-5; -15; -25]%Q;
     Grid.RF := [0; -10; -20; -30]%Q;
     Grid.DRF := [10; 10; 10]%Q;
     Grid.DRC := [5; 10; 10; 5]%Q;
     Grid.hFacC := h; Grid.hFacW := h; Grid.hFacS := h;
     Grid.Depth := [[0; 30]; [25; 25 # 2]]%Q |}.

(** A SOSE-like field of 2 x 4 x 6 values that tell their index. *)
Definition sose_field : arr3 :=
  map (fun k => map (fun j => map (fun i =>
         inject_Z (100 * k + 10 * j + i) / 1000)%Q (range 6)) (range 4)) (range 2).

Definition sose_raw : SOSEGrid.raw_sose :=
  let lon := [30; 90; 150; 210; 270; 330]%Q in
  let lon_c := [0; 60; 120; 180; 240; 300]%Q in
  let lat := [-70; -419 # 6; -209 # 3; -139 # 2]%Q in
  let lat_c := map (fun y => y - (1 # 12))%Q lat in
  {| SOSEGrid.XC := fst (meshgrid lon lat);
     SOSEGrid.YC := snd (meshgrid lon lat);
     SOSEGrid.XG := fst (meshgrid lon_c lat_c);
     SOSEGrid.YG := snd (meshgrid lon_c lat_c);
     SOSEGrid.RC := [-10; -20]%Q;
     SOSEGrid.hFacC := sose_field;
     SOSEGrid.hFacW := sose_field;
     SOSEGrid.hFacS := sose_field |}.

(** Grids whose values are all doubles.  The resolution is the double
    [1/6.]; the model domain reaches half a degree south of the first SOSE
    latitude, [-70]. *)
Definition consts64 : constants :=
  {| fris_bounds := Bounds (-85) (-29) (-84) (-74);
     ewed_bounds := Bounds (-30) 40 (-77) (-65);
     sose_res := 6004799503160661 # 36028797018963968;
     sws_shelf_bounds := Bounds (-70) (-30) (-79) (-72) |}.

Definition south_model_raw : Grid.raw_grid :=
  let lon := [-60; -50; -40; -30]%Q in
  let lat := [-563 # 8; -561 # 8; -559 # 8; -557 # 8]%Q in
  let lon_c := [-65; -55; -45; -35]%Q in
  let lat_c := [-141 # 2; -281 # 4; -70; -279 # 4]%Q in
  {| Grid.XY := Grid.Coords2D (fst (meshgrid lon lat)) (snd (meshgrid lon lat))
                  (fst (meshgrid lon_c lat_c)) (snd (meshgrid lon_c lat_c));
     Grid.DXG := layer 1000; Grid.DYG := layer 1000; Grid.RAC := layer 1000000;
     Grid.RC := [-5; -15; -25]%Q;
     Grid.RF := [0; -10; -20; -30]%Q;
     Grid.DRF := [10; 10; 10]%Q;
     Grid.DRC := [5; 10; 10; 5]%Q;
     Grid.hFacC := [layer (1 # 2); layer 1; layer 1];
     Grid.hFacW := [layer (1 # 2); layer 1; layer 1];
     Grid.hFacS := [layer (1 # 2); layer 1; layer 1];
     Grid.Depth := layer 25 |}.

Definition south_sose_raw : SOSEGrid.raw_sose :=
  let lon := [30; 90; 150; 210; 270; 330]%Q in
  let lon_c := [0; 60; 120; 180; 240; 300]%Q in
  let lat := [-70; -279 # 4; -139 # 2; -277 # 4]%Q in
  let lat_c := [-561 # 8; -559 # 8; -557 # 8; -555 # 8]%Q in
  let h := replicate 2 (replicate 4 (replicate 6 1%Q)) in
  {| SOSEGrid.XC := fst (meshgrid lon lat);
     SOSEGrid.YC := snd (meshgrid lon lat);
     SOSEGrid.XG := fst (meshgrid lon_c lat_c);
     SOSEGrid.YG := snd (meshgrid lon_c lat_c);
     SOSEGrid.RC := [-10; -20]%Q;
     SOSEGrid.hFacC := h;
     SOSEGrid.hFacW := h;
     SOSEGrid.hFacS := h |}.

End Examples.

(** * Properties *)

(** ** The error monad *)

Lemma bind_Ok {A B : Type} (m : result A) (f : A -> result B) (b : B) :
  m ≫= f = Ok b -> exists a, m = Ok a /\ f a = Ok b.
Proof. destruct m as [a|e]; simpl; [eauto | discriminate]. Qed.

(** Take a successful run apart, one statement at a time. *)
Ltac run H :=
  repeat match type of H with
  | _ ≫= _ = Ok _ =>
      let x := fresh "x" in let Hx := fresh "H" x in
      apply bind_Ok in H as (x & Hx & H)
  | (let '(_, _) := ?p in _) = Ok _ => destruct p
  | (if ?b then _ else _) = Ok _ =>
      let Hb := fresh "Hb" in destruct b eqn:Hb; [| try discriminate H]
  | (if ?b then _ else _) = Ok _ =>
      let Hb := fresh "Hb" in destruct b eqn:Hb; [try discriminate H |]
  | fatal _ = Ok _ => discriminate H
  | Err _ = Ok _ => discriminate H
  end.

Lemma zipM_Forall3 {A B C : Type} (f : A -> B -> result C) l1 l2 r :
  zipM f l1 l2 = Ok r <-> Forall3 (fun x y z => f x y = Ok z) l1 l2 r.
Proof.
  split.
  - revert l2 r. induction l1 as [|x l1 IH]; intros [|y l2] r H; simpl in H;
      try discriminate.
    + injection H as <-. constructor.
    + apply bind_Ok in H as (z0 & Hz & H).
      apply bind_Ok in H as (zs & Hzs & H). injection H as <-.
      constructor; auto.
  - induction 1 as [|x y z0 l1 l2 r Hf _ IH]; simpl; [done|].
    rewrite Hf. simpl. rewrite IH. done.
Qed.

Lemma zipM_length {A B C : Type} (f : A -> B -> result C) l1 l2 r :
  zipM f l1 l2 = Ok r -> length l2 = length l1 /\ length r = length l1.
Proof.
  rewrite zipM_Forall3. intros H. split.
  - symmetry. eapply Forall3_length_lm, H.
  - symmetry. eapply Forall3_length_lr, H.
Qed.

Lemma zipM_lookup {A B C : Type} (f : A -> B -> result C) l1 l2 r i z0 :
  zipM f l1 l2 = Ok r -> r !! i = Some z0 ->
  exists x y, l1 !! i = Some x /\ l2 !! i = Some y /\ f x y = Ok z0.
Proof.
  rewrite zipM_Forall3. intros H Hi.
  destruct (Forall3_lookup_r _ _ _ _ _ _ H Hi) as (x & y & ? & ? & ?). eauto.
Qed.

Lemma mapM_Forall2 {A B : Type} (f : A -> result B) l r :
  mapM f l = Ok r <-> Forall2 (fun x y => f x = Ok y) l r.
Proof.
  split.
  - revert r. induction l as [|x l IH]; intros r H; simpl in H.
    + injection H as <-. constructor.
    + apply bind_Ok in H as (y & Hy & H).
      apply bind_Ok in H as (ys & Hys & H). injection H as <-.
      constructor; auto.
  - induction 1 as [|x y l r Hf _ IH]; simpl; [done|].
    rewrite Hf. simpl. rewrite IH. done.
Qed.

(** ** Elementwise operations *)

Lemma zip2_at {A B C : Type} (f : A -> B -> C) a b r j i v :
  zip2 f a b = Ok r -> at2 r j i = Some v ->
  exists x y, at2 a j i = Some x /\ at2 b j i = Some y /\ v = f x y.
Proof.
  unfold zip2, at2. intros H Hv.
  destruct (r !! j) as [rr|] eqn:Hr; [simpl in Hv | discriminate].
  destruct (zipM_lookup _ _ _ _ _ _ H Hr) as (ra & rb & Ha & Hb & Hrow).
  destruct (zipM_lookup _ _ _ _ _ _ Hrow Hv) as (x & y & Hx & Hy & [= <-]).
  exists x, y. rewrite Ha, Hb. simpl. auto.
Qed.

Lemma zip2_shape {A B C : Type} (f : A -> B -> C) a b r j i :
  zip2 f a b = Ok r ->
  (is_Some (at2 r j i) <-> is_Some (at2 a j i)) /\
  (is_Some (at2 r j i) <-> is_Some (at2 b j i)).
Proof.
  unfold zip2. rewrite zipM_Forall3. intros H.
  assert (Hrow : forall ra rb rr, a !! j = Some ra -> b !! j = Some rb ->
            r !! j = Some rr -> length rb = length ra /\ length rr = length ra).
  { intros ra rb rr Ha Hb Hr.
    pose proof (Forall3_lookup_lmr _ _ _ _ _ _ _ _ H Ha Hb Hr) as Hz.
    apply zipM_length in Hz. done. }
  pose proof (Forall3_length_lm _ _ _ _ H) as Hlm.
  pose proof (Forall3_length_lr _ _ _ _ H) as Hlr.
  unfold at2.
  destruct (a !! j) as [ra|] eqn:Ha.
  - destruct (lookup_lt_is_Some_2 b j) as [rb Hb].
    { rewrite <- Hlm. eapply lookup_lt_Some, Ha. }
    destruct (lookup_lt_is_Some_2 r j) as [rr Hr].
    { rewrite <- Hlr. eapply lookup_lt_Some, Ha. }
    rewrite Hb, Hr. simpl.
    destruct (Hrow _ _ _ eq_refl Hb Hr) as [E1 E2].
    rewrite !lookup_lt_is_Some, E1, E2. tauto.
  - apply lookup_ge_None in Ha.
    rewrite (proj2 (lookup_ge_None b j)) by lia.
    rewrite (proj2 (lookup_ge_None r j)) by lia.
    simpl. split; split; intros [? [=]].
Qed.

(** ** What a successful [Grid.__init__] has computed *)

Lemma Grid_init_inv c raw x_is_lon max_lon g :
  Grid.init c raw x_is_lon max_lon = Ok g ->
  Grid.hfac g = Grid.hFacC raw /\ Grid.hfac_w g = Grid.hFacW raw /\
  Grid.hfac_s g = Grid.hFacS raw /\
  Grid.z_edges g = Grid.RF raw /\ Grid.dz g = Grid.DRF raw /\
  Grid.wct g = Grid.Depth raw /\ Grid.z g = Grid.RC raw /\
  Grid.nx g = len (Grid.lon_1d g) /\ Grid.ny g = len (Grid.lat_1d g) /\
  Grid.nz g = len (Grid.z g) /\
  Grid.calc_draft (Grid.hfac g) (Grid.z_edges g) (Grid.dz g)
    (Grid.nx g) (Grid.ny g) (Grid.nz g) = Ok (Grid.draft g) /\
  zip2 Qminus (Grid.draft g) (Grid.wct g) = Ok (Grid.bathy g) /\
  Grid.build_land_mask (Grid.hfac g) = Ok (Grid.land_mask g) /\
  Grid.build_land_mask (Grid.hfac_w g) = Ok (Grid.land_mask_u g) /\
  Grid.build_land_mask (Grid.hfac_s g) = Ok (Grid.land_mask_v g) /\
  Grid.build_ice_mask (Grid.hfac g) = Ok (Grid.ice_mask g) /\
  Grid.build_ice_mask (Grid.hfac_w g) = Ok (Grid.ice_mask_u g) /\
  Grid.build_ice_mask (Grid.hfac_s g) = Ok (Grid.ice_mask_v g) /\
  Grid.build_fris_mask c (Grid.ice_mask g) (Grid.lon_2d g) (Grid.lat_2d g)
    = Ok (Grid.fris_mask g) /\
  Grid.build_fris_mask c (Grid.ice_mask_u g) (Grid.lon_corners_2d g)
    (Grid.lat_2d g) = Ok (Grid.fris_mask_u g) /\
  Grid.build_fris_mask c (Grid.ice_mask_v g) (Grid.lon_2d g)
    (Grid.lat_corners_2d g) = Ok (Grid.fris_mask_v g).
Proof.
  unfold Grid.init. intros H.
  apply bind_Ok in H as ([[[[[[[l2 a2] lc2] ac2] l1] a1] lc1] ac1] & _ & H).
  apply bind_Ok in H as ([l1' ml] & _ & H).
  run H. injection H as <-. simpl.
  repeat split; assumption.
Qed.

(** ** Indexing *)

Lemma lookup_map {A B : Type} (f : A -> B) (l : list A) (i : nat) :
  map f l !! i = f <$> l !! i.
Proof. exact (list_lookup_fmap f l i). Qed.

Lemma at2_map {A B : Type} (f : A -> B) (a : list (list A)) j i :
  at2 (map (map f) a) j i = f <$> at2 a j i.
Proof.
  unfold at2. rewrite lookup_map. destruct (a !! j) as [r|]; simpl; [|done].
  apply lookup_map.
Qed.


Lemma py_index_nonneg {A : Type} (l : list A) n x :
  0 <= n -> py_index l n = Ok x -> l !! Z.to_nat n = Some x.
Proof.
  unfold py_index. intros Hn.
  destruct (n <? 0) eqn:E; [lia|]. destruct (n <? 0); [discriminate|].
  destruct (l !! Z.to_nat n); [intros [= ->]; done | discriminate].
Qed.

Lemma py_index_first {A : Type} (l : list A) x :
  py_index l 0 = Ok x -> l !! 0%nat = Some x.
Proof. apply py_index_nonneg. lia. Qed.

Lemma py_index_last {A : Type} (l : list A) x :
  py_index l (-1) = Ok x -> last l = Some x.
Proof.
  unfold py_index, len. simpl.
  destruct (-1 + Z.of_nat (length l) <? 0) eqn:E; [discriminate|].
  apply Z.ltb_ge in E.
  destruct (l !! _) eqn:Hl; [|discriminate]. intros [= ->].
  rewrite last_lookup. rewrite <- Hl. f_equal. lia.
Qed.

Lemma full_Ok {A : Type} (n : Z) (x : A) l :
  full n x = Ok l -> 0 <= n /\ l = replicate (Z.to_nat n) x.
Proof.
  unfold full. destruct (n <? 0) eqn:E; [discriminate|].
  apply Z.ltb_ge in E. intros [= <-]. done.
Qed.

Lemma shape2_replicate {A : Type} (ny nx : nat) (x : A) :
  shape2 (replicate ny (replicate nx x)) ny nx.
Proof.
  split; [apply length_replicate|].
  apply Forall_replicate, length_replicate.
Qed.

Lemma at2_replicate {A : Type} (ny nx : nat) (x : A) j i :
  (j < ny)%nat -> (i < nx)%nat ->
  at2 (replicate ny (replicate nx x)) j i = Some x.
Proof.
  intros Hj Hi. unfold at2.
  rewrite (proj2 (lookup_replicate _ _ _ _)) by done. simpl.
  apply lookup_replicate. done.
Qed.

(** ** The draft loop *)

Lemma at2_assign_where index values (d : Grid.nan_arr2) j i :
  at2 (Grid.assign_where index values d) j i =
  (b ← at2 index j i; v ← at2 values j i; o ← at2 d j i;
   Some (if b : bool then Some v else o)).
Proof.
  unfold at2, Grid.assign_where.
  rewrite !lookup_zip_with.
  destruct (index !! j) as [ri|]; simpl; [|done].
  destruct (values !! j) as [rv|]; simpl.
  2: { destruct (ri !! i); done. }
  destruct (d !! j) as [rd|]; simpl.
  2: { destruct (ri !! i); simpl; [|done]. destruct (rv !! i); done. }
  rewrite !lookup_zip_with.
  destruct (ri !! i); simpl; [|done].
  destruct (rv !! i); simpl; [|done].
  destruct (rd !! i); done.
Qed.

(** The value of one cell after one turn of the loop. *)
Lemma draft_step_at hfac z_edges dz d k d' :
  0 <= k -> Grid.draft_step hfac z_edges dz d k = Ok d' ->
  exists layer ze dzk,
    hfac !! Z.to_nat k = Some layer /\ z_edges !! Z.to_nat k = Some ze /\
    dz !! Z.to_nat k = Some dzk /\
    forall j i,
      (is_Some (at2 d' j i) <-> is_Some (at2 d j i)) /\
      forall old, at2 d j i = Some old ->
        exists h, at2 layer j i = Some h /\
          at2 d' j i = Some (if Qneqb h 0 && bool_decide (old = None)
                             then Some (ze - dzk * (1 - h))%Q else old).
Proof.
  intros Hk H. unfold Grid.draft_step in H. run H. injection H as <-.
  rename x into layer, x0 into index, x1 into ze, x2 into dzk.
  exists layer, ze, dzk.
  repeat split; try (apply py_index_nonneg; assumption).
  - rewrite at2_assign_where. intros [v Hv].
    destruct (at2 index j i) as [b|] eqn:Hb; [|discriminate].
    destruct (zip2_at _ _ _ _ _ _ _ Hx0 Hb) as (p & q & _ & Hq & _).
    unfold Grid.isnan2 in Hq. rewrite at2_map in Hq.
    destruct (at2 d j i); [eauto | discriminate].
  - intros Hd. rewrite at2_assign_where.
    pose proof (zip2_shape _ _ _ _ j i Hx0) as [S1 S2].
    assert (Hi : is_Some (at2 index j i)).
    { apply S2. unfold Grid.isnan2. rewrite at2_map.
      destruct Hd as [o ->]. eauto. }
    destruct Hi as [b Hb]. rewrite Hb. simpl.
    destruct (zip2_at _ _ _ _ _ _ _ Hx0 Hb) as (p & q & Hp & _ & _).
    unfold cmp2 in Hp. rewrite at2_map in Hp.
    destruct (at2 layer j i) as [h|] eqn:Hh; [|discriminate].
    rewrite at2_map, Hh. simpl. destruct Hd as [o ->]. eauto.
  - intros old Hold.
    pose proof (zip2_shape _ _ _ _ j i Hx0) as [S1 S2].
    assert (Hi : is_Some (at2 index j i)).
    { apply S2. unfold Grid.isnan2. rewrite at2_map, Hold. eauto. }
    destruct Hi as [b Hb].
    destruct (zip2_at _ _ _ _ _ _ _ Hx0 Hb) as (p & q & Hp & Hq & ->).
    unfold cmp2 in Hp. unfold Grid.isnan2 in Hq.
    rewrite at2_map in Hp. rewrite at2_map, Hold in Hq.
    destruct (at2 layer j i) as [h|] eqn:Hh; [|discriminate].
    injection Hp as <-. injection Hq as <-.
    exists h. split; [done|].
    rewrite at2_assign_where, Hb, at2_map, Hh, Hold. simpl. done.
Qed.

Lemma Qneqb_true (x y : Q) : Qneqb x y = true <-> ~ x == y.
Proof.
  unfold Qneqb. rewrite negb_true_iff, <- not_true_iff_false, Qeq_bool_iff.
  tauto.
Qed.

Lemma Qneqb_false (x y : Q) : Qneqb x y = false <-> x == y.
Proof. unfold Qneqb. rewrite negb_false_iff. apply Qeq_bool_iff. Qed.

Lemma draft_loop_shape hfac z_edges dz ks : forall d d' j i,
  Forall (fun k => 0 <= k) ks ->
  Grid.draft_loop hfac z_edges dz d ks = Ok d' ->
  (is_Some (at2 d' j i) <-> is_Some (at2 d j i)).
Proof.
  induction ks as [|k ks IH]; intros d d' j i Hks H; simpl in H.
  - injection H as <-. tauto.
  - apply Forall_cons in Hks as [Hk Hks]. run H.
    destruct (draft_step_at _ _ _ _ _ _ Hk Hx) as (? & ? & ? & _ & _ & _ & Hs).
    rewrite (IH _ _ j i Hks H). apply Hs.
Qed.

(** A cell that has its draft keeps it. *)
Lemma draft_loop_keep hfac z_edges dz ks : forall d d' j i v,
  Forall (fun k => 0 <= k) ks ->
  Grid.draft_loop hfac z_edges dz d ks = Ok d' ->
  at2 d j i = Some (Some v) -> at2 d' j i = Some (Some v).
Proof.
  induction ks as [|k ks IH]; intros d d' j i v Hks H Hd; simpl in H.
  - injection H as <-. done.
  - apply Forall_cons in Hks as [Hk Hks]. run H.
    destruct (draft_step_at _ _ _ _ _ _ Hk Hx) as (? & ? & ? & _ & _ & _ & Hs).
    destruct (Hs j i) as [_ Hv]. destruct (Hv _ Hd) as (h & _ & Hx').
    rewrite andb_false_r in Hx'. eauto.
Qed.

(** A cell stays NaN as long as the layers above it are dry. *)
Lemma draft_loop_dry hfac z_edges dz ks : forall d d' j i,
  Forall (fun k => 0 <= k) ks ->
  Grid.draft_loop hfac z_edges dz d ks = Ok d' ->
  at2 d j i = Some None ->
  (forall k h, k ∈ ks -> at3 hfac (Z.to_nat k) j i = Some h -> h == 0) ->
  at2 d' j i = Some None.
Proof.
  induction ks as [|k ks IH]; intros d d' j i Hks H Hd Hdry; simpl in H.
  - injection H as <-. done.
  - apply Forall_cons in Hks as [Hk Hks]. run H.
    destruct (draft_step_at _ _ _ _ _ _ Hk Hx)
      as (layer & ? & ? & Hl & _ & _ & Hs).
    destruct (Hs j i) as [_ Hv]. destruct (Hv _ Hd) as (h & Hh & Hx').
    assert (E : h == 0).
    { apply (Hdry k); [left|]. unfold at3. rewrite Hl. done. }
    apply Qneqb_false in E. rewrite E in Hx'. simpl in Hx'.
    apply (IH _ _ j i Hks H Hx').
    intros k' h' Hin. apply Hdry. right. done.
Qed.

(** The first wet layer of a column sets its draft. *)
Lemma draft_loop_wet hfac z_edges dz ks1 k ks2 : forall d d' j i h,
  Forall (fun k => 0 <= k) (ks1 ++ k :: ks2) ->
  Grid.draft_loop hfac z_edges dz d (ks1 ++ k :: ks2) = Ok d' ->
  at2 d j i = Some None ->
  (forall k' h', k' ∈ ks1 -> at3 hfac (Z.to_nat k') j i = Some h' -> h' == 0) ->
  at3 hfac (Z.to_nat k) j i = Some h -> ~ h == 0 ->
  exists ze dzk,
    z_edges !! Z.to_nat k = Some ze /\ dz !! Z.to_nat k = Some dzk /\
    at2 d' j i = Some (Some (ze - dzk * (1 - h))%Q).
Proof.
  induction ks1 as [|k1 ks1 IH]; intros d d' j i h Hks H Hd Hdry Hh Hne;
    simpl in H, Hks; apply Forall_cons in Hks as [Hk Hks]; run H.
  - destruct (draft_step_at _ _ _ _ _ _ Hk Hx)
      as (layer & ze & dzk & Hl & Hze & Hdz & Hs).
    destruct (Hs j i) as [_ Hv]. destruct (Hv _ Hd) as (h' & Hh' & Hx').
    unfold at3 in Hh. rewrite Hl in Hh. simpl in Hh.
    rewrite Hh in Hh'. injection Hh' as <-.
    apply Qneqb_true in Hne. rewrite Hne in Hx'. simpl in Hx'.
    exists ze, dzk. repeat split; try done.
    eapply draft_loop_keep; eauto.
  - destruct (draft_step_at _ _ _ _ _ _ Hk Hx)
      as (layer & ? & ? & Hl & _ & _ & Hs).
    destruct (Hs j i) as [_ Hv]. destruct (Hv _ Hd) as (h1 & Hh1 & Hx').
    assert (E : h1 == 0).
    { apply (Hdry k1); [left|]. unfold at3. rewrite Hl. done. }
    apply Qneqb_false in E. rewrite E in Hx'. simpl in Hx'.
    apply (IH _ _ j i h Hks H Hx'); try done.
    intros k' h' Hin. apply Hdry. right. done.
Qed.

Lemma range_nonneg (n : Z) : Forall (fun k => 0 <= k) (range n).
Proof. unfold range. apply Forall_forall. intros k Hk.
  apply list_elem_of_In, in_map_iff in Hk as (m & <- & _). lia. Qed.

Lemma range_elem (n k : Z) : k ∈ range n <-> 0 <= k < n.
Proof.
  unfold range. rewrite list_elem_of_In, in_map_iff. split.
  - intros (m & <- & Hm). apply in_seq in Hm. lia.
  - intros Hk. exists (Z.to_nat k). split; [lia|]. apply in_seq. lia.
Qed.

Lemma range_split (n : Z) (k : nat) :
  Z.of_nat k < n ->
  exists rest, range n = range (Z.of_nat k) ++ Z.of_nat k :: rest.
Proof.
  intros Hk. unfold range.
  replace (Z.to_nat n) with (k + S (Z.to_nat n - S k))%nat by lia.
  rewrite seq_app, map_app, Nat2Z.id. simpl. eauto.
Qed.

Lemma draft_loop_layers hfac z_edges dz ks : forall d d' j i k,
  Forall (fun k => 0 <= k) ks ->
  Grid.draft_loop hfac z_edges dz d ks = Ok d' ->
  k ∈ ks -> is_Some (at2 d j i) -> is_Some (at3 hfac (Z.to_nat k) j i).
Proof.
  induction ks as [|k0 ks IH]; intros d d' j i k Hks H Hin Hd; simpl in H.
  - apply elem_of_nil in Hin. done.
  - apply Forall_cons in Hks as [Hk Hks]. run H.
    destruct (draft_step_at _ _ _ _ _ _ Hk Hx)
      as (layer & ? & ? & Hl & _ & _ & Hs).
    apply elem_of_cons in Hin as [-> | Hin].
    + destruct Hd as [old Hold]. destruct (Hs j i) as [_ Hv].
      destruct (Hv _ Hold) as (h & Hh & _).
      unfold at3. rewrite Hl. simpl. eauto.
    + apply (IH _ _ j i k Hks H Hin). apply Hs. done.
Qed.

(** What [calc_draft] starts from and ends with. *)
Lemma calc_draft_inv hfac z_edges dz nx ny nz draft :
  Grid.calc_draft hfac z_edges dz nx ny nz = Ok draft ->
  exists d, 0 <= nx /\ 0 <= ny /\
    Grid.draft_loop hfac z_edges dz
      (replicate (Z.to_nat ny) (replicate (Z.to_nat nx) None)) (range nz) = Ok d /\
    draft = map (map (default 0%Q)) d.
Proof.
  unfold Grid.calc_draft. intros H. run H. injection H as <-.
  apply full_Ok in Hx as [? ->]. apply full_Ok in Hx0 as [? ->]. eauto.
Qed.

(** C1: in a constructed Grid the draft at (j,i) is
    z_edges[k] - dz[k]*(1-hfac[k,j,i]) for the topmost layer k whose hfac is
    not zero there, and 0 when every layer of the column is dry (one of the
    two holds, every layer having an entry at (j,i)); in particular a column
    with hfac 0.5 in layer 0, z_edges[0] = 0 and dz[0] = 10 has draft -5. *)
Theorem C1_draft_top_wet_layer c raw x_is_lon max_lon g :
  Grid.init c raw x_is_lon max_lon = Ok g ->
  forall j i : nat, Z.of_nat j < Grid.ny g -> Z.of_nat i < Grid.nx g ->
    (forall k : nat, Z.of_nat k < Grid.nz g ->
       is_Some (at3 (Grid.hfac g) k j i)) /\
    (forall (k : nat) (h : Q),
       Z.of_nat k < Grid.nz g ->
       at3 (Grid.hfac g) k j i = Some h -> ~ h == 0 ->
       (forall (k' : nat) (h' : Q), (k' < k)%nat ->
          at3 (Grid.hfac g) k' j i = Some h' -> h' == 0) ->
       exists ze dzk,
         Grid.z_edges g !! k = Some ze /\ Grid.dz g !! k = Some dzk /\
         at2 (Grid.draft g) j i = Some (ze - dzk * (1 - h))%Q) /\
    ((forall (k : nat) (h : Q), Z.of_nat k < Grid.nz g ->
        at3 (Grid.hfac g) k j i = Some h -> h == 0) ->
     at2 (Grid.draft g) j i = Some 0%Q) /\
    (forall h ze dzk : Q,
       0 < Grid.nz g ->
       at3 (Grid.hfac g) 0 j i = Some h -> h == 1 # 2 ->
       Grid.z_edges g !! 0%nat = Some ze -> ze == 0 ->
       Grid.dz g !! 0%nat = Some dzk -> dzk == 10 ->
       exists d, at2 (Grid.draft g) j i = Some d /\ d == -5).
Proof.
  intros Hinit j i Hj Hi.
  destruct (Grid_init_inv _ _ _ _ _ Hinit)
    as (_ & _ & _ & _ & _ & _ & _ & _ & _ & _ & Hdraft & _).
  apply calc_draft_inv in Hdraft as (d & Hnx & Hny & Hloop & Hd).
  assert (H0 : at2 (replicate (Z.to_nat (Grid.ny g))
                      (replicate (Z.to_nat (Grid.nx g)) (None : option Q))) j i
               = Some None) by (apply at2_replicate; lia).
  pose proof (range_nonneg (Grid.nz g)) as Hpos.
  assert (Hwet : forall (k : nat) (h : Q),
       Z.of_nat k < Grid.nz g ->
       at3 (Grid.hfac g) k j i = Some h -> ~ h == 0 ->
       (forall (k' : nat) (h' : Q), (k' < k)%nat ->
          at3 (Grid.hfac g) k' j i = Some h' -> h' == 0) ->
       exists ze dzk,
         Grid.z_edges g !! k = Some ze /\ Grid.dz g !! k = Some dzk /\
         at2 (Grid.draft g) j i = Some (ze - dzk * (1 - h))%Q).
  { intros k h Hk Hh Hne Habove.
    destruct (range_split _ _ Hk) as (rest & Hsplit).
    rewrite Hsplit in Hloop, Hpos.
    destruct (draft_loop_wet _ _ _ _ _ _ _ _ j i h Hpos Hloop H0)
      as (ze & dzk & Hze & Hdz & Hv).
    - intros k' h' Hin. apply range_elem in Hin. apply Habove. lia.
    - rewrite Nat2Z.id. done.
    - done.
    - rewrite Nat2Z.id in Hze, Hdz. exists ze, dzk.
      rewrite Hd, at2_map, Hv. done. }
  repeat split.
  - intros k Hk. rewrite <- (Nat2Z.id k).
    eapply draft_loop_layers; eauto.
    apply range_elem. lia.
  - exact Hwet.
  - intros Hdry. rewrite Hd, at2_map.
    rewrite (draft_loop_dry _ _ _ _ _ _ j i Hpos Hloop H0); [done|].
    intros k h Hin. apply range_elem in Hin.
    intros Hh. apply (Hdry (Z.to_nat k)); [lia | done].
  - intros h ze dzk Hnz Hh Eh Hze Eze Hdz Edz.
    destruct (Hwet 0%nat h) as (ze' & dzk' & Hze' & Hdz' & Hv); try done.
    + rewrite Eh. discriminate.
    + intros k' h' Hlt. lia.
    + rewrite Hze in Hze'. rewrite Hdz in Hdz'.
      injection Hze' as <-. injection Hdz' as <-.
      eexists. split; [exact Hv|]. rewrite Eh, Eze, Edz. reflexivity.
Qed.

Lemma C1_witness :
  exists g,
    Grid.init Examples.consts Examples.weddell_raw true None = Ok g /\
    exists d, at2 (Grid.draft g) 1 2 = Some d /\ d == -5.
Proof.
  eexists. split.
  - vm_compute. reflexivity.
  - edestruct (C1_draft_top_wet_layer Examples.consts Examples.weddell_raw
                 true None _ ltac:(vm_compute; reflexivity) 1%nat 2%nat)
      as (_ & _ & _ & Hex).
    + vm_compute. reflexivity.
    + vm_compute. reflexivity.
    + apply (Hex (1 # 2)%Q 0%Q 10%Q); vm_compute; reflexivity.
Defined.

Lemma draft_shape hfac z_edges dz nx ny nz draft j i :
  Grid.calc_draft hfac z_edges dz nx ny nz = Ok draft ->
  (is_Some (at2 draft j i) <-> Z.of_nat j < ny /\ Z.of_nat i < nx).
Proof.
  intros H. apply calc_draft_inv in H as (d & Hnx & Hny & Hloop & ->).
  rewrite at2_map, fmap_is_Some.
  rewrite (draft_loop_shape _ _ _ _ _ _ j i (range_nonneg nz) Hloop).
  unfold at2. split.
  - intros [v Hv].
    destruct (replicate _ _ !! j) as [r|] eqn:Hr; [|discriminate].
    apply lookup_replicate in Hr as [-> Hj]. simpl in Hv.
    apply lookup_replicate in Hv as [_ Hi]. lia.
  - intros [Hj Hi]. exists None.
    apply (at2_replicate (Z.to_nat ny) (Z.to_nat nx) None j i); lia.
Qed.

(** C4: in a constructed Grid, at every horizontal cell (j,i) of the ny x nx
    domain, bathy is exactly draft minus wct. *)
Theorem C4_bathy_is_draft_minus_wct c raw x_is_lon max_lon g :
  Grid.init c raw x_is_lon max_lon = Ok g ->
  forall j i : nat, Z.of_nat j < Grid.ny g -> Z.of_nat i < Grid.nx g ->
    exists d w : Q,
      at2 (Grid.draft g) j i = Some d /\ at2 (Grid.wct g) j i = Some w /\
      at2 (Grid.bathy g) j i = Some (d - w)%Q.
Proof.
  intros Hinit j i Hj Hi.
  destruct (Grid_init_inv _ _ _ _ _ Hinit)
    as (_ & _ & _ & _ & _ & _ & _ & _ & _ & _ & Hdraft & Hbathy & _).
  pose proof (proj2 (draft_shape _ _ _ _ _ _ _ j i Hdraft) (conj Hj Hi)) as Hd.
  destruct (zip2_shape _ _ _ _ j i Hbathy) as [S1 _].
  apply S1 in Hd as [b Hb].
  destruct (zip2_at _ _ _ _ _ _ _ Hbathy Hb) as (d & w & Hd & Hw & ->).
  exists d, w. done.
Qed.

Lemma C4_witness :
  exists g,
    Grid.init Examples.consts Examples.weddell_raw true None = Ok g /\
    exists d w : Q,
      at2 (Grid.draft g) 3 0 = Some d /\ at2 (Grid.wct g) 3 0 = Some w /\
      at2 (Grid.bathy g) 3 0 = Some (d - w)%Q.
Proof.
  eexists. split.
  - vm_compute. reflexivity.
  - apply (C4_bathy_is_draft_minus_wct Examples.consts Examples.weddell_raw
             true None _ ltac:(vm_compute; reflexivity) 3%nat 0%nat);
      vm_compute; reflexivity.
Defined.

(** ** Land mask *)

Lemma add_layers_at ls : forall acc s j i v,
  add_layers acc ls = Ok s -> at2 s j i = Some v ->
  exists x, at2 acc j i = Some x /\ v == x + Qsum (column ls j i) /\
            Forall (fun p => is_Some (at2 p j i)) ls.
Proof.
  induction ls as [|l ls IH]; intros acc s j i v H Hv; simpl in H.
  - injection H as <-. exists v. repeat split; [done | | constructor].
    simpl. clear. lra.
  - run H. destruct (IH _ _ _ _ _ H Hv) as (x' & Hx' & E & Hall).
    destruct (zip2_at _ _ _ _ _ _ _ Hx Hx') as (a & b & Ha & Hb & ->).
    exists a. repeat split; [done | | constructor; eauto].
    unfold Qsum, column in *. simpl. rewrite Hb. simpl.
    rewrite E. symmetry. apply Qplus_assoc.
Qed.


Lemma sum_axis0_at a s j i v :
  sum_axis0 a = Ok s -> at2 s j i = Some v ->
  v == Qsum (column a j i) /\ Forall (fun p => is_Some (at2 p j i)) a.
Proof.
  destruct a as [|l ls]; simpl; intros H Hv.
  - injection H as <-. discriminate.
  - destruct (add_layers_at _ _ _ _ _ _ H Hv) as (x & Hx & E & Hall).
    split; [|constructor; eauto].
    unfold Qsum, column in *. simpl. rewrite Hx. simpl.
    rewrite E. reflexivity.
Qed.

Lemma column_lookup {A : Type} (a : list (list (list A))) j i k :
  Forall (fun p => is_Some (at2 p j i)) a -> column a j i !! k = at3 a k j i.
Proof.
  revert k. induction a as [|l ls IH]; intros k Hall; [done|].
  apply Forall_cons in Hall as [[x Hx] Hall].
  unfold column, at3. simpl. rewrite Hx. simpl.
  destruct k as [|k]; simpl; [done|]. apply IH, Hall.
Qed.

(** A sum of non-negative numbers is zero only if all of them are; otherwise
    one of them is not zero. *)
Lemma Qsum_nonneg (l : arr1) :
  Forall (fun x => 0 <= x)%Q l ->
  (0 <= Qsum l)%Q /\
  ((Qsum l == 0 /\ Forall (fun x => x == 0) l) \/
   (~ Qsum l == 0 /\ Exists (fun x => ~ x == 0) l)).
Proof.
  induction 1 as [|x l Hx _ (Hs & IH)]; simpl.
  - split; [lra|]. left. split; [reflexivity | constructor].
  - split; [lra|]. destruct IH as [[E Hall] | [Hne Hex]].
    + destruct (Qeq_dec x 0) as [Ex | Nx].
      * left. split; [lra | constructor; done].
      * right. split; [lra | left; done].
    + right. split; [lra | right; done].
Qed.

(** C5: for hfac with entries in [0,1], the land mask is set at (j,i)
    exactly when the sum of hfac over depth is zero there; being land-masked
    and having some nonzero hfac in the column exclude each other and one of
    the two holds. *)
Theorem C5_land_mask_partition (hfac : arr3) (m : mask2) :
  (forall k j i h, at3 hfac k j i = Some h -> 0 <= h /\ h <= 1)%Q ->
  Grid.build_land_mask hfac = Ok m ->
  forall j i b, at2 m j i = Some b ->
    (forall k, (k < length hfac)%nat -> is_Some (at3 hfac k j i)) /\
    (b = true <-> Qsum (column hfac j i) == 0) /\
    (b = true <-> forall k h, at3 hfac k j i = Some h -> h == 0) /\
    (b = false <-> exists k h, at3 hfac k j i = Some h /\ ~ h == 0).
Proof.
  intros Hrange H j i b Hb. unfold Grid.build_land_mask in H. run H.
  injection H as <-. unfold cmp2 in Hb. rewrite at2_map in Hb.
  destruct (at2 x j i) as [v|] eqn:Hv; [|discriminate]. injection Hb as <-.
  destruct (sum_axis0_at _ _ _ _ _ Hx Hv) as [E Hall].
  pose proof (fun k => column_lookup hfac j i k Hall) as Hcol.
  assert (Hpos : Forall (fun x => 0 <= x)%Q (column hfac j i)).
  { apply Forall_lookup. intros k h Hk. rewrite Hcol in Hk.
    apply (Hrange _ _ _ _ Hk). }
  destruct (Qsum_nonneg _ Hpos) as [_ Hcases].
  assert (Hb : Qeq_bool v 0 = true <-> Qsum (column hfac j i) == 0).
  { rewrite Qeq_bool_iff, E. tauto. }
  repeat split.
  - intros k Hk. rewrite Forall_lookup in Hall.
    destruct (lookup_lt_is_Some_2 hfac k Hk) as [p Hp].
    unfold at3. rewrite Hp. simpl. eapply Hall, Hp.
  - apply Hb.
  - apply Hb.
  - intros Ht k h Hk. apply Hb in Ht.
    destruct Hcases as [[_ Hzero] | [Hne _]]; [|done].
    rewrite Forall_lookup in Hzero. apply (Hzero k). rewrite Hcol. done.
  - intros Hzero. apply Hb.
    destruct Hcases as [[Hs _] | [_ Hex]]; [done|].
    apply Exists_exists in Hex as (h & Hin & Hne).
    apply list_elem_of_lookup in Hin as [k Hk]. rewrite Hcol in Hk.
    destruct Hne. eapply Hzero, Hk.
  - intros Hf.
    destruct Hcases as [[Hs _] | [_ Hex]].
    + apply Hb in Hs. congruence.
    + apply Exists_exists in Hex as (h & Hin & Hne).
      apply list_elem_of_lookup in Hin as [k Hk]. rewrite Hcol in Hk. eauto.
  - intros (k & h & Hk & Hne). apply not_true_is_false. intros Ht.
    apply Hb in Ht. destruct Hcases as [[_ Hzero] | [Hn _]]; [|done].
    rewrite Forall_lookup in Hzero. apply Hne, (Hzero k). rewrite Hcol. done.
Qed.

Lemma C5_witness :
  exists m,
    Grid.build_land_mask Examples.small_hfac = Ok m /\
    at2 m 0 1 = Some false /\
    (false = false <->
     exists k h, at3 Examples.small_hfac k 0 1 = Some h /\ ~ h == 0).
Proof.
  eexists. split; [vm_compute; reflexivity|]. split; [reflexivity|].
  eapply (C5_land_mask_partition Examples.small_hfac).
  - intros [|[|k]] [|j] [|[|i]] h; vm_compute; intros [= <-];
      split; discriminate.
  - vm_compute. reflexivity.
  - reflexivity.
Defined.

(** ** FRIS mask *)

Lemma Qgeb_true (x y : Q) : Qgeb x y = true <-> (y <= x)%Q.
Proof. apply Qle_bool_iff. Qed.

Lemma Qltb_true (x y : Q) : Qltb x y = true <-> (x < y)%Q.
Proof.
  unfold Qltb. rewrite negb_true_iff, <- not_true_iff_false, Qle_bool_iff.
  split; [apply Qnot_le_lt | apply Qlt_not_le].
Qed.

Lemma Qltb_false (x y : Q) : Qltb x y = false <-> (y <= x)%Q.
Proof. unfold Qltb. rewrite negb_false_iff. apply Qle_bool_iff. Qed.

Lemma Qgtb_true (x y : Q) : Qgtb x y = true <-> (y < x)%Q.
Proof. apply Qltb_true. Qed.

Lemma Qgtb_false (x y : Q) : Qgtb x y = false <-> (x <= y)%Q.
Proof. apply Qltb_false. Qed.

Lemma select_box_at ice lon lat b m j i :
  Grid.select_box ice lon lat b = Ok m ->
  (is_Some (at2 m j i) <-> is_Some (at2 ice j i)) /\
  forall v, at2 m j i = Some v ->
    exists ic x y,
      at2 ice j i = Some ic /\ at2 lon j i = Some x /\ at2 lat j i = Some y /\
      v = ic && Qgeb x (lon_min b) && Qle_bool x (lon_max b)
             && Qgeb y (lat_min b) && Qle_bool y (lat_max b).
Proof.
  unfold Grid.select_box, mask_and. intros H. run H. split.
  - rewrite (proj1 (zip2_shape _ _ _ _ j i H)).
    rewrite (proj1 (zip2_shape _ _ _ _ j i Hx1)).
    rewrite (proj1 (zip2_shape _ _ _ _ j i Hx0)).
    apply (zip2_shape _ _ _ _ j i Hx).
  - intros v Hv.
    destruct (zip2_at _ _ _ _ _ _ _ H Hv) as (v3 & c4 & H3 & H4 & ->).
    destruct (zip2_at _ _ _ _ _ _ _ Hx1 H3) as (v2 & c3 & H2 & H3' & ->).
    destruct (zip2_at _ _ _ _ _ _ _ Hx0 H2) as (v1 & c2 & H1 & H2' & ->).
    destruct (zip2_at _ _ _ _ _ _ _ Hx H1) as (ic & c1 & Hic & H1' & ->).
    unfold cmp2 in *. rewrite at2_map in H4, H3', H2', H1'.
    destruct (at2 lon j i) as [lo|]; [|discriminate].
    destruct (at2 lat j i) as [la|]; [|discriminate].
    simpl in *. injection H4 as <-. injection H3' as <-.
    injection H2' as <-. injection H1' as <-.
    exists ic, lo, la. done.
Qed.

Lemma build_fris_mask_spec c ice lon lat m :
  (lon_min (fris_bounds c) <= -45)%Q ->
  Grid.build_fris_mask c ice lon lat = Ok m ->
  Grid.fris_mask_spec c ice lon lat m.
Proof.
  intros HW H j i. unfold Grid.build_fris_mask, Grid.fris_regions in H.
  simpl in H. unfold Grid.set_true in H. run H. injection H as <-.
  destruct (select_box_at _ _ _ _ _ j i Hx) as [SA HA].
  destruct (select_box_at _ _ _ _ _ j i Hx1) as [SB HB].
  split.
  - rewrite (proj1 (zip2_shape _ _ _ _ j i Hx2)).
    rewrite (proj1 (zip2_shape _ _ _ _ j i Hx0)).
    rewrite at2_map, fmap_is_Some. tauto.
  - intros b Hb.
    destruct (zip2_at _ _ _ _ _ _ _ Hx2 Hb) as (b1 & vB & Hb1 & HvB & ->).
    destruct (zip2_at _ _ _ _ _ _ _ Hx0 Hb1) as (b0 & vA & Hb0 & HvA & ->).
    rewrite at2_map in Hb0.
    destruct (HA _ HvA) as (ic & lo & la & Hic & Hlon & Hlat & ->).
    destruct (HB _ HvB) as (ic' & lo' & la' & Hic' & Hlon' & Hlat' & ->).
    rewrite Hic in Hic'. rewrite Hlon in Hlon'. rewrite Hlat in Hlat'.
    injection Hic' as <-. injection Hlon' as <-. injection Hlat' as <-.
    rewrite Hic in Hb0. simpl in Hb0. injection Hb0 as <-.
    exists ic, lo, la. do 3 (split; [done|]). simpl. split; [split|].
    all: rewrite ?orb_true_iff, ?andb_true_iff, ?Qgeb_true, ?Qle_bool_iff.
    all: unfold Grid.fris_region_A, Grid.fris_region_B.
    + intros [[[[[-> ?] ?] ?] ?] | [[[[-> ?] ?] ?] ?]]; (split; [done|]).
      * left. done.
      * destruct (Qlt_le_dec (-45) lo) as [Hlt | Hle]; [right; done|].
        left. repeat split; try done; lra.
    + intros [-> [[[? ?] [? ?]] | (? & ? & ? & ?)]]; [left; done|].
      right. repeat split; try done. apply Qlt_le_weak. done.
    + intros Ex.
      intros [[[[[_ ?] ?] ?] ?] | [[[[_ ?] ?] ?] ?]]; [done|].
      apply Qle_trans with (-7785 # 100)%Q; [done | discriminate].
Qed.

(** C6: in a constructed Grid (with the western FRIS bound at or west of
    45W) the FRIS mask of each sub-grid marks a point exactly when it is in
    the ice mask and lies in region A (longitude in [W, -45], latitude in
    [S, -74.7]) or region B (longitude in (-45, E], latitude in
    [S, -77.85]); a marked point at longitude -45 has latitude at most
    -74.7. *)
Theorem C6_fris_mask_regions c raw x_is_lon max_lon g :
  (lon_min (fris_bounds c) <= -45)%Q ->
  Grid.init c raw x_is_lon max_lon = Ok g ->
  Grid.fris_mask_spec c (Grid.ice_mask g) (Grid.lon_2d g) (Grid.lat_2d g)
    (Grid.fris_mask g) /\
  Grid.fris_mask_spec c (Grid.ice_mask_u g) (Grid.lon_corners_2d g)
    (Grid.lat_2d g) (Grid.fris_mask_u g) /\
  Grid.fris_mask_spec c (Grid.ice_mask_v g) (Grid.lon_2d g)
    (Grid.lat_corners_2d g) (Grid.fris_mask_v g).
Proof.
  intros HW Hinit.
  destruct (Grid_init_inv _ _ _ _ _ Hinit)
    as (_ & _ & _ & _ & _ & _ & _ & _ & _ & _ & _ & _ & _ & _ & _ & _ & _ & _
        & Ht & Hu & Hv).
  split; [|split]; apply build_fris_mask_spec; assumption.
Qed.

Lemma C6_witness :
  exists g,
    Grid.init Examples.consts Examples.fris_raw true None = Ok g /\
    Grid.fris_mask_spec Examples.consts (Grid.ice_mask g) (Grid.lon_2d g)
      (Grid.lat_2d g) (Grid.fris_mask g) /\
    at2 (Grid.lon_2d g) 2 2 = Some (-45)%Q /\
    at2 (Grid.fris_mask g) 2 2 = Some true /\
    at2 (Grid.fris_mask g) 3 2 = Some false.
Proof.
  eexists. split; [vm_compute; reflexivity|]. split.
  - apply (C6_fris_mask_regions Examples.consts Examples.fris_raw true None).
    + vm_compute. discriminate.
    + vm_compute. reflexivity.
  - vm_compute. auto.
Defined.

(** ** Longitude range *)

Lemma Qceiling_lt' (q : Q) : (inject_Z (Qceiling q) - 1 < q)%Q.
Proof.
  pose proof (Qceiling_lt q) as H.
  replace (Qceiling q - 1) with (Qceiling q + -1) in H by lia.
  rewrite inject_Z_plus in H. exact H.
Qed.

Lemma fix_lon_in_range (m x : Q) :
  (m - 360 < fix_lon (Some m) x /\ fix_lon (Some m) x <= m)%Q.
Proof.
  unfold fix_lon.
  pose proof (Qle_ceiling ((x - m) / 360)) as Hle.
  pose proof (Qceiling_lt' ((x - m) / 360)) as Hlt.
  assert (E : ((x - m) / 360 * 360 == x - m)%Q)
    by (apply Qdiv_mult_l; discriminate).
  revert Hle Hlt E.
  generalize (inject_Z (Qceiling ((x - m) / 360))).
  generalize ((x - m) / 360)%Q. clear. intros q cq Hle Hlt E. lra.
Qed.

Lemma fix_lon_fixed (m y : Q) :
  (m - 360 < y)%Q -> (y <= m)%Q -> fix_lon (Some m) y == y.
Proof.
  intros Hlo Hhi. unfold fix_lon.
  pose proof (Qle_ceiling ((y - m) / 360)) as Hle.
  pose proof (Qceiling_lt' ((y - m) / 360)) as Hlt.
  assert (E : ((y - m) / 360 * 360 == y - m)%Q)
    by (apply Qdiv_mult_l; discriminate).
  assert (Hc : Qceiling ((y - m) / 360) = 0).
  { destruct (Z.lt_trichotomy (Qceiling ((y - m) / 360)) 0) as [Hn | [-> | Hp]];
      [exfalso | done | exfalso].
    - assert (Hq : (inject_Z (Qceiling ((y - m) / 360)) <= inject_Z (-1))%Q)
        by (rewrite <- Zle_Qle; lia).
      revert Hle Hq E Hlo. generalize (inject_Z (Qceiling ((y - m) / 360))).
      generalize ((y - m) / 360)%Q. clear. intros q cq Hle Hq E Hlo.
      change (inject_Z (-1)) with (-1)%Q in Hq. lra.
    - assert (Hq : (inject_Z 1 <= inject_Z (Qceiling ((y - m) / 360)))%Q)
        by (rewrite <- Zle_Qle; lia).
      revert Hlt Hq E Hhi. generalize (inject_Z (Qceiling ((y - m) / 360))).
      generalize ((y - m) / 360)%Q. clear. intros q cq Hlt Hq E Hhi.
      change (inject_Z 1) with 1%Q in Hq. lra. }
  rewrite Hc. change (inject_Z 0) with 0%Q. clear. lra.
Qed.

Lemma fix_lon_idem (m x : Q) :
  fix_lon (Some m) (fix_lon (Some m) x) == fix_lon (Some m) x.
Proof. apply fix_lon_fixed; apply fix_lon_in_range. Qed.

Lemma strictly_increasing_cons (x y : Q) (l : arr1) :
  strictly_increasing (x :: y :: l)
  = Qgtb (y - x) 0 && strictly_increasing (y :: l).
Proof. reflexivity. Qed.

Lemma strictly_increasing_Qeq (l l' : arr1) :
  Forall2 Qeq l l' ->
  strictly_increasing l = true -> strictly_increasing l' = true.
Proof.
  induction 1 as [|x x' l l' Hx Hl IH]; [done|].
  destruct Hl as [|y y' l l' Hy Hl]; [done|].
  rewrite !strictly_increasing_cons, !andb_true_iff, !Qgtb_true.
  intros [Hd Hrest]. split; [|auto]. rewrite <- Hx, <- Hy. done.
Qed.

Lemma fix_lon_range_idem (m : Q) (l : arr1) :
  Forall2 Qeq (fix_lon_range l (Some m))
              (fix_lon_range (fix_lon_range l (Some m)) (Some m)).
Proof.
  unfold fix_lon_range. induction l as [|x l IH]; simpl; constructor; auto.
  symmetry. apply fix_lon_idem.
Qed.

(** The centre longitude axis of a constructed Grid. *)
Lemma Grid_init_lon c raw x_is_lon max_lon g :
  Grid.init c raw x_is_lon max_lon = Ok g ->
  exists a b c' d lon lat lonc latc tested range,
    Grid.axes (Grid.XY raw) = Ok (a, b, c', d, lon, lat, lonc, latc) /\
    Grid.decide_lon_range x_is_lon max_lon lon = Ok (tested, range) /\
    Grid.lon_1d g = fix_lon_range tested range.
Proof.
  unfold Grid.init. intros H.
  apply bind_Ok in H as ([[[[[[[a b] c'] d] lon] lat] lonc] latc] & Haxes & H).
  apply bind_Ok in H as ([tested range] & Hdec & H).
  run H. injection H as <-. simpl.
  exists a, b, c', d, lon, lat, lonc, latc, tested, range. done.
Qed.

(** C3 as it is stated fails: with [max_lon = 180] given by the caller, the
    domain across 180E is constructed although its normalized axis jumps from
    175 to -175. *)
Lemma C3_counterexample :
  exists g,
    Grid.init Examples.consts Examples.dateline_raw true (Some 180%Q) = Ok g /\
    Grid.lon_1d g = [170; 175; -175; -170]%Q /\
    strictly_increasing (Grid.lon_1d g) = false.
Proof. eexists. split; [vm_compute; reflexivity|]. split; reflexivity. Qed.

(** C3, amended: when max_lon is left to be detected (x_is_lon true), a
    Grid is only constructed if the normalized centre longitude axis is
    strictly increasing; if the axis normalized to the detected range is not,
    construction stops with the fatal error.  When the caller gives max_lon
    no such test is made. *)
Theorem C3_auto_range_is_increasing c raw :
  (forall g, Grid.init c raw true None = Ok g ->
     strictly_increasing (Grid.lon_1d g) = true) /\
  (forall a b c' d lon lat lonc latc lo hi,
     Grid.axes (Grid.XY raw) = Ok (a, b, c', d, lon, lat, lonc, latc) ->
     amin lon = Ok lo -> amax lon = Ok hi ->
     strictly_increasing
       (fix_lon_range lon (Some (Grid.auto_max_lon lo hi))) = false ->
     Grid.init c raw true None =
     fatal "Error (Grid): Longitude is not strictly increasing either in the range (0, 360) or (-180, 180).").
Proof.
  split.
  - intros g Hinit.
    destruct (Grid_init_lon _ _ _ _ _ Hinit)
      as (a & b & c' & d & lon & lat & lonc & latc & tested & range
          & _ & Hdec & ->).
    unfold Grid.decide_lon_range in Hdec. run Hdec.
    injection Hdec as <- <-. apply negb_false_iff in Hb.
    eapply strictly_increasing_Qeq; [apply fix_lon_range_idem | exact Hb].
  - intros a b c' d lon lat lonc latc lo hi Haxes Hlo Hhi Hnot.
    unfold Grid.init. rewrite Haxes. simpl.
    unfold Grid.decide_lon_range. rewrite Hlo, Hhi. simpl.
    rewrite Hnot. reflexivity.
Qed.

Lemma C3_witness :
  exists g,
    Grid.init Examples.consts Examples.weddell_raw true None = Ok g /\
    strictly_increasing (Grid.lon_1d g) = true.
Proof.
  eexists. split; [vm_compute; reflexivity|].
  apply (proj1 (C3_auto_range_is_increasing Examples.consts Examples.weddell_raw)).
  vm_compute. reflexivity.
Defined.

(** ** Accessors of the SOSE grid *)

(** C9: on every SOSEGrid, whatever its attributes and whatever gtype,
    get_ice_mask and get_fris_mask stop with the fatal error and never return
    a mask. *)
Theorem C9_no_ice_masks_on_SOSE (self : SOSEGrid.t) (gtype : option string) :
  SOSEGrid.get_ice_mask self gtype
    = Err (SystemExit "Error (SOSEGrid): no ice shelves to mask") /\
  SOSEGrid.get_fris_mask self gtype
    = Err (SystemExit "Error (SOSEGrid): no ice shelves to mask") /\
  (forall m, SOSEGrid.get_ice_mask self gtype <> Ok m) /\
  (forall m, SOSEGrid.get_fris_mask self gtype <> Ok m).
Proof. repeat split; discriminate. Qed.

(** C10: on a SOSEGrid get_lon_lat only accepts dim=1, which is its default
    (the default of Grid.get_lon_lat is dim=2): every other dim is the fatal
    error, and with dim=1 the grid types t, w, u, v and psi get their pair
    of 1D axes.  So the call that leaves dim out gives meshed arrays on a
    Grid and axes on a SOSEGrid, and the explicit dim=2 of a Grid fails on a
    SOSEGrid. *)
Theorem C10_SOSE_get_lon_lat_dim (self : SOSEGrid.t) :
  (forall gtype d, d <> 1 ->
     SOSEGrid.get_lon_lat self gtype (Some d)
     = Err (SystemExit "Error (get_lon_lat): must have dim=1 for SOSE grid")) /\
  (forall gtype,
     SOSEGrid.get_lon_lat self gtype None
     = SOSEGrid.get_lon_lat self gtype (Some 1)) /\
  (forall (g : Grid.t) gtype,
     Grid.get_lon_lat g gtype None = Grid.get_lon_lat g gtype (Some 2)) /\
  SOSEGrid.get_lon_lat self None (Some 1)
    = Ok (Grid.Rank1 (SOSEGrid.lon_1d self), Grid.Rank1 (SOSEGrid.lat_1d self)) /\
  SOSEGrid.get_lon_lat self (Some "t"%string) (Some 1)
    = Ok (Grid.Rank1 (SOSEGrid.lon_1d self), Grid.Rank1 (SOSEGrid.lat_1d self)) /\
  SOSEGrid.get_lon_lat self (Some "w"%string) (Some 1)
    = Ok (Grid.Rank1 (SOSEGrid.lon_1d self), Grid.Rank1 (SOSEGrid.lat_1d self)) /\
  SOSEGrid.get_lon_lat self (Some "u"%string) (Some 1)
    = Ok (Grid.Rank1 (SOSEGrid.lon_corners_1d self),
          Grid.Rank1 (SOSEGrid.lat_1d self)) /\
  SOSEGrid.get_lon_lat self (Some "v"%string) (Some 1)
    = Ok (Grid.Rank1 (SOSEGrid.lon_1d self),
          Grid.Rank1 (SOSEGrid.lat_corners_1d self)) /\
  SOSEGrid.get_lon_lat self (Some "psi"%string) (Some 1)
    = Ok (Grid.Rank1 (SOSEGrid.lon_corners_1d self),
          Grid.Rank1 (SOSEGrid.lat_corners_1d self)) /\
  (forall (g : Grid.t),
     Grid.get_lon_lat g None None
     = Ok (Grid.Rank2 (Grid.lon_2d g), Grid.Rank2 (Grid.lat_2d g))) /\
  SOSEGrid.get_lon_lat self None (Some 2)
    = Err (SystemExit "Error (get_lon_lat): must have dim=1 for SOSE grid").
Proof.
  repeat split.
  intros gtype d Hd. unfold SOSEGrid.get_lon_lat. simpl.
  destruct (d =? 1) eqn:E; [apply Z.eqb_eq in E; done | reflexivity].
Qed.

Lemma C10_witness :
  exists self,
    SOSEGrid.init Examples.consts Examples.sose_raw None None = Ok self /\
    SOSEGrid.get_lon_lat self (Some "u"%string) (Some 2)
    = Err (SystemExit "Error (get_lon_lat): must have dim=1 for SOSE grid").
Proof.
  eexists. split; [vm_compute; reflexivity|].
  eapply (proj1 (C10_SOSE_get_lon_lat_dim _)). discriminate.
Defined.

(** ** Slices *)

Lemma clip_in (n i : Z) : 0 <= i <= n -> clip n i = Z.to_nat i.
Proof. intros H. unfold clip. destruct (i <? 0) eqn:E; lia. Qed.

Lemma clip_nonneg (n i : Z) : 0 <= i -> clip n i = Z.to_nat (Z.min n i).
Proof. intros H. unfold clip. destruct (i <? 0) eqn:E; lia. Qed.

Lemma py_slice_length {A : Type} (l : list A) (lo hi : Z) :
  0 <= lo <= hi -> hi <= len l ->
  length (py_slice l (Some lo) (Some hi)) = Z.to_nat (hi - lo).
Proof.
  intros H1 H2. unfold py_slice, slice_lo, slice_hi, len in *.
  rewrite !clip_in by lia. rewrite length_take, length_drop. lia.
Qed.

Lemma py_slice_lookup {A : Type} (l : list A) (lo hi : Z) (m : nat) :
  0 <= lo <= hi -> hi <= len l -> Z.of_nat m < hi - lo ->
  py_slice l (Some lo) (Some hi) !! m = l !! (m + Z.to_nat lo)%nat.
Proof.
  intros H1 H2 Hm. unfold py_slice, slice_lo, slice_hi, len in *.
  rewrite !clip_in by lia. rewrite lookup_take_lt by lia.
  rewrite lookup_drop. f_equal. lia.
Qed.

Lemma py_slice_nonempty {A : Type} (l : list A) (lo hi : Z) :
  0 <= lo -> 0 <= hi -> py_slice l (Some lo) (Some hi) <> [] -> lo < hi.
Proof.
  intros Hlo Hhi Hne. destruct (Z_lt_le_dec lo hi) as [|Hle]; [done|].
  exfalso. apply Hne. unfold py_slice, slice_lo, slice_hi.
  rewrite !clip_nonneg by done.
  replace (Z.to_nat (Z.min (len l) hi) - Z.to_nat (Z.min (len l) lo))%nat
    with 0%nat by lia.
  done.
Qed.

Lemma zipM_exists {A B C : Type} (f : A -> B -> result C) (R : A -> B -> C -> Prop)
    (l1 : list A) (l2 : list B) :
  length l1 = length l2 ->
  (forall n x y, l1 !! n = Some x -> l2 !! n = Some y ->
     exists z0, f x y = Ok z0 /\ R x y z0) ->
  exists r, zipM f l1 l2 = Ok r /\ Forall3 R l1 l2 r.
Proof.
  revert l2. induction l1 as [|x l1 IH]; intros [|y l2] Hlen Hf;
    try discriminate.
  - exists []. split; [done | constructor].
  - destruct (Hf 0%nat x y eq_refl eq_refl) as (z0 & Hz & HR).
    destruct (IH l2) as (r & Hr & HF).
    + simpl in Hlen. lia.
    + intros n. apply (Hf (S n)).
    + exists (z0 :: r). simpl. rewrite Hz. simpl. rewrite Hr. simpl.
      split; [done | constructor; done].
Qed.

(** A value that has the length of the window is assigned as it is. *)
Lemma broadcast_length {B : Type} (n : nat) (src : list B) :
  length src = n -> broadcast n src = src.
Proof. destruct src as [|x [|y src]]; simpl; intros <-; reflexivity. Qed.

Lemma broadcast_map {B B' : Type} (g : B' -> B) (n : nat) (src : list B') :
  broadcast n (map g src) = map g (broadcast n src).
Proof.
  destruct src as [|x [|y src]]; simpl; try reflexivity.
  symmetry. apply fmap_replicate.
Qed.

(** Assignment to a slice of a freshly filled array: inside the window the
    entries come from the source, outside they are the fill. *)
Lemma set_slice_replicate {A B : Type} (upd : A -> B -> result A)
    (R : B -> A -> Prop) (d0 : A) (n : nat) (lo hi : Z) (src : list B) :
  0 <= lo <= hi -> hi <= Z.of_nat n -> length src = Z.to_nat (hi - lo) ->
  (forall s, s ∈ src -> exists x, upd d0 s = Ok x /\ R s x) ->
  exists r,
    set_slice upd (replicate n d0) lo hi src = Ok r /\ length r = n /\
    forall m, (m < n)%nat ->
      if SOSEGrid.in_window lo hi m
      then exists s x, src !! (m - Z.to_nat lo)%nat = Some s /\
                       r !! m = Some x /\ R s x
      else r !! m = Some d0.
Proof.
  intros Hlo Hhi Hlen Hupd. unfold set_slice, len.
  rewrite length_replicate, !clip_in by lia.
  rewrite (broadcast_length _ src) by lia.
  rewrite !drop_replicate, !take_replicate.
  replace ((Z.to_nat hi - Z.to_nat lo) `min` (n - Z.to_nat lo))%nat
    with (Z.to_nat (hi - lo)) by lia.
  replace (Z.to_nat lo `min` n)%nat with (Z.to_nat lo) by lia.
  destruct (zipM_exists upd (fun _ s x => R s x)
              (replicate (Z.to_nat (hi - lo)) d0) src) as (mid & Hmid & HF).
  { rewrite length_replicate. lia. }
  { intros k x y Hx Hy. apply lookup_replicate in Hx as [-> _].
    apply Hupd. eapply list_elem_of_lookup_2, Hy. }
  pose proof (Forall3_length_lr _ _ _ _ HF) as Hl. rewrite length_replicate in Hl.
  exists (replicate (Z.to_nat lo) d0 ++ mid
          ++ replicate (n - (Z.to_nat lo + (Z.to_nat hi - Z.to_nat lo))) d0).
  rewrite Hmid. simpl.
  split; [reflexivity|]. split.
  { rewrite !length_app, !length_replicate. lia. }
  intros m Hm. unfold SOSEGrid.in_window.
  destruct (lo <=? Z.of_nat m) eqn:E1; simpl.
  - apply Z.leb_le in E1. destruct (Z.of_nat m <? hi) eqn:E2.
    + apply Z.ltb_lt in E2.
      destruct (lookup_lt_is_Some_2 mid (m - Z.to_nat lo)) as [x Hx]; [lia|].
      destruct (Forall3_lookup_r _ _ _ _ _ _ HF Hx) as (d & s & _ & Hs & HR).
      exists s, x. repeat split; try done.
      rewrite lookup_app_r; rewrite length_replicate; [|lia].
      rewrite lookup_app_l by lia. done.
    + apply Z.ltb_ge in E2.
      rewrite lookup_app_r; rewrite length_replicate; [|lia].
      rewrite lookup_app_r by lia.
      apply lookup_replicate. split; [done | lia].
  - apply Z.leb_gt in E1. rewrite lookup_app_l by (rewrite length_replicate; lia).
    apply lookup_replicate. split; [done | lia].
Qed.

Lemma zipM_map_r {A B B' C : Type} (f : A -> B -> result C) (g : B' -> B) l1 l2 :
  zipM f l1 (map g l2) = zipM (fun x y => f x (g y)) l1 l2.
Proof.
  revert l2. induction l1 as [|x l1 IH]; intros [|y l2]; simpl; try done.
  rewrite IH. done.
Qed.

Lemma set_slice_map {A B B' : Type} (upd : A -> B -> result A) (g : B' -> B)
    dest lo hi src :
  set_slice upd dest lo hi (map g src)
  = set_slice (fun d s => upd d (g s)) dest lo hi src.
Proof. unfold set_slice. rewrite broadcast_map, zipM_map_r. done. Qed.

(** One row of a field, trimmed into a row of fill values. *)
Lemma trim_row self fill (row_orig : arr1) :
  SOSEGrid.axis_ok (SOSEGrid.i0_before self) (SOSEGrid.i1_before self)
    (SOSEGrid.i0_after self) (SOSEGrid.i1_after self) (SOSEGrid.nx self) ->
  SOSEGrid.i1_before self <= len row_orig ->
  exists row,
    set_slice put (replicate (Z.to_nat (SOSEGrid.nx self)) fill)
      (SOSEGrid.i0_after self) (SOSEGrid.i1_after self)
      (py_slice row_orig (Some (SOSEGrid.i0_before self))
                         (Some (SOSEGrid.i1_before self))) = Ok row /\
    SOSEGrid.aligned1 self fill row_orig row.
Proof.
  intros (Hb & Ha & Heq & Hn) Hcov.
  destruct (set_slice_replicate put (fun s x => x = s) fill
              (Z.to_nat (SOSEGrid.nx self))
              (SOSEGrid.i0_after self) (SOSEGrid.i1_after self)
              (py_slice row_orig (Some (SOSEGrid.i0_before self))
                                 (Some (SOSEGrid.i1_before self))))
    as (row & Hrow & Hlen & Hat); try lia.
  { rewrite py_slice_length by lia. f_equal. lia. }
  { intros s _. exists s. done. }
  exists row. split; [done|]. split; [done|].
  intros i Hi. specialize (Hat i ltac:(lia)).
  destruct (SOSEGrid.in_window _ _ i) eqn:Hw; [|done].
  destruct Hat as (s & x & Hs & Hx & ->). exists s. split; [|done].
  unfold SOSEGrid.in_window in Hw. apply andb_true_iff in Hw as [W1 W2].
  apply Z.leb_le in W1. apply Z.ltb_lt in W2.
  rewrite py_slice_lookup in Hs by lia.
  rewrite <- Hs. f_equal. unfold SOSEGrid.before. lia.
Qed.

(** One horizontal slab of a field, trimmed into a slab of fill values. *)
Lemma trim2_aligned self fill (data_orig : arr2) :
  SOSEGrid.indices_ok self -> SOSEGrid.covers2 self data_orig ->
  exists data,
    SOSEGrid.trim2 self
      (replicate (Z.to_nat (SOSEGrid.ny self))
         (replicate (Z.to_nat (SOSEGrid.nx self)) fill)) data_orig = Ok data /\
    SOSEGrid.aligned2 self fill data_orig data.
Proof.
  intros (Hi & (Hb & Ha & Heq & Hn) & _) [Hcov Hrows].
  unfold SOSEGrid.trim2, set_slice2, slice2. rewrite set_slice_map.
  destruct (set_slice_replicate
              (fun d s => set_slice put d (SOSEGrid.i0_after self)
                 (SOSEGrid.i1_after self)
                 (py_slice s (Some (SOSEGrid.i0_before self))
                             (Some (SOSEGrid.i1_before self))))
              (SOSEGrid.aligned1 self fill)
              (replicate (Z.to_nat (SOSEGrid.nx self)) fill)
              (Z.to_nat (SOSEGrid.ny self))
              (SOSEGrid.j0_after self) (SOSEGrid.j1_after self)
              (py_slice data_orig (Some (SOSEGrid.j0_before self))
                                  (Some (SOSEGrid.j1_before self))))
    as (data & Hdata & Hlen & Hat); try lia.
  { rewrite py_slice_length by lia. f_equal. lia. }
  { intros s Hs. apply trim_row; [done|].
    rewrite Forall_forall in Hrows. apply Hrows.
    unfold py_slice in Hs. eapply subseteq_drop, subseteq_take, Hs. }
  exists data. split; [done|]. split.
  - split; [done|]. apply Forall_lookup. intros j row Hrow.
    specialize (Hat j ltac:(apply lookup_lt_Some in Hrow; lia)).
    destruct (SOSEGrid.in_window _ _ j).
    + destruct Hat as (s & x & _ & Hx & Hal). rewrite Hrow in Hx.
      injection Hx as <-. apply Hal.
    + rewrite Hrow in Hat. injection Hat as ->. apply length_replicate.
  - intros j i Hj Hi'. specialize (Hat j ltac:(lia)). unfold at2.
    destruct (SOSEGrid.in_window _ _ j) eqn:Hw; simpl.
    + destruct Hat as (s & x & Hs & Hx & Hal). rewrite Hx. simpl.
      destruct Hal as [_ Hal]. specialize (Hal i Hi').
      destruct (SOSEGrid.in_window _ _ i); [|done].
      destruct Hal as (v & Hv & Hxv). exists v. split; [|done].
      unfold SOSEGrid.in_window in Hw. apply andb_true_iff in Hw as [W1 W2].
      apply Z.leb_le in W1. apply Z.ltb_lt in W2.
      rewrite py_slice_lookup in Hs by lia.
      replace (SOSEGrid.before (SOSEGrid.j0_after self)
                 (SOSEGrid.j0_before self) j)
        with (j - Z.to_nat (SOSEGrid.j0_after self)
              + Z.to_nat (SOSEGrid.j0_before self))%nat
        by (unfold SOSEGrid.before; lia).
      rewrite Hs. done.
    + rewrite Hat. simpl. apply lookup_replicate. split; [done | lia].
Qed.

(** A field with a depth axis, trimmed into a volume of fill values. *)
Lemma trim3_aligned self fill (data_orig : arr3) :
  SOSEGrid.indices_ok self -> SOSEGrid.covers3 self data_orig ->
  exists data,
    SOSEGrid.trim3 self
      (replicate (Z.to_nat (SOSEGrid.nz self))
         (replicate (Z.to_nat (SOSEGrid.ny self))
            (replicate (Z.to_nat (SOSEGrid.nx self)) fill))) data_orig
    = Ok data /\
    SOSEGrid.aligned3 self fill data_orig data.
Proof.
  intros Hok [Hcov Hslabs].
  pose proof Hok as (Hi & Hj & (Hb & Ha & Heq & Hn)).
  unfold SOSEGrid.trim3, set_slice3, slice3. rewrite set_slice_map.
  destruct (set_slice_replicate
              (fun d p => SOSEGrid.trim2 self d p)
              (SOSEGrid.aligned2 self fill)
              (replicate (Z.to_nat (SOSEGrid.ny self))
                 (replicate (Z.to_nat (SOSEGrid.nx self)) fill))
              (Z.to_nat (SOSEGrid.nz self))
              (SOSEGrid.k0_after self) (SOSEGrid.k1_after self)
              (py_slice data_orig (Some (SOSEGrid.k0_before self))
                                  (Some (SOSEGrid.k1_before self))))
    as (data & Hdata & Hlen & Hat); try lia.
  { rewrite py_slice_length by lia. f_equal. lia. }
  { intros p Hp. apply trim2_aligned; [done|].
    rewrite Forall_forall in Hslabs. apply Hslabs.
    unfold py_slice in Hp. eapply subseteq_drop, subseteq_take, Hp. }
  exists data. split; [exact Hdata|]. split.
  - split; [done|]. apply Forall_lookup. intros k slab Hslab.
    specialize (Hat k ltac:(apply lookup_lt_Some in Hslab; lia)).
    destruct (SOSEGrid.in_window _ _ k).
    + destruct Hat as (s & x & _ & Hx & Hal). rewrite Hslab in Hx.
      injection Hx as <-. apply Hal.
    + rewrite Hslab in Hat. injection Hat as ->. apply shape2_replicate.
  - intros k j i Hk Hj' Hi'. specialize (Hat k ltac:(lia)). unfold at3.
    destruct (SOSEGrid.in_window _ _ k) eqn:Hw; simpl.
    + destruct Hat as (s & x & Hs & Hx & Hal). rewrite Hx. simpl.
      destruct Hal as [_ Hal]. specialize (Hal j i Hj' Hi').
      destruct (SOSEGrid.in_window _ _ j && SOSEGrid.in_window _ _ i); [|done].
      destruct Hal as (v & Hv & Hxv). exists v. split; [|done].
      unfold SOSEGrid.in_window in Hw. apply andb_true_iff in Hw as [W1 W2].
      apply Z.leb_le in W1. apply Z.ltb_lt in W2.
      rewrite py_slice_lookup in Hs by lia.
      replace (SOSEGrid.before (SOSEGrid.k0_after self)
                 (SOSEGrid.k0_before self) k)
        with (k - Z.to_nat (SOSEGrid.k0_after self)
              + Z.to_nat (SOSEGrid.k0_before self))%nat
        by (unfold SOSEGrid.before; lia).
      rewrite Hs. done.
    + rewrite Hat. simpl. apply at2_replicate; lia.
Qed.

(** [split_longitude] rotates every row and keeps its length. *)
Lemma split_longitude_length (l : arr1) (split : Z) :
  0 <= split -> length (split_longitude l split) = length l.
Proof.
  intros Hs. unfold split_longitude, py_slice, slice_lo, slice_hi.
  rewrite clip_nonneg by done. rewrite length_app, !length_take, !length_drop.
  unfold len. lia.
Qed.

Lemma covers2_split self (a : arr2) :
  0 <= SOSEGrid.i_split self ->
  SOSEGrid.covers2 self a ->
  SOSEGrid.covers2 self (split_longitude2 a (SOSEGrid.i_split self)).
Proof.
  intros Hs [Hj Hi]. split.
  - unfold split_longitude2, len in *. rewrite length_map. done.
  - unfold split_longitude2. apply Forall_map. eapply Forall_impl; [exact Hi|].
    intros r Hr. simpl. unfold len in *.
    rewrite split_longitude_length by done. done.
Qed.

Lemma covers3_split self (a : arr3) :
  0 <= SOSEGrid.i_split self ->
  SOSEGrid.covers3 self a ->
  SOSEGrid.covers3 self (split_longitude3 a (SOSEGrid.i_split self)).
Proof.
  intros Hs [Hk Hsl]. split.
  - unfold split_longitude3, len in *. rewrite length_map. done.
  - unfold split_longitude3. apply Forall_map. eapply Forall_impl; [exact Hsl|].
    intros p Hp. simpl. apply covers2_split; done.
Qed.

Lemma full_nonneg {A : Type} (n : Z) (x : A) :
  0 <= n -> full n x = Ok (replicate (Z.to_nat n) x).
Proof. intros H. unfold full. destruct (n <? 0) eqn:E; [lia | done]. Qed.

Lemma Forall3_drop_l {A B C : Type} (P : B -> C -> Prop) (l1 : list A) l2 l3 :
  Forall3 (fun _ y z0 => P y z0) l1 l2 l3 -> Forall2 P l2 l3.
Proof. induction 1; constructor; auto. Qed.

(** Fields with a time axis: every record is trimmed in the same way. *)
Lemma zipM_trim {B : Type} (trim : B -> B -> result B) (P : B -> B -> Prop)
    (blank : B) (src : list B) :
  (forall s, s ∈ src -> exists x, trim blank s = Ok x /\ P s x) ->
  exists data,
    zipM trim (replicate (length src) blank) src = Ok data /\ Forall2 P src data.
Proof.
  intros H.
  destruct (zipM_exists trim (fun _ s x => P s x)
              (replicate (length src) blank) src) as (data & Hd & HF).
  - apply length_replicate.
  - intros n x y Hx Hy. apply lookup_replicate in Hx as [-> _].
    apply H. eapply list_elem_of_lookup_2, Hy.
  - exists data. split; [done|]. eapply Forall3_drop_l, HF.
Qed.

Lemma axis_ok_nonneg lo_b hi_b lo_a hi_a n :
  SOSEGrid.axis_ok lo_b hi_b lo_a hi_a n -> 0 <= n.
Proof. intros (? & ? & ? & ?). lia. Qed.

(** [read_field] on an object whose indices are in order. *)
Lemma read_field_aligned self (f : Q) :
  SOSEGrid.trim_extend self = true -> SOSEGrid.indices_ok self ->
  0 <= SOSEGrid.i_split self ->
  (forall file : arr2, SOSEGrid.covers2 self file ->
     exists data,
       SOSEGrid.read_field self (A2 file) "xy" (Some f) = Ok (A2 data) /\
       SOSEGrid.aligned2 self f
         (split_longitude2 file (SOSEGrid.i_split self)) data) /\
  (forall file : arr3, Forall (SOSEGrid.covers2 self) file ->
     exists data,
       SOSEGrid.read_field self (A3 file) "xyt" (Some f) = Ok (A3 data) /\
       Forall2 (SOSEGrid.aligned2 self f)
         (split_longitude3 file (SOSEGrid.i_split self)) data) /\
  (forall file : arr3, SOSEGrid.covers3 self file ->
     exists data,
       SOSEGrid.read_field self (A3 file) "xyz" (Some f) = Ok (A3 data) /\
       SOSEGrid.aligned3 self f
         (split_longitude3 file (SOSEGrid.i_split self)) data) /\
  (forall file : arr4, Forall (SOSEGrid.covers3 self) file ->
     exists data,
       SOSEGrid.read_field self (A4 file) "xyzt" (Some f) = Ok (A4 data) /\
       Forall2 (SOSEGrid.aligned3 self f)
         (split_longitude4 file (SOSEGrid.i_split self)) data).
Proof.
  intros Htrim Hok Hsplit.
  pose proof Hok as (Hi & Hj & Hk).
  apply axis_ok_nonneg in Hi, Hj, Hk.
  repeat split.
  - intros file Hcov. unfold SOSEGrid.read_field. rewrite Htrim. simpl.
    rewrite (full_nonneg _ _ Hi). simpl. rewrite (full_nonneg _ _ Hj). simpl.
    destruct (trim2_aligned self f
                (split_longitude2 file (SOSEGrid.i_split self)) Hok)
      as (data & Hdata & Hal); [apply covers2_split; done|].
    exists data. rewrite Hdata. done.
  - intros file Hcov. unfold SOSEGrid.read_field. rewrite Htrim. simpl.
    rewrite (full_nonneg _ _ Hi). simpl. rewrite (full_nonneg _ _ Hj). simpl.
    rewrite full_nonneg by (unfold len; lia). simpl.
    destruct (zipM_trim (SOSEGrid.trim2 self) (SOSEGrid.aligned2 self f)
                (replicate (Z.to_nat (SOSEGrid.ny self))
                   (replicate (Z.to_nat (SOSEGrid.nx self)) f))
                (split_longitude3 file (SOSEGrid.i_split self)))
      as (data & Hdata & Hal).
    { intros s Hs. apply trim2_aligned; [done|].
      unfold split_longitude3 in Hs. apply list_elem_of_fmap in Hs as (s0 & -> & Hs0).
      apply covers2_split; [done|]. rewrite Forall_forall in Hcov. auto. }
    exists data. unfold len. rewrite Nat2Z.id.
    unfold split_longitude3 in Hdata at 1. rewrite length_map in Hdata.
    unfold split_longitude3 at 1. rewrite length_map. rewrite Hdata. done.
  - intros file Hcov. unfold SOSEGrid.read_field. rewrite Htrim. simpl.
    rewrite (full_nonneg _ _ Hi). simpl. rewrite (full_nonneg _ _ Hj). simpl.
    rewrite (full_nonneg _ _ Hk). simpl.
    destruct (trim3_aligned self f
                (split_longitude3 file (SOSEGrid.i_split self)) Hok)
      as (data & Hdata & Hal); [apply covers3_split; done|].
    exists data. rewrite Hdata. done.
  - intros file Hcov. unfold SOSEGrid.read_field. rewrite Htrim. simpl.
    rewrite (full_nonneg _ _ Hi). simpl. rewrite (full_nonneg _ _ Hj). simpl.
    rewrite (full_nonneg _ _ Hk). simpl.
    rewrite full_nonneg by (unfold len; lia). simpl.
    destruct (zipM_trim (SOSEGrid.trim3 self) (SOSEGrid.aligned3 self f)
                (replicate (Z.to_nat (SOSEGrid.nz self))
                   (replicate (Z.to_nat (SOSEGrid.ny self))
                      (replicate (Z.to_nat (SOSEGrid.nx self)) f)))
                (split_longitude4 file (SOSEGrid.i_split self)))
      as (data & Hdata & Hal).
    { intros s Hs. apply trim3_aligned; [done|].
      unfold split_longitude4 in Hs. apply list_elem_of_fmap in Hs as (s0 & -> & Hs0).
      apply covers3_split; [done|]. rewrite Forall_forall in Hcov. auto. }
    exists data. unfold len. rewrite Nat2Z.id.
    unfold split_longitude4 in Hdata at 1. rewrite length_map in Hdata.
    unfold split_longitude4 at 1. rewrite length_map. rewrite Hdata. done.
Qed.

(** ** Double precision *)

Lemma round_half_even_error (s : Q) :
  (Qabs (inject_Z (round_half_even s) - s) <= 1 # 2)%Q.
Proof.
  unfold round_half_even.
  pose proof (Qfloor_le s) as H1. pose proof (Qlt_floor s) as H2.
  rewrite inject_Z_plus in H2. change (inject_Z 1) with 1%Q in H2.
  apply Qabs_Qle_condition.
  destruct (Qltb (s - inject_Z (Qfloor s)) (1 # 2)) eqn:E1.
  - apply Qltb_true in E1. split; lra.
  - apply Qltb_false in E1.
    destruct (Qltb (1 # 2) (s - inject_Z (Qfloor s))) eqn:E2.
    + rewrite inject_Z_plus. change (inject_Z 1) with 1%Q. split; lra.
    + apply Qltb_false in E2. destruct (Z.even (Qfloor s)).
      * split; lra.
      * rewrite inject_Z_plus. change (inject_Z 1) with 1%Q. split; lra.
Qed.

Lemma two_neq_0 : ~ (2 == 0)%Q.
Proof. discriminate. Qed.

Lemma Qpower2_pos (e : Z) : (0 < 2 ^ e)%Q.
Proof. apply Qpower_0_lt. reflexivity. Qed.

Lemma Qpower2_cancel (e : Z) : (2 ^ (- e) * 2 ^ e == 1)%Q.
Proof.
  rewrite <- Qpower_plus by apply two_neq_0.
  replace (- e + e) with 0 by lia. reflexivity.
Qed.

Lemma log2_Qpower (n : Z) :
  0 < n -> (2 ^ Z.log2 n <= inject_Z n /\ inject_Z n < 2 * 2 ^ Z.log2 n)%Q.
Proof.
  intros Hn. destruct (Z.log2_spec n Hn) as [H1 H2].
  pose proof (Z.log2_nonneg n) as H0.
  rewrite Z.pow_succ_r in H2 by exact H0.
  rewrite <- (Zpower_Qpower 2 (Z.log2 n) H0).
  split.
  - rewrite <- Zle_Qle. exact H1.
  - change 2%Q with (inject_Z 2) at 1. rewrite <- inject_Z_mult, <- Zlt_Qlt.
    exact H2.
Qed.

(** The significand has 53 bits. *)
Lemma exponent64_scaled (a : Q) :
  (0 < a)%Q -> (2 ^ 52 <= a * 2 ^ (- exponent64 a))%Q.
Proof.
  intros Ha. unfold exponent64.
  set (A := Z.log2 (Qnum a)). set (B := Z.log2 (Z.pos (Qden a))).
  destruct (Qltb (a * 2 ^ (- (A - B - 52))) (2 ^ 52)) eqn:E.
  2: { apply Qltb_false in E. exact E. }
  clear E.
  assert (Hn : 0 < Qnum a).
  { destruct a as [n d]. unfold Qlt in Ha. simpl in *. lia. }
  destruct (log2_Qpower (Qnum a) Hn) as [HA _].
  destruct (log2_Qpower (Z.pos (Qden a)) ltac:(lia)) as [_ HB].
  fold A in HA. fold B in HB.
  replace (- (A - B - 52 - 1)) with (53 + B + - A) by lia.
  rewrite !Qpower_plus by apply two_neq_0.
  rewrite Qpower_opp.
  pose proof (Qpower2_pos A) as PA. pose proof (Qpower2_pos B) as PB.
  assert (Ea : a == inject_Z (Qnum a) / inject_Z (Z.pos (Qden a))).
  { destruct a as [n d]. simpl. apply Qmake_Qdiv. }
  assert (PD : (0 < inject_Z (Z.pos (Qden a)))%Q).
  { rewrite <- (Zlt_Qlt 0). lia. }
  rewrite Ea.
  revert HA HB PA PB PD.
  generalize (inject_Z (Qnum a)) (inject_Z (Z.pos (Qden a))) (2 ^ A)%Q (2 ^ B)%Q.
  intros N D PA PB HA HB HPA HPB HD.
  assert (E : (N / D * (2 ^ 53 * PB * / PA)
               == 2 ^ 52 * ((N / PA) * (2 * PB / D)))%Q).
  { field. split; lra. }
  rewrite E.
  assert (X : (1 <= N / PA)%Q) by (apply Qle_shift_div_l; lra).
  assert (Y : (1 <= 2 * PB / D)%Q) by (apply Qle_shift_div_l; lra).
  nra.
Qed.

(** Rounding to the nearest double changes a number by at most the unit
    roundoff times its size. *)
Lemma round64_error (q : Q) : (Qabs (round64 q - q) <= u64 * Qabs q)%Q.
Proof.
  unfold round64. destruct (Qeq_bool q 0) eqn:E0.
  { apply Qeq_bool_iff in E0. rewrite E0. vm_compute. discriminate. }
  assert (Hq : ~ q == 0).
  { intros H. apply Qeq_bool_iff in H. congruence. }
  assert (Ha : (0 < Qabs q)%Q).
  { destruct (Qlt_le_dec q 0) as [Hn | Hp].
    - rewrite Qabs_neg by lra. lra.
    - rewrite Qabs_pos by lra. apply Qle_lteq in Hp as [Hp | Hp]; [lra|].
      exfalso. apply Hq. symmetry. exact Hp. }
  set (a := Qabs q) in *. set (e := exponent64 a).
  pose proof (exponent64_scaled a Ha) as Hs. fold e in Hs.
  pose proof (round_half_even_error (a * 2 ^ (- e))) as Hm.
  set (m := inject_Z (round_half_even (a * 2 ^ (- e)))) in *.
  apply Qabs_Qle_condition in Hm.
  pose proof (Qpower2_pos e) as Pe. pose proof (Qpower2_cancel e) as Pc.
  assert (Hbound : (- (u64 * a) <= m * 2 ^ e - a <= u64 * a)%Q).
  { revert Hs Hm Pe Pc. generalize (2 ^ e)%Q (2 ^ (- e))%Q m a. clear.
    unfold u64. intros p p' m a Hs Hm Pe Pc.
    change (2 ^ 52)%Q with (inject_Z 4503599627370496) in Hs.
    assert (Ea : a == (a * p') * p) by (rewrite <- Qmult_assoc, Pc; ring).
    revert Hs Hm Ea. generalize (a * p')%Q. intros s Hs Hm Ea.
    assert (G1 : (0 <= ((1 # 2) - (m - s)) * p)%Q)
      by (apply Qmult_le_0_compat; lra).
    assert (G2 : (0 <= ((m - s) + (1 # 2)) * p)%Q)
      by (apply Qmult_le_0_compat; lra).
    assert (G3 : (0 <= (s - inject_Z 4503599627370496) * p)%Q)
      by (apply Qmult_le_0_compat; lra).
    change (inject_Z 4503599627370496) with 4503599627370496%Q in G3.
    split; nra. }
  destruct (Qltb q 0) eqn:En; rewrite Qred_correct; apply Qabs_Qle_condition.
  - apply Qltb_true in En. assert (Eq : a == - q) by (apply Qabs_neg; lra).
    split; lra.
  - apply Qltb_false in En. assert (Eq : a == q) by (apply Qabs_pos; lra).
    split; lra.
Qed.

Lemma round64_between (q : Q) :
  (0 <= q)%Q -> ((1 - u64) * q <= round64 q <= (1 + u64) * q)%Q.
Proof.
  intros Hq. pose proof (round64_error q) as H.
  apply Qabs_Qle_condition in H. rewrite (Qabs_pos q) in H by exact Hq.
  split; lra.
Qed.

Lemma round64_pos (q : Q) : (0 < q)%Q -> (0 < round64 q)%Q.
Proof.
  intros Hq. destruct (round64_between q) as [H _]; [lra|].
  unfold u64 in H. lra.
Qed.

(** ** What a successful [SOSEGrid.__init__] has computed *)

Lemma first_true_Some (l : list bool) (n : nat) :
  first_true l = Some n ->
  l !! n = Some true /\ forall m, (m < n)%nat -> l !! m = Some false.
Proof.
  revert n. induction l as [|b l IH]; intros n H; simpl in H; [discriminate|].
  destruct b.
  - injection H as <-. split; [done | lia].
  - destruct (first_true l) as [n'|]; [|discriminate]. injection H as <-.
    destruct (IH n' eq_refl) as [H1 H2]. split; [done|].
    intros [|m] Hm; [done|]. apply H2. lia.
Qed.

Lemma nonzero_first_Ok (cond : list bool) (n : Z) :
  nonzero_first cond = Ok n ->
  0 <= n < len cond /\ cond !! Z.to_nat n = Some true /\
  forall m, (m < Z.to_nat n)%nat -> cond !! m = Some false.
Proof.
  unfold nonzero_first. destruct (first_true cond) as [k|] eqn:E; [|discriminate].
  intros [= <-]. destruct (first_true_Some _ _ E) as [H1 H2].
  rewrite Nat2Z.id. repeat split; try done; try lia.
  apply lookup_lt_Some in H1. unfold len. lia.
Qed.

Lemma py_index_Ok_len {A : Type} (l : list A) n x :
  py_index l n = Ok x -> 0 < len l.
Proof.
  unfold py_index, len. destruct (n <? 0) eqn:E.
  - destruct (n + Z.of_nat (length l) <? 0) eqn:E'; [discriminate|]. lia.
  - destruct (n <? 0); [discriminate|].
    destruct (l !! Z.to_nat n) eqn:Hl; [|discriminate].
    apply lookup_lt_Some in Hl. lia.
Qed.

Lemma western_bound_Ok xmin lon i :
  SOSEGrid.western_bound xmin lon = Ok i -> 0 <= i < len lon.
Proof.
  unfold SOSEGrid.western_bound. intros H. run H.
  - injection H as <-. apply py_index_Ok_len in Hx. lia.
  - injection H as <-.
    apply nonzero_first_Ok in Hx0 as (Hn & Ht & _).
    unfold len in Hn. rewrite length_map in Hn.
    destruct (Z.eq_dec x0 0) as [-> | Hne]; [|unfold len; lia].
    exfalso. change (Z.to_nat 0) with 0%nat in Ht. rewrite lookup_map in Ht.
    apply py_index_first in Hx. rewrite Hx in Ht. simpl in Ht.
    injection Ht as Ht. apply Qgtb_true in Hb0, Ht.
    apply (Qlt_irrefl x). eapply Qlt_trans; eauto.
Qed.

Lemma eastern_bound_Ok xmax lonc n i :
  SOSEGrid.eastern_bound xmax lonc n = Ok i -> 0 <= n -> 0 <= i.
Proof.
  unfold SOSEGrid.eastern_bound. intros H Hn. run H.
  - injection H as <-. done.
  - injection H as <-. apply nonzero_first_Ok in Hx0. lia.
Qed.

Lemma northern_bound_Ok ymax latc n i :
  SOSEGrid.northern_bound ymax latc n = Ok i -> 0 <= n -> 0 <= i.
Proof.
  unfold SOSEGrid.northern_bound. intros H Hn. run H.
  - injection H as <-. done.
  - injection H as <-. apply nonzero_first_Ok in Hx0. lia.
Qed.

Lemma Qceiling_pos (q : Q) : (0 < q)%Q -> 0 < Qceiling q.
Proof.
  intros Hq. pose proof (Qle_ceiling q) as Hle.
  rewrite Zlt_Qlt. eapply Qlt_le_trans; eauto.
Qed.

Lemma southern_bound_Ok c ymin lat jb ja :
  SOSEGrid.southern_bound c ymin lat = Ok (jb, ja) ->
  exists first,
    lat !! 0%nat = Some first /\ 0 <= jb < len lat /\
    ((ja = 0 /\ (ymin >= first)%Q) \/
     (jb = 0 /\ (ymin < first)%Q /\
      ja = Qceiling (fl_div (fl_sub first ymin) (sose_res c)))).
Proof.
  unfold SOSEGrid.southern_bound. intros H. run H; exists x;
    pose proof (py_index_Ok_len _ _ _ Hx) as Hlen;
    pose proof (py_index_first _ _ Hx) as Hfirst.
  - injection H as <- <-. apply Qeq_bool_iff in Hb.
    repeat split; try done; try lia. left. split; [done|]. rewrite Hb.
    apply Qle_refl.
  - injection H as <- <-. apply Qgtb_true in Hb0.
    apply nonzero_first_Ok in Hx0 as (Hn & Ht & _).
    unfold len in Hn. rewrite length_map in Hn.
    split; [done|]. split.
    + destruct (Z.eq_dec x0 0) as [-> | Hne]; [|unfold len; lia].
      exfalso. change (Z.to_nat 0) with 0%nat in Ht.
      rewrite lookup_map, Hfirst in Ht. simpl in Ht.
      injection Ht as Ht. apply Qgtb_true in Ht.
      apply (Qlt_irrefl x). eapply Qlt_trans; eauto.
    + left. split; [done|]. apply Qlt_le_weak. done.
  - injection H as <- <-. apply Qltb_true in Hb1.
    repeat split; try done; try lia. right. done.
Qed.

Lemma depth_bounds_Ok zs zd z n k0a k1b k1a nz :
  SOSEGrid.depth_bounds zs zd z n = Ok (k0a, k1b, k1a, nz) -> 0 <= n ->
  0 <= k0a <= 1 /\ 0 <= k1b /\ k1a = k1b + k0a /\ k1a <= nz <= k1a + 1.
Proof.
  unfold SOSEGrid.depth_bounds. intros H Hn.
  apply bind_Ok in H as (first & _ & H).
  apply bind_Ok in H as (last & _ & H).
  apply bind_Ok in H as (k1 & Hk1 & H).
  apply bind_Ok in H as (last' & _ & H). injection H as <- <- <- <-.
  assert (0 <= k1).
  { destruct (Qgtb zd last); [|injection Hk1 as <-; done].
    apply bind_Ok in Hk1 as (m & Hm & Hk1). injection Hk1 as <-.
    apply nonzero_first_Ok in Hm. lia. }
  destruct (Qle_bool zs first), (Qltb zd last'); lia.
Qed.

(** The model grid bounds the trimming works with. *)
Lemma trim_axes_inv c mg i_split lon lonc lat latc z self :
  SOSEGrid.trim_axes c mg i_split lon lonc lat latc z = Ok self ->
  exists xmin xmax ymin ymax z_shallow z_deep first first_corner above mz1 mz2
         below,
    amin2 (Grid.lon_corners_2d mg) = Ok xmin /\
    amax2 (Grid.lon_2d mg) = Ok xmax /\
    amin2 (Grid.lat_corners_2d mg) = Ok ymin /\
    amax2 (Grid.lat_2d mg) = Ok ymax /\
    py_index (Grid.z mg) 0 = Ok z_shallow /\
    py_index (Grid.z mg) (-1) = Ok z_deep /\
    SOSEGrid.western_bound xmin lon = Ok (SOSEGrid.i0_before self) /\
    SOSEGrid.eastern_bound xmax lonc (len lon) = Ok (SOSEGrid.i1_before self) /\
    SOSEGrid.southern_bound c ymin lat
      = Ok (SOSEGrid.j0_before self, SOSEGrid.j0_after self) /\
    SOSEGrid.northern_bound ymax latc (len lat) = Ok (SOSEGrid.j1_before self) /\
    SOSEGrid.depth_bounds z_shallow z_deep z (len z)
      = Ok (SOSEGrid.k0_after self, SOSEGrid.k1_before self,
            SOSEGrid.k1_after self, SOSEGrid.nz self) /\
    SOSEGrid.trim_extend self = true /\
    SOSEGrid.i_split self = i_split /\
    SOSEGrid.i0_after self = 0 /\
    SOSEGrid.i1_after self
      = SOSEGrid.i1_before self - SOSEGrid.i0_before self + 0 /\
    SOSEGrid.nx self = SOSEGrid.i1_after self /\
    SOSEGrid.j1_after self
      = SOSEGrid.j1_before self - SOSEGrid.j0_before self
        + SOSEGrid.j0_after self /\
    SOSEGrid.ny self = SOSEGrid.j1_after self /\
    SOSEGrid.k0_before self = 0 /\
    SOSEGrid.lon_1d self
      = py_slice lon (Some (SOSEGrid.i0_before self))
                     (Some (SOSEGrid.i1_before self)) /\
    SOSEGrid.lon_corners_1d self
      = py_slice lonc (Some (SOSEGrid.i0_before self))
                      (Some (SOSEGrid.i1_before self)) /\
    py_index lat (SOSEGrid.j0_before self) = Ok first /\
    SOSEGrid.lat_1d self
      = SOSEGrid.extend_south c (SOSEGrid.j0_after self) first
        ++ py_slice lat (Some (SOSEGrid.j0_before self))
                        (Some (SOSEGrid.j1_before self)) /\
    py_index latc (SOSEGrid.j0_before self) = Ok first_corner /\
    SOSEGrid.lat_corners_1d self
      = SOSEGrid.extend_south c (SOSEGrid.j0_after self) first_corner
        ++ py_slice latc (Some (SOSEGrid.j0_before self))
                         (Some (SOSEGrid.j1_before self)) /\
    SOSEGrid.ones_times 0 (SOSEGrid.k0_after self) = Ok above /\
    py_index (Grid.z mg) (-1) = Ok mz1 /\
    py_index (Grid.z mg) (-2) = Ok mz2 /\
    SOSEGrid.ones_times (2 * mz1 - mz2)%Q
      (SOSEGrid.nz self - SOSEGrid.k1_after self) = Ok below /\
    SOSEGrid.z self
      = above ++ py_slice z (Some 0) (Some (SOSEGrid.k1_before self)) ++ below /\
    SOSEGrid.check_bounds (SOSEGrid.lon_corners_1d self)
      (SOSEGrid.lat_corners_1d self) (SOSEGrid.z self)
      xmin xmax ymin ymax z_shallow z_deep = Ok ().
Proof.
  unfold SOSEGrid.trim_axes. intros H.
  apply bind_Ok in H as (xmin & Hxmin & H).
  apply bind_Ok in H as (xmax & Hxmax & H).
  apply bind_Ok in H as (ymin & Hymin & H).
  apply bind_Ok in H as (ymax & Hymax & H).
  apply bind_Ok in H as (zs & Hzs & H).
  apply bind_Ok in H as (zd & Hzd & H).
  apply bind_Ok in H as (i0 & Hi0 & H).
  apply bind_Ok in H as (i1 & Hi1 & H).
  apply bind_Ok in H as ([j0b j0a] & Hj0 & H).
  apply bind_Ok in H as (j1 & Hj1 & H).
  apply bind_Ok in H as ([[[k0a k1b] k1a] nz] & Hk & H).
  apply bind_Ok in H as (first & Hfirst & H).
  apply bind_Ok in H as (firstc & Hfirstc & H).
  apply bind_Ok in H as (above & Habove & H).
  apply bind_Ok in H as (mz1 & Hmz1 & H).
  apply bind_Ok in H as (mz2 & Hmz2 & H).
  apply bind_Ok in H as (below & Hbelow & H).
  apply bind_Ok in H as ([] & Hcheck & H).
  injection H as <-. simpl.
  exists xmin, xmax, ymin, ymax, zs, zd, first, firstc, above, mz1, mz2, below.
  repeat split; assumption.
Qed.

Lemma read_longitude_split raw max_lon split i_split lon lonc :
  SOSEGrid.read_longitude raw max_lon split = Ok (i_split, lon, lonc) ->
  0 <= i_split.
Proof.
  unfold SOSEGrid.read_longitude. intros H.
  apply bind_Ok in H as (l0 & _ & H).
  apply bind_Ok in H as ([i l1] & Hi & H).
  run H. injection H as <- _ _.
  destruct (split =? 180).
  - apply bind_Ok in Hi as (n & Hn & Hi). injection Hi as <- _.
    apply nonzero_first_Ok in Hn. lia.
  - injection Hi as <- _. lia.
Qed.

(** The constructor with a model grid: the axes come from [trim_axes], the
    hfac arrays from [read_field]. *)
Lemma SOSE_init_inv c raw mg split g :
  SOSEGrid.init c raw (Some mg) split = Ok g ->
  exists max_lon i_split lon lonc lat latc self h hw hs m mu mv,
    SOSEGrid.read_longitude raw max_lon (default 0 split)
      = Ok (i_split, lon, lonc) /\
    col0 (SOSEGrid.YC raw) = Ok lat /\ col0 (SOSEGrid.YG raw) = Ok latc /\
    SOSEGrid.trim_axes c mg i_split lon lonc lat latc (SOSEGrid.RC raw)
      = Ok self /\
    SOSEGrid.read_hfac self (SOSEGrid.hFacC raw) = Ok h /\
    g = SOSEGrid.with_hfac self h hw hs m mu mv.
Proof.
  unfold SOSEGrid.init. intros H.
  apply bind_Ok in H as (max_lon & _ & H).
  apply bind_Ok in H as ([[i_split lon] lonc] & Hlon & H).
  apply bind_Ok in H as (lat & Hlat & H).
  apply bind_Ok in H as (latc & Hlatc & H).
  apply bind_Ok in H as ([[[self h] hw] hs] & Hself & H).
  apply bind_Ok in Hself as (self' & Htrim & Hself).
  apply bind_Ok in Hself as (h' & Hh & Hself).
  apply bind_Ok in Hself as (hw' & Hhw & Hself).
  apply bind_Ok in Hself as (hs' & Hhs & Hself).
  injection Hself as <- <- <- <-.
  apply bind_Ok in H as (m & _ & H).
  apply bind_Ok in H as (mu & _ & H).
  apply bind_Ok in H as (mv & _ & H). injection H as <-.
  exists max_lon, i_split, lon, lonc, lat, latc, self', h', hw', hs', m, mu, mv.
  done.
Qed.

(** ** The six bounds *)

Lemma check_bounds_Ok lonc latc z xmin xmax ymin ymax zs zd :
  SOSEGrid.check_bounds lonc latc z xmin xmax ymin ymax zs zd = Ok () ->
  exists w e s n top bottom,
    py_index lonc 0 = Ok w /\ py_index lonc (-1) = Ok e /\
    py_index latc 0 = Ok s /\ py_index latc (-1) = Ok n /\
    py_index z 0 = Ok top /\ py_index z (-1) = Ok bottom /\
    (w <= xmin /\ xmax <= e /\ s <= ymin /\ ymax <= n /\
     zs <= top /\ bottom <= zd)%Q.
Proof.
  unfold SOSEGrid.check_bounds. intros H. run H.
  apply Qgtb_false in Hb, Hb1, Hb4. apply Qltb_false in Hb0, Hb2, Hb3.
  exists x, x0, x1, x2, x3, x4. repeat split; assumption.
Qed.

Lemma check_bounds_fatal lonc latc z xmin xmax ymin ymax zs zd
    w e s n top bottom :
  py_index lonc 0 = Ok w -> py_index lonc (-1) = Ok e ->
  py_index latc 0 = Ok s -> py_index latc (-1) = Ok n ->
  py_index z 0 = Ok top -> py_index z (-1) = Ok bottom ->
  ~ (w <= xmin /\ xmax <= e /\ s <= ymin /\ ymax <= n /\
     zs <= top /\ bottom <= zd)%Q ->
  exists msg,
    SOSEGrid.check_bounds lonc latc z xmin xmax ymin ymax zs zd
    = Err (SystemExit msg).
Proof.
  intros Hw He Hs Hn Ht Hb Hnot. unfold SOSEGrid.check_bounds.
  rewrite Hw. simpl. destruct (Qgtb w xmin) eqn:E1; [eexists; reflexivity|].
  rewrite He. simpl. destruct (Qltb e xmax) eqn:E2; [eexists; reflexivity|].
  rewrite Hs. simpl. destruct (Qgtb s ymin) eqn:E3; [eexists; reflexivity|].
  rewrite Hn. simpl. destruct (Qltb n ymax) eqn:E4; [eexists; reflexivity|].
  rewrite Ht. simpl. destruct (Qltb top zs) eqn:E5; [eexists; reflexivity|].
  rewrite Hb. simpl. destruct (Qgtb bottom zd) eqn:E6; [eexists; reflexivity|].
  exfalso. apply Hnot.
  apply Qgtb_false in E1, E3, E6. apply Qltb_false in E2, E4, E5. done.
Qed.

(** C2: a SOSEGrid constructed with a model grid has passed the six checks
    made after the trimming and extending: its corner longitudes, corner
    latitudes and depths cover the western, eastern, southern, northern,
    shallow and deep bounds of the model grid.  On axes that miss one of the
    bounds the check stops with a fatal error. *)
Theorem C2_bounds_cleared c raw mg split g :
  SOSEGrid.init c raw (Some mg) split = Ok g ->
  (exists xmin xmax ymin ymax z_shallow z_deep w e s n top bottom,
     amin2 (Grid.lon_corners_2d mg) = Ok xmin /\
     amax2 (Grid.lon_2d mg) = Ok xmax /\
     amin2 (Grid.lat_corners_2d mg) = Ok ymin /\
     amax2 (Grid.lat_2d mg) = Ok ymax /\
     py_index (Grid.z mg) 0 = Ok z_shallow /\
     py_index (Grid.z mg) (-1) = Ok z_deep /\
     SOSEGrid.check_bounds (SOSEGrid.lon_corners_1d g)
       (SOSEGrid.lat_corners_1d g) (SOSEGrid.z g)
       xmin xmax ymin ymax z_shallow z_deep = Ok () /\
     py_index (SOSEGrid.lon_corners_1d g) 0 = Ok w /\
     py_index (SOSEGrid.lon_corners_1d g) (-1) = Ok e /\
     py_index (SOSEGrid.lat_corners_1d g) 0 = Ok s /\
     py_index (SOSEGrid.lat_corners_1d g) (-1) = Ok n /\
     py_index (SOSEGrid.z g) 0 = Ok top /\
     py_index (SOSEGrid.z g) (-1) = Ok bottom /\
     (w <= xmin /\ xmax <= e /\ s <= ymin /\ ymax <= n /\
      z_shallow <= top /\ bottom <= z_deep)%Q) /\
  (forall lonc latc z xmin xmax ymin ymax zs zd w e s n top bottom,
     py_index lonc 0 = Ok w -> py_index lonc (-1) = Ok e ->
     py_index latc 0 = Ok s -> py_index latc (-1) = Ok n ->
     py_index z 0 = Ok top -> py_index z (-1) = Ok bottom ->
     ~ (w <= xmin /\ xmax <= e /\ s <= ymin /\ ymax <= n /\
        zs <= top /\ bottom <= zd)%Q ->
     exists msg,
       SOSEGrid.check_bounds lonc latc z xmin xmax ymin ymax zs zd
       = Err (SystemExit msg)).
Proof.
  intros Hinit. split; [|apply check_bounds_fatal].
  destruct (SOSE_init_inv _ _ _ _ _ Hinit)
    as (max_lon & i_split & lon & lonc & lat & latc & self & h & hw & hs
        & m & mu & mv & _ & _ & _ & Htrim & _ & ->).
  destruct (trim_axes_inv _ _ _ _ _ _ _ _ _ Htrim)
    as (xmin & xmax & ymin & ymax & zs & zd & first & firstc & above & mz1
        & mz2 & below & H1 & H2 & H3 & H4 & H5 & H6 & Hrest).
  repeat (apply proj2 in Hrest). simpl.
  destruct (check_bounds_Ok _ _ _ _ _ _ _ _ _ Hrest)
    as (w & e & s & n & top & bottom & Hw & He & Hs & Hn & Ht & Hb & Hall).
  exists xmin, xmax, ymin, ymax, zs, zd, w, e, s, n, top, bottom.
  repeat split; try assumption; apply Hall.
Qed.

Lemma C2_witness :
  exists mg g,
    Grid.init Examples.consts Examples.weddell_raw true None = Ok mg /\
    SOSEGrid.init Examples.consts Examples.sose_raw (Some mg) (Some 180) = Ok g /\
    exists w xmin,
      py_index (SOSEGrid.lon_corners_1d g) 0 = Ok w /\
      amin2 (Grid.lon_corners_2d mg) = Ok xmin /\ (w <= xmin)%Q.
Proof.
  eexists. eexists.
  split; [vm_compute; reflexivity|].
  split; [vm_compute; reflexivity|].
  match goal with
  | |- exists w xmin, py_index (SOSEGrid.lon_corners_1d ?g) 0 = _ /\
                      amin2 (Grid.lon_corners_2d ?mg) = _ /\ _ =>
      destruct (proj1 (C2_bounds_cleared Examples.consts Examples.sose_raw mg
                         (Some 180) g ltac:(vm_compute; reflexivity)))
        as (xmin & xmax & ymin & ymax & zs & zd & w & e & s & n & top & bottom
            & H1 & _ & _ & _ & _ & _ & _ & Hw & _ & _ & _ & _ & _ & Hle & _)
  end.
  exists w, xmin. split; [exact Hw|]. split; [exact H1 | exact Hle].
Defined.

(** ** Extension to the south *)

Lemma range_lookup (n : Z) (k : nat) :
  Z.of_nat k < n -> range n !! k = Some (Z.of_nat k).
Proof.
  intros Hk. unfold range. rewrite lookup_map, lookup_seq_lt by lia. done.
Qed.

Lemma range_length (n : Z) : length (range n) = Z.to_nat n.
Proof. unfold range. rewrite length_map, length_seq. done. Qed.

Lemma extend_south_length c n first :
  length (SOSEGrid.extend_south c n first) = Z.to_nat n.
Proof.
  unfold SOSEGrid.extend_south.
  rewrite length_reverse, length_map, range_length. done.
Qed.

(** The latitude added at position [m] is [first - (n - m) * sose_res] as
    the code computes it. *)
Lemma extend_south_lookup c n first (m : nat) :
  Z.of_nat m < n ->
  SOSEGrid.extend_south c n first !! m
  = Some (fl_add (fl_mul (of_int (-1 * (n - Z.of_nat m))) (sose_res c)) first).
Proof.
  intros Hm. unfold SOSEGrid.extend_south.
  rewrite reverse_lookup by (rewrite length_map, range_length; lia).
  rewrite length_map, range_length, lookup_map, range_lookup by lia.
  cbn [fmap option_fmap option_map]. do 5 f_equal. lia.
Qed.

(** The rounded latitude is the exact one up to four units of roundoff. *)
Lemma south_latitude_error (res first : Q) (k : Z) :
  (0 < res)%Q -> 0 < k ->
  (Qabs (fl_add (fl_mul (of_int (-1 * k)) res) first
         - (first - inject_Z k * res))
   <= 4 * u64 * (Qabs first + inject_Z k * res))%Q.
Proof.
  intros Hres Hk. unfold fl_add, fl_mul, of_int.
  assert (HK : (0 < inject_Z k)%Q) by (rewrite <- (Zlt_Qlt 0); exact Hk).
  assert (EK : inject_Z (-1 * k) = (- inject_Z k)%Q).
  { replace (-1 * k) with (- k) by lia. reflexivity. }
  rewrite EK.
  pose proof (round64_error (- inject_Z k)) as H1.
  rewrite Qabs_opp, (Qabs_pos (inject_Z k)) in H1 by lra.
  apply Qabs_Qle_condition in H1.
  set (x := round64 (- inject_Z k)) in *.
  pose proof (round64_error (x * res)) as H2.
  set (p := round64 (x * res)) in *.
  pose proof (round64_error (p + first)) as H3.
  set (a := round64 (p + first)) in *.
  pose proof (Qabs_triangle p first) as Ht.
  pose proof (Qabs_nonneg first) as HF.
  unfold u64 in *.
  assert (Hy : (- ((1 + (1 # 9007199254740992)) * (inject_Z k * res))
                <= x * res
                <= - ((1 - (1 # 9007199254740992)) * (inject_Z k * res)))%Q).
  { split; nra. }
  assert (HKR : (0 < inject_Z k * res)%Q) by (apply Qmult_lt_0_compat; lra).
  revert H2 H3 Ht Hy HKR. generalize (x * res)%Q (inject_Z k * res)%Q.
  intros y KR H2 H3 Ht Hy HKR.
  rewrite (Qabs_neg y) in H2 by lra. apply Qabs_Qle_condition in H2.
  rewrite (Qabs_neg p) in Ht by lra.
  apply Qabs_Qle_condition in H3.
  revert H2 H3 Ht HF. generalize (Qabs (p + first)) (Qabs first).
  intros S F H2 H3 Ht HF.
  apply Qabs_Qle_condition. split; lra.
Qed.

(** The rounded quotient is the exact one up to four units of roundoff. *)
Lemma south_quotient_error (d res : Q) :
  (0 < res)%Q -> (0 < d)%Q ->
  (0 < fl_div (round64 d) res /\
   Qabs (fl_div (round64 d) res - d / res) <= 4 * u64 * (d / res))%Q.
Proof.
  intros Hres Hd. unfold fl_div.
  pose proof (round64_between d ltac:(lra)) as H1.
  pose proof (round64_pos d Hd) as P1.
  assert (Hinv : (0 < / res)%Q) by (apply Qinv_lt_0_compat; exact Hres).
  assert (P2 : (0 < round64 d / res)%Q) by (apply Qmult_lt_0_compat; assumption).
  pose proof (round64_between (round64 d / res) ltac:(lra)) as H2.
  split; [apply round64_pos, P2|].
  unfold Qdiv in *. unfold u64 in *.
  assert (Hq : ((1 - (1 # 9007199254740992)) * (d * / res)
                <= round64 d * / res
                <= (1 + (1 # 9007199254740992)) * (d * / res))%Q).
  { split; nra. }
  assert (HQ : (0 < d * / res)%Q) by (apply Qmult_lt_0_compat; assumption).
  revert H2 Hq HQ.
  generalize (round64 (round64 d * / res)) (round64 d * / res)%Q (d * / res)%Q.
  intros q1 q0 Q0 H2 Hq HQ.
  apply Qabs_Qle_condition. split; lra.
Qed.

(** C7 as it is stated fails in the arithmetic of the code.  With the
    resolution [1/6.] and a model grid that reaches from the first SOSE
    latitude -70 down to -70.5, the quotient of the doubles is 3.0, so three
    rows are added, where the exact quotient of the same numbers is just
    above 3 and its ceiling is 4; and the first two of the added latitudes,
    -70.5 and the double next to -70 - 1/3, are not one [sose_res] apart. *)
Lemma C7_counterexample :
  exists mg g,
    Grid.init Examples.consts64 Examples.south_model_raw true None = Ok mg /\
    SOSEGrid.init Examples.consts64 Examples.south_sose_raw (Some mg)
      (Some 180) = Ok g /\
    amin2 (Grid.lat_corners_2d mg) = Ok (-141 # 2)%Q /\
    at2 (SOSEGrid.YC Examples.south_sose_raw) 0 0 = Some (-70)%Q /\
    SOSEGrid.j0_after g = 3 /\
    Qceiling ((-70 - (-141 # 2)) / sose_res Examples.consts64) = 4 /\
    exists a b,
      SOSEGrid.lat_1d g !! 0%nat = Some a /\
      SOSEGrid.lat_1d g !! 1%nat = Some b /\
      a == -141 # 2 /\
      ~ b - a == sose_res Examples.consts64.
Proof.
  eexists. eexists.
  split; [vm_compute; reflexivity|].
  split; [vm_compute; reflexivity|].
  split; [vm_compute; reflexivity|].
  split; [vm_compute; reflexivity|].
  split; [vm_compute; reflexivity|].
  split; [vm_compute; reflexivity|].
  eexists. eexists.
  split; [vm_compute; reflexivity|].
  split; [vm_compute; reflexivity|].
  split; [vm_compute; reflexivity|].
  vm_compute. discriminate.
Qed.

(** C7, amended: when the model grid reaches south of the first SOSE
    latitude lat0 (and the SOSE resolution is positive), the constructed
    SOSEGrid has j0_after = ceil(q) > 0 latitudes added in front of the
    retained ones and trims nothing in the south, where q is the quotient
    (lat0 - ymin)/sose_res as the code computes it in doubles, within four
    units of roundoff of the exact quotient.  The latitude added at position
    m is lat0 - (j0_after - m)*sose_res as the code computes it, within four
    units of roundoff of that value; so consecutive latitudes, up to the
    first retained one, are sose_res apart up to 2^-50 (|lat0| +
    j0_after*sose_res), and increase whenever sose_res exceeds that
    bound. *)
Theorem C7_southward_extension c raw mg split g ymin lat0 :
  (0 < sose_res c)%Q ->
  SOSEGrid.init c raw (Some mg) split = Ok g ->
  amin2 (Grid.lat_corners_2d mg) = Ok ymin ->
  at2 (SOSEGrid.YC raw) 0 0 = Some lat0 ->
  (ymin < lat0)%Q ->
  SOSEGrid.j0_after g = Qceiling (fl_div (fl_sub lat0 ymin) (sose_res c)) /\
  (Qabs (fl_div (fl_sub lat0 ymin) (sose_res c) - (lat0 - ymin) / sose_res c)
   <= 4 * u64 * ((lat0 - ymin) / sose_res c))%Q /\
  0 < SOSEGrid.j0_after g /\
  SOSEGrid.j0_before g = 0 /\
  SOSEGrid.lat_1d g !! Z.to_nat (SOSEGrid.j0_after g) = Some lat0 /\
  forall m : nat, Z.of_nat m < SOSEGrid.j0_after g ->
    exists a b : Q,
      SOSEGrid.lat_1d g !! m = Some a /\
      SOSEGrid.lat_1d g !! S m = Some b /\
      a = fl_add (fl_mul (of_int (-1 * (SOSEGrid.j0_after g - Z.of_nat m)))
                         (sose_res c)) lat0 /\
      (Qabs (a - (lat0 - inject_Z (SOSEGrid.j0_after g - Z.of_nat m)
                         * sose_res c))
       <= 4 * u64 * (Qabs lat0 + inject_Z (SOSEGrid.j0_after g - Z.of_nat m)
                                 * sose_res c))%Q /\
      (Qabs (b - a - sose_res c)
       <= 8 * u64 * (Qabs lat0 + inject_Z (SOSEGrid.j0_after g) * sose_res c))%Q /\
      ((8 * u64 * (Qabs lat0 + inject_Z (SOSEGrid.j0_after g) * sose_res c)
        < sose_res c)%Q -> (a < b)%Q).
Proof.
  intros Hres Hinit Hymin Hlat0 Hsouth.
  destruct (SOSE_init_inv _ _ _ _ _ Hinit)
    as (max_lon & i_split & lon & lonc & lat & latc & self & h & hw & hs
        & m & mu & mv & _ & Hlat & Hlatc & Htrim & _ & ->).
  destruct (trim_axes_inv _ _ _ _ _ _ _ _ _ Htrim)
    as (xmin & xmax & ymin' & ymax & zs & zd & first & firstc & above & mz1
        & mz2 & below & _ & _ & Hymin' & _ & _ & _ & _ & _ & Hsb & Hnb & _
        & _ & _ & _ & _ & _ & _ & _ & _ & _ & _ & Hfirst & Hlat1d & _).
  simpl. rewrite Hymin in Hymin'. injection Hymin' as <-.
  (* the first native latitude *)
  assert (Hl0 : lat !! 0%nat = Some lat0).
  { unfold col0 in Hlat. apply mapM_Forall2 in Hlat.
    unfold at2 in Hlat0.
    destruct (SOSEGrid.YC raw !! 0%nat) as [r|] eqn:Hr; [|discriminate].
    simpl in Hlat0.
    destruct (Forall2_lookup_l _ _ _ _ _ Hlat Hr) as (y & Hy & Hidx).
    apply py_index_first in Hidx. rewrite Hlat0 in Hidx.
    injection Hidx as <-. done. }
  destruct (southern_bound_Ok _ _ _ _ _ Hsb)
    as (first' & Hf' & Hjb & [[_ Hge] | (Hjb0 & _ & Hja)]).
  { rewrite Hl0 in Hf'. injection Hf' as <-. exfalso.
    apply (Qlt_irrefl ymin). eapply Qlt_le_trans; eauto. }
  rewrite Hl0 in Hf'. injection Hf' as <-.
  rewrite Hjb0 in Hfirst, Hlat1d. apply py_index_first in Hfirst.
  rewrite Hl0 in Hfirst. injection Hfirst as <-.
  destruct (south_quotient_error (lat0 - ymin) (sose_res c) Hres)
    as [Hqpos Hqerr]; [lra|].
  fold (fl_sub lat0 ymin) in Hqpos, Hqerr.
  assert (Hpos : 0 < SOSEGrid.j0_after self).
  { rewrite Hja. apply Qceiling_pos, Hqpos. }
  (* the first retained latitude *)
  assert (Hj1 : 0 < SOSEGrid.j1_before self).
  { unfold SOSEGrid.northern_bound in Hnb. run Hnb.
    - injection Hnb as <-. apply lookup_lt_Some in Hl0. unfold len. lia.
    - injection Hnb as <-. apply nonzero_first_Ok in Hx0. lia. }
  assert (Hkeep : SOSEGrid.lat_1d self !! Z.to_nat (SOSEGrid.j0_after self)
                  = Some lat0).
  { rewrite Hlat1d, lookup_app_r; rewrite extend_south_length; [|lia].
    rewrite Nat.sub_diag. unfold py_slice, slice_lo, slice_hi.
    rewrite (clip_in _ 0) by (unfold len; lia). rewrite drop_0.
    rewrite lookup_take_lt; [done|].
    rewrite clip_nonneg by lia. apply lookup_lt_Some in Hl0.
    unfold len. lia. }
  split; [exact Hja|]. split; [exact Hqerr|].
  split; [exact Hpos|]. split; [exact Hjb0|]. split; [exact Hkeep|].
  intros k Hk.
  set (J := SOSEGrid.j0_after self) in *.
  assert (Hadded : forall n : nat, Z.of_nat n < J ->
            SOSEGrid.lat_1d self !! n
            = Some (fl_add (fl_mul (of_int (-1 * (J - Z.of_nat n)))
                                   (sose_res c)) lat0)).
  { intros n Hn.
    rewrite Hlat1d, lookup_app_l by (rewrite extend_south_length; lia).
    apply extend_south_lookup. exact Hn. }
  pose proof (south_latitude_error (sose_res c) lat0 (J - Z.of_nat k) Hres
                ltac:(lia)) as Ea.
  set (a := fl_add (fl_mul (of_int (-1 * (J - Z.of_nat k))) (sose_res c)) lat0)
    in *.
  assert (HJk : (inject_Z (J - Z.of_nat k) <= inject_Z J)%Q)
    by (rewrite <- Zle_Qle; lia).
  assert (Hk1 : (1 <= inject_Z (J - Z.of_nat k))%Q)
    by (rewrite <- (Zle_Qle 1); lia).
  pose proof (Qabs_nonneg lat0) as HF.
  assert (Hspacing : forall b,
            SOSEGrid.lat_1d self !! S k = Some b ->
            (Qabs (b - a - sose_res c)
             <= 8 * u64 * (Qabs lat0 + inject_Z J * sose_res c))%Q).
  { intros b Hb.
    destruct (Z.eq_dec (Z.of_nat (S k)) J) as [Hlast | Hmid].
    - (* the step onto the first retained latitude *)
      replace (S k) with (Z.to_nat J) in Hb by lia.
      rewrite Hkeep in Hb. injection Hb as <-.
      assert (E1 : inject_Z (J - Z.of_nat k) == 1).
      { replace (J - Z.of_nat k) with 1 by lia. reflexivity. }
      rewrite E1 in Ea, HJk. apply Qabs_Qle_condition in Ea.
      unfold u64 in *. revert Ea HJk HF.
      generalize (Qabs lat0) (inject_Z J). intros F QJ Ea HJk HF.
      apply Qabs_Qle_condition. split; nra.
    - rewrite (Hadded (S k)) in Hb by lia. injection Hb as <-.
      pose proof (south_latitude_error (sose_res c) lat0 (J - Z.of_nat (S k))
                    Hres ltac:(lia)) as Eb.
      assert (E1 : inject_Z (J - Z.of_nat (S k))
                   == inject_Z (J - Z.of_nat k) - 1).
      { replace (J - Z.of_nat (S k)) with (J - Z.of_nat k + -1) by lia.
        rewrite inject_Z_plus. reflexivity. }
      rewrite E1 in Eb.
      apply Qabs_Qle_condition in Ea. apply Qabs_Qle_condition in Eb.
      unfold u64 in *. revert Ea Eb HJk Hk1 HF.
      generalize (fl_add (fl_mul (of_int (-1 * (J - Z.of_nat (S k))))
                                 (sose_res c)) lat0).
      generalize (Qabs lat0) (inject_Z J) (inject_Z (J - Z.of_nat k)).
      intros F QJ QK b Ea Eb HJk Hk1 HF.
      apply Qabs_Qle_condition. split; nra. }
  assert (Hb : exists b, SOSEGrid.lat_1d self !! S k = Some b).
  { destruct (Z.eq_dec (Z.of_nat (S k)) J) as [Hlast | Hmid].
    - exists lat0. rewrite <- Hkeep. f_equal. lia.
    - eexists. apply Hadded. lia. }
  destruct Hb as [b Hb].
  exists a, b. split; [apply Hadded, Hk|]. split; [exact Hb|].
  split; [reflexivity|]. split; [exact Ea|].
  specialize (Hspacing b Hb). split; [exact Hspacing|].
  intros Hsmall. apply Qabs_Qle_condition in Hspacing.
  clear - Hspacing Hsmall. lra.
Qed.

Lemma C7_witness :
  exists mg g ymin lat0,
    Grid.init Examples.consts64 Examples.south_model_raw true None = Ok mg /\
    SOSEGrid.init Examples.consts64 Examples.south_sose_raw (Some mg)
      (Some 180) = Ok g /\
    amin2 (Grid.lat_corners_2d mg) = Ok ymin /\
    at2 (SOSEGrid.YC Examples.south_sose_raw) 0 0 = Some lat0 /\
    (ymin < lat0)%Q /\
    SOSEGrid.j0_after g
      = Qceiling (fl_div (fl_sub lat0 ymin) (sose_res Examples.consts64)) /\
    SOSEGrid.j0_after g = 3 /\
    SOSEGrid.lat_1d g !! 3%nat = Some lat0.
Proof.
  eexists. eexists. eexists. eexists.
  split; [vm_compute; reflexivity|].
  match goal with
  | |- SOSEGrid.init _ _ (Some ?mg) _ = _ /\ _ => set (MG := mg)
  end.
  split; [vm_compute; reflexivity|].
  match goal with
  | |- _ /\ _ /\ _ /\ SOSEGrid.j0_after ?g = _ /\ _ => set (G := g)
  end.
  split; [vm_compute; reflexivity|].
  split; [vm_compute; reflexivity|].
  split; [vm_compute; reflexivity|].
  match goal with
  | |- _ = Qceiling (fl_div (fl_sub ?lat0 ?ymin) _) /\ _ =>
      destruct (C7_southward_extension Examples.consts64
                  Examples.south_sose_raw MG (Some 180) G ymin lat0
                  ltac:(vm_compute; reflexivity) ltac:(vm_compute; reflexivity)
                  ltac:(vm_compute; reflexivity) ltac:(vm_compute; reflexivity)
                  ltac:(vm_compute; reflexivity))
        as (HA & _ & _ & _ & HK & _)
  end.
  split; [exact HA|]. split; [reflexivity | exact HK].
Defined.

(** ** The indices of a constructed SOSE grid *)

Lemma SOSE_init_indices_ok c raw mg split g :
  (0 < sose_res c)%Q ->
  SOSEGrid.init c raw (Some mg) split = Ok g ->
  SOSEGrid.trim_extend g = true /\ 0 <= SOSEGrid.i_split g /\
  SOSEGrid.indices_ok g.
Proof.
  intros Hres Hinit.
  destruct (SOSE_init_inv _ _ _ _ _ Hinit)
    as (max_lon & i_split & lon & lonc & lat & latc & self & h & hw & hs
        & m & mu & mv & Hlon & Hlat & Hlatc & Htrim & _ & ->).
  destruct (trim_axes_inv _ _ _ _ _ _ _ _ _ Htrim)
    as (xmin & xmax & ymin & ymax & zs & zd & first & firstc & above & mz1
        & mz2 & below & _ & _ & _ & _ & _ & _ & Hwb & Heb & Hsb & Hnb & Hdb
        & Hte & Hsp & Hi0a & Hi1a & Hnx & Hj1a & Hny & Hk0b & _ & Hlonc1d
        & _ & _ & _ & Hlatc1d & _ & _ & _ & _ & _ & Hcheck).
  unfold SOSEGrid.indices_ok, SOSEGrid.axis_ok. simpl. split; [done|]. split.
  { rewrite Hsp. eapply read_longitude_split, Hlon. }
  apply check_bounds_Ok in Hcheck
    as (w & e & s & n & top & bottom & Hw & _ & Hs & _).
  apply western_bound_Ok in Hwb.
  apply eastern_bound_Ok in Heb; [|unfold len; lia].
  apply northern_bound_Ok in Hnb; [|unfold len; lia].
  apply depth_bounds_Ok in Hdb as (Hk0 & Hk1 & Hk1a & Hnz); [|unfold len; lia].
  destruct (southern_bound_Ok _ _ _ _ _ Hsb) as (first' & _ & Hjb & Hcases).
  split; [|split].
  - rewrite Hnx, Hi1a, Hi0a.
    assert (SOSEGrid.i0_before self < SOSEGrid.i1_before self).
    { apply (py_slice_nonempty lonc); [lia | lia |].
      rewrite <- Hlonc1d. intros E. rewrite E in Hw. discriminate. }
    lia.
  - rewrite Hny, Hj1a.
    destruct Hcases as [[Hja _] | (Hjb0 & Hlt & Hja)].
    + assert (SOSEGrid.j0_before self < SOSEGrid.j1_before self).
      { apply (py_slice_nonempty latc); [lia | lia |].
        intros E. rewrite Hlatc1d, Hja, E in Hs. discriminate. }
      lia.
    + assert (0 < SOSEGrid.j0_after self).
      { rewrite Hja. apply Qceiling_pos.
        apply (south_quotient_error (first' - ymin) (sose_res c) Hres).
        clear -Hlt. lra. }
      lia.
  - rewrite Hk0b. lia.
Qed.

Lemma eastern_bound_le xmax lonc n i :
  SOSEGrid.eastern_bound xmax lonc n = Ok i -> i = n \/ i <= len lonc.
Proof.
  unfold SOSEGrid.eastern_bound. intros H. run H.
  - injection H as <-. left. done.
  - injection H as <-. apply nonzero_first_Ok in Hx0 as (Hn & _).
    unfold len in *. rewrite length_map in Hn. right. lia.
Qed.

Lemma northern_bound_le ymax latc n i :
  SOSEGrid.northern_bound ymax latc n = Ok i -> i = n \/ i <= len latc.
Proof.
  unfold SOSEGrid.northern_bound. intros H. run H.
  - injection H as <-. left. done.
  - injection H as <-. apply nonzero_first_Ok in Hx0 as (Hn & _).
    unfold len in *. rewrite length_map in Hn. right. lia.
Qed.

Lemma depth_bounds_le zs zd z k0a k1b k1a nz :
  SOSEGrid.depth_bounds zs zd z (len z) = Ok (k0a, k1b, k1a, nz) ->
  k1b <= len z.
Proof.
  unfold SOSEGrid.depth_bounds. intros H.
  apply bind_Ok in H as (first & _ & H).
  apply bind_Ok in H as (last & _ & H).
  apply bind_Ok in H as (k1 & Hk1 & H).
  apply bind_Ok in H as (last' & _ & H). injection H as _ <- _ _.
  destruct (Qgtb zd last); [|injection Hk1 as <-; lia].
  apply bind_Ok in Hk1 as (m & Hm & Hk1). injection Hk1 as <-.
  apply nonzero_first_Ok in Hm as (Hn & _).
  unfold len in *. rewrite length_map in Hn. lia.
Qed.

Lemma row0_length (a : arr2) ny nx r :
  shape2 a ny nx -> row0 a = Ok r -> length r = nx.
Proof.
  intros [_ Hrows] H. apply py_index_first in H.
  rewrite Forall_lookup in Hrows. eapply Hrows, H.
Qed.

Lemma col0_length (a : arr2) r : col0 a = Ok r -> length r = length a.
Proof.
  unfold col0. rewrite mapM_Forall2. intros H. symmetry.
  eapply Forall2_length, H.
Qed.

Lemma shape2_fix_lon_range2 a m ny nx :
  shape2 a ny nx -> shape2 (fix_lon_range2 a m) ny nx.
Proof.
  intros [Hl Hr]. unfold fix_lon_range2, fix_lon_range. split.
  - rewrite length_map. done.
  - apply Forall_map. eapply Forall_impl; [exact Hr|].
    intros r Hlen. simpl. rewrite length_map. done.
Qed.

Lemma read_longitude_length raw max_lon split i_split lon lonc ny nx :
  shape2 (SOSEGrid.XC raw) ny nx -> shape2 (SOSEGrid.XG raw) ny nx ->
  SOSEGrid.read_longitude raw max_lon split = Ok (i_split, lon, lonc) ->
  length lon = nx /\ length lonc = nx.
Proof.
  intros HXC HXG H. pose proof (read_longitude_split _ _ _ _ _ _ H) as Hsp.
  unfold SOSEGrid.read_longitude in H.
  apply bind_Ok in H as (l0 & Hl0 & H).
  apply bind_Ok in H as ([i l1] & Hi & H).
  apply bind_Ok in H as (c0 & Hc0 & H).
  apply bind_Ok in H as (first & _ & H).
  destruct (negb _ || negb _); [discriminate|]. injection H as <- <- <-.
  apply (row0_length _ ny nx) in Hl0; [|apply shape2_fix_lon_range2; done].
  assert (Hc : length c0 = nx).
  { apply (row0_length _ ny nx) in Hc0; [done|].
    destruct (shape2_fix_lon_range2 _ (Some max_lon) _ _ HXG) as [E1 E2].
    unfold split_longitude2. split; [rewrite length_map; done|].
    apply Forall_map. eapply Forall_impl; [exact E2|].
    intros r Hr. simpl. rewrite split_longitude_length by done. done. }
  split.
  - destruct (split =? 180).
    + apply bind_Ok in Hi as (n & Hn & Hi). injection Hi as <- <-.
      rewrite split_longitude_length by done. done.
    + injection Hi as <- <-. done.
  - destruct (Qgtb first 0); [rewrite length_insert|]; done.
Qed.

(** A file with the shape of the SOSE grid files holds every entry the
    "before" indices address. *)
Lemma native_file_covers c raw mg split g ny nx :
  shape2 (SOSEGrid.XC raw) ny nx -> shape2 (SOSEGrid.XG raw) ny nx ->
  shape2 (SOSEGrid.YC raw) ny nx -> shape2 (SOSEGrid.YG raw) ny nx ->
  SOSEGrid.init c raw (Some mg) split = Ok g ->
  (forall file : arr2, shape2 file ny nx -> SOSEGrid.covers2 g file) /\
  (forall file : arr3, shape3 file (length (SOSEGrid.RC raw)) ny nx ->
     SOSEGrid.covers3 g file).
Proof.
  intros HXC HXG [HYC _] [HYG _] Hinit.
  destruct (SOSE_init_inv _ _ _ _ _ Hinit)
    as (max_lon & i_split & lon & lonc & lat & latc & self & h & hw & hs
        & m & mu & mv & Hlon & Hlat & Hlatc & Htrim & _ & ->).
  destruct (trim_axes_inv _ _ _ _ _ _ _ _ _ Htrim)
    as (xmin & xmax & ymin & ymax & zs & zd & first & firstc & above & mz1
        & mz2 & below & _ & _ & _ & _ & _ & _ & _ & Heb & _ & Hnb & Hdb & _).
  destruct (read_longitude_length _ _ _ _ _ _ _ _ HXC HXG Hlon) as [El Elc].
  apply col0_length in Hlat, Hlatc.
  apply eastern_bound_le in Heb. apply northern_bound_le in Hnb.
  apply depth_bounds_le in Hdb.
  unfold SOSEGrid.covers3, SOSEGrid.covers2, len in *. simpl.
  clear Hinit Hlon Htrim.
  assert (Hslab : forall file : arr2, shape2 file ny nx ->
            SOSEGrid.j1_before self <= Z.of_nat (length file) /\
            Forall (fun r : arr1 =>
                      SOSEGrid.i1_before self <= Z.of_nat (length r)) file).
  { intros p [Hp Hrows]. split; [lia|].
    eapply Forall_impl; [exact Hrows|]. intros r Hr. simpl in *. lia. }
  split; [exact Hslab|].
  intros file [Hfz Hslabs]. split; [lia|].
  eapply Forall_impl; [exact Hslabs|]. intros p Hp. apply Hslab, Hp.
Qed.

(** C8: on a SOSEGrid constructed with a model grid (positive SOSE
    resolution), read_field with dimensions xy, xyt, xyz or xyzt and fill
    value f, applied to a file that holds the entries the "before" indices
    address, returns an array of shape ((time,) (nz,) ny, nx) which inside
    the windows [k0_after:k1_after], [j0_after:j1_after],
    [i0_after:i1_after] holds the longitude-rotated source at the
    corresponding "before" index and holds f everywhere else; a fill value
    left out is -9999.  Files with the shape of the SOSE grid files hold the
    entries the "before" indices address. *)
Theorem C8_read_field_aligned c raw mg split g (f : Q) :
  (0 < sose_res c)%Q ->
  SOSEGrid.init c raw (Some mg) split = Ok g ->
  (forall file : arr2, SOSEGrid.covers2 g file ->
     exists data,
       SOSEGrid.read_field g (A2 file) "xy" (Some f) = Ok (A2 data) /\
       SOSEGrid.aligned2 g f (split_longitude2 file (SOSEGrid.i_split g)) data) /\
  (forall file : arr3, Forall (SOSEGrid.covers2 g) file ->
     exists data,
       SOSEGrid.read_field g (A3 file) "xyt" (Some f) = Ok (A3 data) /\
       Forall2 (SOSEGrid.aligned2 g f)
         (split_longitude3 file (SOSEGrid.i_split g)) data) /\
  (forall file : arr3, SOSEGrid.covers3 g file ->
     exists data,
       SOSEGrid.read_field g (A3 file) "xyz" (Some f) = Ok (A3 data) /\
       SOSEGrid.aligned3 g f (split_longitude3 file (SOSEGrid.i_split g)) data) /\
  (forall file : arr4, Forall (SOSEGrid.covers3 g) file ->
     exists data,
       SOSEGrid.read_field g (A4 file) "xyzt" (Some f) = Ok (A4 data) /\
       Forall2 (SOSEGrid.aligned3 g f)
         (split_longitude4 file (SOSEGrid.i_split g)) data) /\
  (forall file dimensions,
     SOSEGrid.read_field g file dimensions None
     = SOSEGrid.read_field g file dimensions (Some (-9999)%Q)) /\
  (forall ny nx,
     shape2 (SOSEGrid.XC raw) ny nx -> shape2 (SOSEGrid.XG raw) ny nx ->
     shape2 (SOSEGrid.YC raw) ny nx -> shape2 (SOSEGrid.YG raw) ny nx ->
     (forall file : arr2, shape2 file ny nx -> SOSEGrid.covers2 g file) /\
     (forall file : arr3, shape3 file (length (SOSEGrid.RC raw)) ny nx ->
        SOSEGrid.covers3 g file)).
Proof.
  intros Hres Hinit.
  destruct (SOSE_init_indices_ok _ _ _ _ _ Hres Hinit) as (Hte & Hsp & Hok).
  destruct (read_field_aligned g f Hte Hok Hsp) as (H1 & H2 & H3 & H4).
  split; [exact H1|]. split; [exact H2|]. split; [exact H3|].
  split; [exact H4|]. split; [reflexivity|].
  intros ny nx HXC HXG HYC HYG. eapply native_file_covers; eassumption.
Qed.

Lemma C8_witness :
  exists mg,
    Grid.init Examples.consts Examples.weddell_raw true None = Ok mg /\
    exists g,
      SOSEGrid.init Examples.consts Examples.sose_raw (Some mg) (Some 180)
        = Ok g /\
      SOSEGrid.covers3 g Examples.sose_field /\
      exists data,
        SOSEGrid.read_field g (A3 Examples.sose_field) "xyz" (Some (-1)%Q)
          = Ok (A3 data) /\
        SOSEGrid.aligned3 g (-1)
          (split_longitude3 Examples.sose_field (SOSEGrid.i_split g)) data.
Proof.
  eexists. split; [vm_compute; reflexivity|].
  match goal with
  | |- context [SOSEGrid.init _ _ (Some ?mg) _] => set (MG := mg)
  end.
  eexists. split; [vm_compute; reflexivity|].
  match goal with
  | |- context [SOSEGrid.covers3 ?g _] => set (G := g)
  end.
  assert (Hcov : SOSEGrid.covers3 G Examples.sose_field).
  { split; [vm_compute; discriminate|].
    repeat constructor; vm_compute; discriminate. }
  split; [exact Hcov|].
  apply (proj1 (proj2 (proj2
           (C8_read_field_aligned Examples.consts Examples.sose_raw MG
              (Some 180) G (-1)%Q ltac:(vm_compute; reflexivity)
              ltac:(vm_compute; reflexivity))))).
  exact Hcov.
Defined.

(** * Further properties of the grid code *)

(** ** Ice shelf mask *)

Lemma add_layers_shape ls : forall acc s j i,
  add_layers acc ls = Ok s ->
  (is_Some (at2 s j i) <-> is_Some (at2 acc j i)).
Proof.
  induction ls as [|l ls IH]; intros acc s j i H; simpl in H.
  - injection H as <-. tauto.
  - run H. rewrite (IH _ _ j i H). apply (zip2_shape _ _ _ _ j i Hx).
Qed.

(** The sum over depth has the horizontal shape of the top layer. *)
Lemma sum_axis0_shape a s top j i :
  sum_axis0 a = Ok s -> a !! 0%nat = Some top ->
  (is_Some (at2 s j i) <-> is_Some (at2 top j i)).
Proof.
  destruct a as [|l ls]; simpl; intros H [= <-].
  apply (add_layers_shape _ _ _ j i H).
Qed.

Lemma land_and_ice_mask hf lm im :
  Grid.build_land_mask hf = Ok lm -> Grid.build_ice_mask hf = Ok im ->
  forall j i,
    (is_Some (at2 im j i) <-> is_Some (at2 lm j i)) /\
    forall b, at2 im j i = Some b ->
      exists top l,
        at3 hf 0 j i = Some top /\ at2 lm j i = Some l /\
        (b = true <-> ~ Qsum (column hf j i) == 0 /\ (top < 1)%Q) /\
        (l = true <-> Qsum (column hf j i) == 0).
Proof.
  unfold Grid.build_land_mask, Grid.build_ice_mask, mask_and.
  intros Hl Hi j i. run Hl. injection Hl as <-. run Hi.
  rewrite Hx in Hx0. injection Hx0 as <-. rename x1 into top.
  apply py_index_first in Hx1.
  pose proof (sum_axis0_shape _ _ _ j i Hx Hx1) as Hshape.
  pose proof (zip2_shape _ _ _ _ j i Hi) as [S1 S2].
  unfold cmp2 in *. rewrite !at2_map, !fmap_is_Some in *. split; [tauto|].
  intros b Hb.
  destruct (zip2_at _ _ _ _ _ _ _ Hi Hb) as (p & q & Hp & Hq & ->).
  rewrite at2_map in Hp, Hq.
  destruct (at2 x j i) as [v|] eqn:Hv; [|discriminate].
  destruct (at2 top j i) as [t|] eqn:Ht; [|discriminate].
  injection Hp as <-. injection Hq as <-.
  destruct (sum_axis0_at _ _ _ _ _ Hx Hv) as [E _].
  exists t, (Qeq_bool v 0). split.
  { unfold at3. rewrite Hx1. done. }
  split; [done|]. split.
  - rewrite andb_true_iff, Qneqb_true, Qltb_true, E. tauto.
  - rewrite Qeq_bool_iff, E. tauto.
Qed.

(** X1: on each of the three sub-grids of a constructed Grid the ice mask
    has the points of the land mask; it is set exactly where the sum of hfac
    over depth is not zero and the top cell is less than full, so no point
    is both land and ice. *)
Theorem X1_ice_mask_of_subgrids c raw x_is_lon max_lon g :
  Grid.init c raw x_is_lon max_lon = Ok g ->
  forall hf lm im, (hf, lm, im) ∈ Grid.subgrids g ->
    forall j i,
      (is_Some (at2 im j i) <-> is_Some (at2 lm j i)) /\
      forall b, at2 im j i = Some b ->
        exists top l,
          at3 hf 0 j i = Some top /\ at2 lm j i = Some l /\
          (b = true <-> ~ Qsum (column hf j i) == 0 /\ (top < 1)%Q) /\
          (b = true -> l = false).
Proof.
  intros Hinit hf lm im Hin j i.
  destruct (Grid_init_inv _ _ _ _ _ Hinit)
    as (_ & _ & _ & _ & _ & _ & _ & _ & _ & _ & _ & _ & Hl & Hlu & Hlv
        & Hi & Hiu & Hiv & _).
  assert (Hboth : Grid.build_land_mask hf = Ok lm /\
                  Grid.build_ice_mask hf = Ok im).
  { unfold Grid.subgrids in Hin.
    repeat (apply elem_of_cons in Hin as [[= -> -> ->] | Hin]); try done.
    apply elem_of_nil in Hin. done. }
  destruct Hboth as [Hlm Him].
  destruct (land_and_ice_mask _ _ _ Hlm Him j i) as [Hshape Hat].
  split; [done|]. intros b Hb.
  destruct (Hat b Hb) as (top & l & Htop & Hlj & Hice & Hland).
  exists top, l. split; [done|]. split; [done|]. split; [done|].
  intros ->. apply not_true_is_false. intros ->.
  apply Hice; [done | apply Hland; done].
Qed.

Lemma X1_witness :
  exists g,
    Grid.init Examples.consts Examples.weddell_raw true None = Ok g /\
    at2 (Grid.ice_mask_u g) 1 1 = Some true /\
    exists l, at2 (Grid.land_mask_u g) 1 1 = Some l /\ l = false.
Proof.
  eexists. split; [vm_compute; reflexivity|]. split; [reflexivity|].
  match goal with
  | |- context [Grid.land_mask_u ?g] => set (G := g)
  end.
  destruct (X1_ice_mask_of_subgrids Examples.consts Examples.weddell_raw true
              None G ltac:(vm_compute; reflexivity)
              (Grid.hfac_w G) (Grid.land_mask_u G) (Grid.ice_mask_u G)
              ltac:(right; left) 1%nat 1%nat) as [_ Hat].
  destruct (Hat true eq_refl) as (top & l & _ & Hl & _ & Himp).
  exists l. split; [exact Hl | apply Himp; reflexivity].
Defined.

(** ** Eastern Weddell and continental shelf masks *)

Lemma Grid_init_region_masks c raw x_is_lon max_lon g :
  Grid.init c raw x_is_lon max_lon = Ok g ->
  Grid.build_ewed_mask c (Grid.ice_mask g) (Grid.lon_2d g) (Grid.lat_2d g)
    = Ok (Grid.ewed_mask g) /\
  Grid.build_sws_shelf_mask c (Grid.land_mask g) (Grid.ice_mask g)
    (Grid.lon_2d g) (Grid.lat_2d g) (Grid.bathy g)
    = Ok (Grid.sws_shelf_mask g).
Proof.
  unfold Grid.init. intros H.
  apply bind_Ok in H as ([[[[[[[l2 a2] lc2] ac2] l1] a1] lc1] ac1] & _ & H).
  apply bind_Ok in H as ([l1' ml] & _ & H).
  run H. injection H as <-. simpl. split; assumption.
Qed.

Lemma select_box_in_box ice lon lat b m j i v :
  Grid.select_box ice lon lat b = Ok m -> at2 m j i = Some v ->
  exists ic lo la,
    at2 ice j i = Some ic /\ at2 lon j i = Some lo /\ at2 lat j i = Some la /\
    (v = true <-> ic = true /\ Grid.in_box b lo la).
Proof.
  intros H Hv. destruct (select_box_at _ _ _ _ _ j i H) as [_ Hat].
  destruct (Hat v Hv) as (ic & lo & la & Hic & Hlo & Hla & ->).
  exists ic, lo, la. do 3 (split; [done|]).
  rewrite !andb_true_iff, !Qgeb_true, !Qle_bool_iff. unfold Grid.in_box. tauto.
Qed.

(** X2: in a constructed Grid the Eastern Weddell mask marks exactly the ice
    shelf points inside ewed_bounds; it is a subset of the ice mask. *)
Theorem X2_ewed_mask_points c raw x_is_lon max_lon g :
  Grid.init c raw x_is_lon max_lon = Ok g ->
  forall j i b, at2 (Grid.ewed_mask g) j i = Some b ->
    exists ic x y,
      at2 (Grid.ice_mask g) j i = Some ic /\
      at2 (Grid.lon_2d g) j i = Some x /\ at2 (Grid.lat_2d g) j i = Some y /\
      (b = true <-> ic = true /\ Grid.in_box (ewed_bounds c) x y).
Proof.
  intros Hinit j i b Hb.
  destruct (Grid_init_region_masks _ _ _ _ _ Hinit) as [He _].
  eapply select_box_in_box; eauto.
Qed.

Lemma X2_witness :
  exists g,
    Grid.init Examples.consts Examples.weddell_raw true None = Ok g /\
    at2 (Grid.ewed_mask g) 0 3 = Some true /\
    exists ic x y,
      at2 (Grid.ice_mask g) 0 3 = Some ic /\
      at2 (Grid.lon_2d g) 0 3 = Some x /\ at2 (Grid.lat_2d g) 0 3 = Some y /\
      (true = true <-> ic = true /\ Grid.in_box (ewed_bounds Examples.consts) x y).
Proof.
  eexists. split; [vm_compute; reflexivity|]. split; [reflexivity|].
  eapply (X2_ewed_mask_points Examples.consts Examples.weddell_raw true None).
  - vm_compute. reflexivity.
  - reflexivity.
Defined.

(** X3: in a constructed Grid the continental shelf mask marks exactly the
    points that are neither land nor ice shelf, whose bathymetry is at or
    above -1250 m, and that lie inside sws_shelf_bounds; so it is disjoint
    from the land mask and from the ice mask. *)
Theorem X3_sws_shelf_mask_points c raw x_is_lon max_lon g :
  Grid.init c raw x_is_lon max_lon = Ok g ->
  forall j i b, at2 (Grid.sws_shelf_mask g) j i = Some b ->
    exists l ic depth x y,
      at2 (Grid.land_mask g) j i = Some l /\
      at2 (Grid.ice_mask g) j i = Some ic /\
      at2 (Grid.bathy g) j i = Some depth /\
      at2 (Grid.lon_2d g) j i = Some x /\ at2 (Grid.lat_2d g) j i = Some y /\
      (b = true <->
       l = false /\ ic = false /\ (-1250 <= depth)%Q /\
       Grid.in_box (sws_shelf_bounds c) x y).
Proof.
  intros Hinit j i b Hb.
  destruct (Grid_init_region_masks _ _ _ _ _ Hinit) as [_ Hs].
  unfold Grid.build_sws_shelf_mask, mask_and in Hs. run Hs.
  destruct (select_box_in_box _ _ _ _ _ _ _ _ Hs Hb)
    as (v & lo & la & Hv & Hlo & Hla & Hiff).
  destruct (zip2_at _ _ _ _ _ _ _ Hx0 Hv) as (v1 & q & Hv1 & Hq & ->).
  destruct (zip2_at _ _ _ _ _ _ _ Hx Hv1) as (nl & ni & Hnl & Hni & ->).
  unfold cmp2 in Hq. unfold invert in Hnl, Hni.
  rewrite at2_map in Hq. rewrite at2_map in Hnl. rewrite at2_map in Hni.
  destruct (at2 (Grid.bathy g) j i) as [depth|]; [|discriminate].
  destruct (at2 (Grid.land_mask g) j i) as [l|]; [|discriminate].
  destruct (at2 (Grid.ice_mask g) j i) as [ic|]; [|discriminate].
  injection Hq as <-. injection Hnl as <-. injection Hni as <-.
  exists l, ic, depth, lo, la. do 5 (split; [done|]).
  rewrite Hiff, !andb_true_iff, !negb_true_iff, Qgeb_true. tauto.
Qed.

Lemma X3_witness :
  exists g,
    Grid.init Examples.consts Examples.weddell_raw true None = Ok g /\
    at2 (Grid.sws_shelf_mask g) 2 1 = Some false /\
    exists l ic depth x y,
      at2 (Grid.land_mask g) 2 1 = Some l /\
      at2 (Grid.ice_mask g) 2 1 = Some ic /\
      at2 (Grid.bathy g) 2 1 = Some depth /\
      at2 (Grid.lon_2d g) 2 1 = Some x /\ at2 (Grid.lat_2d g) 2 1 = Some y /\
      (false = true <->
       l = false /\ ic = false /\ (-1250 <= depth)%Q /\
       Grid.in_box (sws_shelf_bounds Examples.consts) x y).
Proof.
  eexists. split; [vm_compute; reflexivity|]. split; [reflexivity|].
  eapply (X3_sws_shelf_mask_points Examples.consts Examples.weddell_raw true None).
  - vm_compute. reflexivity.
  - reflexivity.
Defined.

(** ** Draft of land and open ocean columns *)

Lemma calc_draft_at hfac z_edges dz nx ny nz draft (j i : nat) :
  Grid.calc_draft hfac z_edges dz nx ny nz = Ok draft ->
  Z.of_nat j < ny -> Z.of_nat i < nx ->
  (forall (k : nat) (h : Q),
     Z.of_nat k < nz -> at3 hfac k j i = Some h -> ~ h == 0 ->
     (forall (k' : nat) (h' : Q), (k' < k)%nat ->
        at3 hfac k' j i = Some h' -> h' == 0) ->
     exists ze dzk,
       z_edges !! k = Some ze /\ dz !! k = Some dzk /\
       at2 draft j i = Some (ze - dzk * (1 - h))%Q) /\
  ((forall (k : nat) (h : Q), Z.of_nat k < nz ->
      at3 hfac k j i = Some h -> h == 0) ->
   at2 draft j i = Some 0%Q).
Proof.
  intros Hdraft Hj Hi.
  apply calc_draft_inv in Hdraft as (d & Hnx & Hny & Hloop & Hd).
  assert (H0 : at2 (replicate (Z.to_nat ny)
                      (replicate (Z.to_nat nx) (None : option Q))) j i
               = Some None) by (apply at2_replicate; lia).
  pose proof (range_nonneg nz) as Hpos. split.
  - intros k h Hk Hh Hne Habove.
    destruct (range_split _ _ Hk) as (rest & Hsplit).
    rewrite Hsplit in Hloop, Hpos.
    destruct (draft_loop_wet _ _ _ _ _ _ _ _ j i h Hpos Hloop H0)
      as (ze & dzk & Hze & Hdz & Hv).
    + intros k' h' Hin. apply range_elem in Hin. apply Habove. lia.
    + rewrite Nat2Z.id. done.
    + done.
    + rewrite Nat2Z.id in Hze, Hdz. exists ze, dzk.
      rewrite Hd, at2_map, Hv. done.
  - intros Hdry. rewrite Hd, at2_map.
    rewrite (draft_loop_dry _ _ _ _ _ _ j i Hpos Hloop H0); [done|].
    intros k h Hin. apply range_elem in Hin.
    intros Hh. apply (Hdry (Z.to_nat k)); [lia | done].
Qed.

(** X4: in a constructed Grid with hfac between 0 and 1, the draft is 0 at
    every land point; at a point that is neither land nor ice shelf (and
    with at least one depth level) the draft equals the top interface
    z_edges[0]. *)
Theorem X4_draft_of_land_and_open_ocean c raw x_is_lon max_lon g :
  Grid.init c raw x_is_lon max_lon = Ok g ->
  (forall k j i h, at3 (Grid.hfac g) k j i = Some h -> 0 <= h /\ h <= 1)%Q ->
  forall j i : nat, Z.of_nat j < Grid.ny g -> Z.of_nat i < Grid.nx g ->
    (at2 (Grid.land_mask g) j i = Some true ->
     at2 (Grid.draft g) j i = Some 0%Q) /\
    (0 < Grid.nz g ->
     at2 (Grid.land_mask g) j i = Some false ->
     at2 (Grid.ice_mask g) j i = Some false ->
     exists top d,
       Grid.z_edges g !! 0%nat = Some top /\
       at2 (Grid.draft g) j i = Some d /\ d == top).
Proof.
  intros Hinit Hrange j i Hj Hi.
  destruct (Grid_init_inv _ _ _ _ _ Hinit)
    as (_ & _ & _ & _ & _ & _ & _ & _ & _ & _ & Hdraft & _ & Hland & _ & _
        & Hice & _).
  destruct (calc_draft_at _ _ _ _ _ _ _ j i Hdraft Hj Hi) as [Hwet Hdry].
  destruct (land_and_ice_mask _ _ _ Hland Hice j i) as [_ Hat].
  assert (Hcol : forall l, at2 (Grid.land_mask g) j i = Some l ->
            Forall (fun p => is_Some (at2 p j i)) (Grid.hfac g) /\
            (l = true <-> Qsum (column (Grid.hfac g) j i) == 0)).
  { intros l Hl. unfold Grid.build_land_mask in Hland. run Hland.
    injection Hland as E. rewrite <- E in Hl. unfold cmp2 in Hl.
    rewrite at2_map in Hl.
    destruct (at2 x j i) as [v|] eqn:Hv; [|discriminate]. injection Hl as <-.
    destruct (sum_axis0_at _ _ _ _ _ Hx Hv) as [Ev Hall]. split; [done|].
    rewrite Qeq_bool_iff, Ev. tauto. }
  split.
  - intros Hl. destruct (Hcol _ Hl) as [Hall Hsum].
    apply Hdry. intros k h _ Hk.
    assert (Hpos : Forall (fun x => 0 <= x)%Q (column (Grid.hfac g) j i)).
    { apply Forall_lookup. intros k' h' Hk'. rewrite column_lookup in Hk' by done.
      apply (Hrange _ _ _ _ Hk'). }
    destruct (Qsum_nonneg _ Hpos) as [_ [[_ Hzero] | [Hne _]]].
    + rewrite Forall_lookup in Hzero. apply (Hzero k).
      rewrite column_lookup by done. done.
    + destruct Hne. apply Hsum. done.
  - intros Hnz Hl Hi'. destruct (Hcol _ Hl) as [Hall Hsum].
    destruct (Hat _ Hi') as (top & l & Htop & Hl' & Hiff & _).
    assert (Hne : ~ Qsum (column (Grid.hfac g) j i) == 0).
    { intros E. apply Hsum in E. discriminate. }
    assert (Hfull : top == 1).
    { destruct (Qlt_le_dec top 1) as [Hlt | Hge].
      - assert (false = true) by (apply Hiff; done). discriminate.
      - apply Qle_antisym; [apply (Hrange _ _ _ _ Htop) | done]. }
    destruct (Hwet 0%nat top) as (ze & dzk & Hze & Hdz & Hv); try done.
    + rewrite Hfull. discriminate.
    + intros k' h' Hlt. lia.
    + exists ze, (ze - dzk * (1 - top))%Q. split; [done|]. split; [done|].
      rewrite Hfull. ring.
Qed.

Lemma X4_witness :
  exists g,
    Grid.init Examples.consts Examples.open_raw true None = Ok g /\
    at2 (Grid.land_mask g) 0 0 = Some true /\
    at2 (Grid.draft g) 0 0 = Some 0%Q.
Proof.
  eexists. split; [vm_compute; reflexivity|]. split; [reflexivity|].
  match goal with
  | |- at2 (Grid.draft ?g) _ _ = _ => set (G := g)
  end.
  apply (X4_draft_of_land_and_open_ocean Examples.consts Examples.open_raw
           true None G ltac:(vm_compute; reflexivity)).
  - intros [|[|[|k]]] [|[|j]] [|[|i]] h; vm_compute; intros [= <-];
      split; discriminate.
  - vm_compute. reflexivity.
  - vm_compute. reflexivity.
  - reflexivity.
Defined.

(** ** Accessors of the Grid *)

(** X5: get_hfac, get_land_mask, get_ice_mask and get_fris_mask hand out
    the tracer, u or v array for gtype t (the default), u or v, and stop with
    a fatal error for every other gtype, also for w and psi, which
    get_lon_lat accepts. *)
Theorem X5_accessors_know_t_u_v (g : Grid.t) :
  (Grid.get_hfac g None = Ok (Grid.hfac g) /\
   Grid.get_hfac g (Some "t"%string) = Ok (Grid.hfac g) /\
   Grid.get_hfac g (Some "u"%string) = Ok (Grid.hfac_w g) /\
   Grid.get_hfac g (Some "v"%string) = Ok (Grid.hfac_s g)) /\
  (Grid.get_land_mask g None = Ok (Grid.land_mask g) /\
   Grid.get_land_mask g (Some "t"%string) = Ok (Grid.land_mask g) /\
   Grid.get_land_mask g (Some "u"%string) = Ok (Grid.land_mask_u g) /\
   Grid.get_land_mask g (Some "v"%string) = Ok (Grid.land_mask_v g)) /\
  (Grid.get_ice_mask g None = Ok (Grid.ice_mask g) /\
   Grid.get_ice_mask g (Some "t"%string) = Ok (Grid.ice_mask g) /\
   Grid.get_ice_mask g (Some "u"%string) = Ok (Grid.ice_mask_u g) /\
   Grid.get_ice_mask g (Some "v"%string) = Ok (Grid.ice_mask_v g)) /\
  (Grid.get_fris_mask g None = Ok (Grid.fris_mask g) /\
   Grid.get_fris_mask g (Some "t"%string) = Ok (Grid.fris_mask g) /\
   Grid.get_fris_mask g (Some "u"%string) = Ok (Grid.fris_mask_u g) /\
   Grid.get_fris_mask g (Some "v"%string) = Ok (Grid.fris_mask_v g)) /\
  (forall gtype : string,
     gtype <> "t"%string -> gtype <> "u"%string -> gtype <> "v"%string ->
     (exists msg, Grid.get_hfac g (Some gtype) = Err (SystemExit msg)) /\
     (exists msg, Grid.get_land_mask g (Some gtype) = Err (SystemExit msg)) /\
     (exists msg, Grid.get_ice_mask g (Some gtype) = Err (SystemExit msg)) /\
     (exists msg, Grid.get_fris_mask g (Some gtype) = Err (SystemExit msg))).
Proof.
  do 4 (split; [repeat split|]).
  intros gtype Ht Hu Hv.
  apply String.eqb_neq in Ht, Hu, Hv.
  unfold Grid.get_hfac, Grid.get_land_mask, Grid.get_ice_mask,
    Grid.get_fris_mask. simpl. rewrite Ht, Hu, Hv.
  repeat split; eexists; reflexivity.
Qed.

Lemma X5_witness :
  exists g,
    Grid.init Examples.consts Examples.weddell_raw true None = Ok g /\
    (exists msg, Grid.get_hfac g (Some "psi"%string) = Err (SystemExit msg)) /\
    (exists r, Grid.get_lon_lat g (Some "psi"%string) None = Ok r).
Proof.
  eexists. split; [vm_compute; reflexivity|]. split.
  - eapply (proj2 (proj2 (proj2 (proj2 (X5_accessors_know_t_u_v _)))));
      discriminate.
  - eexists. reflexivity.
Defined.

(** X6: get_lon_lat needs dim 1 or 2 and gtype t, w, u, v or psi.  Another
    dim is reported first, whatever gtype is; the w grid shares the
    coordinates of the t grid; the centre or corner arrays are paired as the
    grid type asks, with the rank that dim asks. *)
Theorem X6_get_lon_lat_cases (g : Grid.t) :
  (forall gtype d, d <> 1 -> d <> 2 ->
     Grid.get_lon_lat g gtype (Some d)
     = Err (SystemExit "Error (get_lon_lat): dim must be 1 or 2")) /\
  (forall dim,
     Grid.get_lon_lat g (Some "w"%string) dim
     = Grid.get_lon_lat g (Some "t"%string) dim) /\
  (forall gtype dim r,
     Grid.get_lon_lat g gtype dim = Ok r ->
     (default 2 dim = 1 \/ default 2 dim = 2) /\
     default "t"%string gtype ∈ ["t"; "w"; "u"; "v"; "psi"]%string) /\
  Grid.get_lon_lat g (Some "u"%string) (Some 2)
    = Ok (Grid.Rank2 (Grid.lon_corners_2d g), Grid.Rank2 (Grid.lat_2d g)) /\
  Grid.get_lon_lat g (Some "v"%string) (Some 2)
    = Ok (Grid.Rank2 (Grid.lon_2d g), Grid.Rank2 (Grid.lat_corners_2d g)) /\
  Grid.get_lon_lat g (Some "psi"%string) (Some 2)
    = Ok (Grid.Rank2 (Grid.lon_corners_2d g),
          Grid.Rank2 (Grid.lat_corners_2d g)) /\
  Grid.get_lon_lat g (Some "u"%string) (Some 1)
    = Ok (Grid.Rank1 (Grid.lon_corners_1d g), Grid.Rank1 (Grid.lat_1d g)) /\
  Grid.get_lon_lat g (Some "v"%string) (Some 1)
    = Ok (Grid.Rank1 (Grid.lon_1d g), Grid.Rank1 (Grid.lat_corners_1d g)) /\
  Grid.get_lon_lat g (Some "psi"%string) (Some 1)
    = Ok (Grid.Rank1 (Grid.lon_corners_1d g),
          Grid.Rank1 (Grid.lat_corners_1d g)).
Proof.
  split; [|split; [|split; [|repeat split]]].
  - intros gtype d H1 H2. unfold Grid.get_lon_lat. simpl.
    apply Z.eqb_neq in H1, H2. rewrite H1, H2. reflexivity.
  - intros dim. unfold Grid.get_lon_lat. simpl.
    destruct (default 2 dim =? 1); [reflexivity|].
    destruct (default 2 dim =? 2); reflexivity.
  - intros gtype dim r. unfold Grid.get_lon_lat.
    generalize (default "t"%string gtype). generalize (default 2 dim).
    intros d s H. split.
    + destruct (d =? 1) eqn:E1; [apply Z.eqb_eq in E1; auto|].
      destruct (d =? 2) eqn:E2; [apply Z.eqb_eq in E2; auto|]. discriminate.
    + apply bind_Ok in H as (p & _ & H). destruct p as [[[? ?] ?] ?].
      rewrite !elem_of_cons.
      destruct (String.eqb s "t") eqn:Et; [apply String.eqb_eq in Et; auto|].
      destruct (String.eqb s "w") eqn:Ew; [apply String.eqb_eq in Ew; auto|].
      destruct (String.eqb s "u") eqn:Eu; [apply String.eqb_eq in Eu; auto|].
      destruct (String.eqb s "v") eqn:Ev; [apply String.eqb_eq in Ev; auto|].
      destruct (String.eqb s "psi") eqn:Ep;
        [apply String.eqb_eq in Ep; auto 6|].
      discriminate.
Qed.

Lemma X6_witness :
  exists g,
    Grid.init Examples.consts Examples.weddell_raw true None = Ok g /\
    Grid.get_lon_lat g (Some "nowhere"%string) (Some 3)
    = Err (SystemExit "Error (get_lon_lat): dim must be 1 or 2").
Proof.
  eexists. split; [vm_compute; reflexivity|].
  apply (proj1 (X6_get_lon_lat_cases _)); discriminate.
Defined.

(** ** grid_check_split *)

(** X7: grid_check_split only returns a grid for split 180 or 0; the grid is
    the one Grid builds with max_lon 180 or 360, and its first centre
    longitude is not greater than its last.  Every other split is the fatal
    error, whatever the grid files hold. *)
Theorem X7_grid_check_split c raw :
  (forall split g,
     grid_check_split c raw split = Ok g ->
     (split = 180 \/ split = 0) /\
     Grid.init c raw true (Some (if split =? 180 then 180 else 360)%Q) = Ok g /\
     exists first final,
       Grid.lon_1d g !! 0%nat = Some first /\
       last (Grid.lon_1d g) = Some final /\ (first <= final)%Q) /\
  (forall split, split <> 180 -> split <> 0 ->
     grid_check_split c raw split
     = Err (SystemExit "Error (grid_check_split): split must be 180 or 0")).
Proof.
  split.
  - intros split g H. unfold grid_check_split in H.
    destruct (split =? 180) eqn:E180.
    + apply Z.eqb_eq in E180. run H. injection H as <-.
      split; [auto|]. split; [done|].
      exists x0, x1. split; [apply py_index_first; done|].
      split; [apply py_index_last; done|]. apply Qgtb_false. done.
    + destruct (split =? 0) eqn:E0; [|discriminate].
      apply Z.eqb_eq in E0. run H. injection H as <-.
      split; [auto|]. split; [done|].
      exists x0, x1. split; [apply py_index_first; done|].
      split; [apply py_index_last; done|]. apply Qgtb_false. done.
  - intros split H1 H2. unfold grid_check_split.
    apply Z.eqb_neq in H1, H2. rewrite H1, H2. reflexivity.
Qed.

Lemma X7_witness :
  exists g,
    grid_check_split Examples.consts Examples.dateline_raw 0 = Ok g /\
    Grid.lon_1d g = [170; 175; 185; 190]%Q /\
    grid_check_split Examples.consts Examples.dateline_raw 180
    = Err (SystemExit "Error (grid_check_split): Looks like your domain crosses 180E. Run this again with split=0.") /\
    Grid.init Examples.consts Examples.dateline_raw true (Some 360%Q) = Ok g.
Proof.
  eexists. split; [vm_compute; reflexivity|]. split; [reflexivity|].
  split; [vm_compute; reflexivity|].
  match goal with
  | |- _ = Ok ?g => set (G := g)
  end.
  apply (proj1 (X7_grid_check_split Examples.consts Examples.dateline_raw) 0 G).
  vm_compute. reflexivity.
Defined.

(** ** The longitude axes of a SOSE grid *)

Lemma strictly_increasing_tail (x : Q) (l : arr1) :
  strictly_increasing (x :: l) = true -> strictly_increasing l = true.
Proof.
  destruct l as [|y l]; [done|].
  rewrite strictly_increasing_cons, andb_true_iff. tauto.
Qed.

Lemma strictly_increasing_drop (n : nat) (l : arr1) :
  strictly_increasing l = true -> strictly_increasing (drop n l) = true.
Proof.
  revert l. induction n as [|n IH]; intros l H; [rewrite drop_0; done|].
  destruct l as [|x l]; [done|]. simpl. apply IH.
  eapply strictly_increasing_tail, H.
Qed.

Lemma strictly_increasing_take (n : nat) (l : arr1) :
  strictly_increasing l = true -> strictly_increasing (take n l) = true.
Proof.
  revert n. induction l as [|x l IH]; intros n H; [rewrite take_nil; done|].
  destruct n as [|n]; [done|]. destruct l as [|y l]; [destruct n; done|].
  destruct n as [|n]; [done|].
  rewrite strictly_increasing_cons, andb_true_iff in H. destruct H as [Hd Hl].
  change (take (S (S n)) (x :: y :: l)) with (x :: take (S n) (y :: l)).
  specialize (IH (S n) Hl). simpl in IH |- *.
  rewrite strictly_increasing_cons, andb_true_iff. done.
Qed.

Lemma strictly_increasing_py_slice (l : arr1) lo hi :
  strictly_increasing l = true -> strictly_increasing (py_slice l lo hi) = true.
Proof.
  intros H. unfold py_slice.
  apply strictly_increasing_take, strictly_increasing_drop, H.
Qed.

Lemma read_longitude_increasing raw max_lon split i_split lon lonc :
  SOSEGrid.read_longitude raw max_lon split = Ok (i_split, lon, lonc) ->
  strictly_increasing lon = true /\ strictly_increasing lonc = true.
Proof.
  unfold SOSEGrid.read_longitude. intros H.
  apply bind_Ok in H as (l0 & _ & H).
  apply bind_Ok in H as ([i l1] & _ & H).
  apply bind_Ok in H as (c0 & _ & H).
  apply bind_Ok in H as (first & _ & H).
  destruct (negb (strictly_increasing l1) || negb _) eqn:E; [discriminate|].
  injection H as _ <- <-. apply orb_false_iff in E as [E1 E2].
  apply negb_false_iff in E1, E2. done.
Qed.

(** The constructor without a model grid: the axes are the ones read. *)
Lemma SOSE_init_plain_inv c raw split g :
  SOSEGrid.init c raw None split = Ok g ->
  exists i_split lon lonc lat latc,
    SOSEGrid.read_longitude raw 360 (default 0 split) = Ok (i_split, lon, lonc) /\
    col0 (SOSEGrid.YC raw) = Ok lat /\ col0 (SOSEGrid.YG raw) = Ok latc /\
    SOSEGrid.trim_extend g = false /\
    SOSEGrid.lon_1d g = lon /\ SOSEGrid.lon_corners_1d g = lonc /\
    SOSEGrid.lat_1d g = lat /\ SOSEGrid.lat_corners_1d g = latc /\
    SOSEGrid.z g = SOSEGrid.RC raw /\
    SOSEGrid.nx g = len lon /\ SOSEGrid.ny g = len lat /\
    SOSEGrid.nz g = len (SOSEGrid.RC raw) /\
    SOSEGrid.hfac g = SOSEGrid.hFacC raw /\
    SOSEGrid.hfac_w g = SOSEGrid.hFacW raw /\
    SOSEGrid.hfac_s g = SOSEGrid.hFacS raw /\
    Grid.build_land_mask (SOSEGrid.hfac g) = Ok (SOSEGrid.land_mask g).
Proof.
  unfold SOSEGrid.init. intros H. simpl in H.
  apply bind_Ok in H as ([[i_split lon] lonc] & Hlon & H).
  apply bind_Ok in H as (lat & Hlat & H).
  apply bind_Ok in H as (latc & Hlatc & H).
  simpl in H.
  apply bind_Ok in H as (m & Hm & H).
  apply bind_Ok in H as (mu & _ & H).
  apply bind_Ok in H as (mv & _ & H). injection H as <-. simpl.
  exists i_split, lon, lonc, lat, latc. repeat split; assumption.
Qed.

(** X8: in every constructed SOSEGrid, with or without a model grid, the
    centre and the corner longitude axes are strictly increasing: the
    constructor tests them after the splitting and the trimming keeps a
    contiguous part. *)
Theorem X8_SOSE_longitude_increasing c raw model_grid split g :
  SOSEGrid.init c raw model_grid split = Ok g ->
  strictly_increasing (SOSEGrid.lon_1d g) = true /\
  strictly_increasing (SOSEGrid.lon_corners_1d g) = true.
Proof.
  intros Hinit. destruct model_grid as [mg|].
  - destruct (SOSE_init_inv _ _ _ _ _ Hinit)
      as (max_lon & i_split & lon & lonc & lat & latc & self & h & hw & hs
          & m & mu & mv & Hlon & _ & _ & Htrim & _ & ->).
    destruct (trim_axes_inv _ _ _ _ _ _ _ _ _ Htrim)
      as (xmin & xmax & ymin & ymax & zs & zd & first & firstc & above & mz1
          & mz2 & below & _ & _ & _ & _ & _ & _ & _ & _ & _ & _ & _ & _ & _
          & _ & _ & _ & _ & _ & _ & Hl & Hlc & _).
    destruct (read_longitude_increasing _ _ _ _ _ _ Hlon) as [I1 I2].
    simpl. rewrite Hl, Hlc.
    split; apply strictly_increasing_py_slice; assumption.
  - destruct (SOSE_init_plain_inv _ _ _ _ Hinit)
      as (i_split & lon & lonc & lat & latc & Hlon & _ & _ & _ & -> & -> & _).
    eapply read_longitude_increasing, Hlon.
Qed.

Lemma X8_witness :
  exists mg g,
    Grid.init Examples.consts Examples.weddell_raw true None = Ok mg /\
    SOSEGrid.init Examples.consts Examples.sose_raw (Some mg) (Some 180) = Ok g /\
    SOSEGrid.lon_1d g = [-90; -30; 30]%Q /\
    strictly_increasing (SOSEGrid.lon_1d g) = true.
Proof.
  eexists. eexists.
  split; [vm_compute; reflexivity|].
  match goal with
  | |- SOSEGrid.init _ _ (Some ?mg) _ = _ /\ _ => set (MG := mg)
  end.
  split; [vm_compute; reflexivity|]. split; [reflexivity|].
  match goal with
  | |- strictly_increasing (SOSEGrid.lon_1d ?g) = true => set (G := g)
  end.
  refine (proj1 (X8_SOSE_longitude_increasing Examples.consts Examples.sose_raw
                   (Some MG) (Some 180) G _)).
  vm_compute. reflexivity.
Defined.

(** ** The [split] argument of [SOSEGrid.__init__] *)

Lemma first_true_all_false (l : list bool) :
  Forall (fun b => b = false) l -> first_true l = None.
Proof.
  induction 1 as [|b l -> _ IH]; [done|]. simpl. rewrite IH. done.
Qed.

(** X9: SOSEGrid.__init__ validates split only when a model grid is given:
    then a split other than 180 and 0 is fatal with the message "split must
    be 180 or 0", whatever the files hold; without a model grid no split is
    rejected, and every split other than 180 gives the result of the
    default split 0. *)
Theorem X9_SOSE_split_validation c raw :
  (forall mg split, split <> 180 -> split <> 0 ->
     SOSEGrid.init c raw (Some mg) (Some split)
     = Err (SystemExit "Error (SOSEGrid): split must be 180 or 0")) /\
  (forall split, split <> 180 ->
     SOSEGrid.init c raw None (Some split) = SOSEGrid.init c raw None None).
Proof.
  split.
  - intros mg split H180 H0. unfold SOSEGrid.init, SOSEGrid.choose_max_lon.
    simpl. apply Z.eqb_neq in H180, H0. rewrite H180, H0. reflexivity.
  - intros split H180. unfold SOSEGrid.init, SOSEGrid.read_longitude. simpl.
    apply Z.eqb_neq in H180. rewrite H180. reflexivity.
Qed.

Lemma X9_witness :
  SOSEGrid.init Examples.consts Examples.sose_raw None (Some 90)
  = SOSEGrid.init Examples.consts Examples.sose_raw None None /\
  exists g, SOSEGrid.init Examples.consts Examples.sose_raw None (Some 90) = Ok g.
Proof.
  split.
  - apply (proj2 (X9_SOSE_split_validation Examples.consts Examples.sose_raw) 90).
    lia.
  - eexists. vm_compute. reflexivity.
Defined.

(** X10: without a model grid, split=180 never constructs a grid: the
    centre longitudes are remapped with max_lon=360, that is into (0, 360]
    (fix_lon_range as the documentation of utils gives it), so none is
    negative and the search for the first negative longitude fails with an
    IndexError. *)
Theorem X10_SOSE_split_180_needs_model_grid c raw :
  SOSEGrid.init c raw None (Some 180) = Err IndexError.
Proof.
  unfold SOSEGrid.init, SOSEGrid.read_longitude. simpl.
  destruct (row0 (fix_lon_range2 (SOSEGrid.XC raw) (Some 360%Q)))
    as [lon|e] eqn:Hrow; simpl.
  - unfold nonzero_first. rewrite first_true_all_false; [reflexivity|].
    unfold row0 in Hrow. apply py_index_first in Hrow.
    unfold fix_lon_range2 in Hrow. rewrite lookup_map in Hrow.
    destruct (SOSEGrid.XC raw !! 0%nat) as [r|]; [|discriminate].
    simpl in Hrow. injection Hrow as <-. unfold fix_lon_range.
    rewrite Forall_map, Forall_map. apply Forall_forall. intros x _. simpl.
    apply Qltb_false. destruct (fix_lon_in_range 360 x) as [Hlo _].
    apply Qlt_le_weak. exact Hlo.
  - unfold row0, py_index in Hrow. simpl in Hrow.
    destruct (fix_lon_range2 (SOSEGrid.XC raw) (Some 360%Q) !! Z.to_nat 0);
      [discriminate|]. injection Hrow as <-. reflexivity.
Qed.

(** ** A SOSE grid without a model grid, and the dimensions of a field *)

(** X11: a SOSEGrid constructed without a model grid is the native grid:
    trim_extend is off, nx, ny and nz are the lengths of its axes, the
    latitude axes are the first columns of YC and YG, the depth axis and the
    three hfac arrays are the files as they are, the land mask is the one
    Grid.build_land_mask makes of hFacC, and read_field returns every file
    unchanged, whatever the dimensions and the fill value. *)
Theorem X11_SOSE_without_model_grid c raw split g :
  SOSEGrid.init c raw None split = Ok g ->
  SOSEGrid.trim_extend g = false /\
  SOSEGrid.nx g = len (SOSEGrid.lon_1d g) /\
  SOSEGrid.ny g = len (SOSEGrid.lat_1d g) /\
  SOSEGrid.nz g = len (SOSEGrid.z g) /\
  col0 (SOSEGrid.YC raw) = Ok (SOSEGrid.lat_1d g) /\
  col0 (SOSEGrid.YG raw) = Ok (SOSEGrid.lat_corners_1d g) /\
  SOSEGrid.z g = SOSEGrid.RC raw /\
  SOSEGrid.hfac g = SOSEGrid.hFacC raw /\
  SOSEGrid.hfac_w g = SOSEGrid.hFacW raw /\
  SOSEGrid.hfac_s g = SOSEGrid.hFacS raw /\
  Grid.build_land_mask (SOSEGrid.hFacC raw) = Ok (SOSEGrid.land_mask g) /\
  forall file dimensions fill_value,
    SOSEGrid.read_field g file dimensions fill_value = Ok file.
Proof.
  intros Hinit.
  destruct (SOSE_init_plain_inv _ _ _ _ Hinit)
    as (i_split & lon & lonc & lat & latc & _ & Hlat & Hlatc & Hte & Hl & _
        & Hla & Hlac & Hz & Hnx & Hny & Hnz & Hh & Hhw & Hhs & Hm).
  split; [assumption|]. split; [rewrite Hl; assumption|].
  split; [rewrite Hla; assumption|]. split; [rewrite Hz; assumption|].
  split; [rewrite Hla; assumption|]. split; [rewrite Hlac; assumption|].
  do 4 (split; [assumption|]). split; [rewrite <- Hh; assumption|].
  intros file dimensions fill_value. unfold SOSEGrid.read_field.
  rewrite Hte. reflexivity.
Qed.

Lemma X11_witness :
  exists g,
    SOSEGrid.init Examples.consts Examples.sose_raw None None = Ok g /\
    SOSEGrid.nx g = 6 /\ SOSEGrid.ny g = 4 /\ SOSEGrid.nz g = 2 /\
    SOSEGrid.read_field g (A3 Examples.sose_field) "xyz" None
    = Ok (A3 Examples.sose_field).
Proof.
  eexists. split; [vm_compute; reflexivity|].
  match goal with
  | |- SOSEGrid.nx ?g = _ /\ _ => set (G := g)
  end.
  do 3 (split; [reflexivity|]).
  refine (proj2 (proj2 (proj2 (proj2 (proj2 (proj2 (proj2 (proj2 (proj2 (proj2
            (proj2 (X11_SOSE_without_model_grid Examples.consts
                      Examples.sose_raw None G _)))))))))))
            (A3 Examples.sose_field) "xyz"%string None).
  vm_compute. reflexivity.
Defined.

(** X12: read_field does not validate its dimensions argument: the result
    depends on the string only through whether it contains z and whether it
    contains t.  On a trimming grid (nx, ny, nz not negative) a file of
    rank 2 read with a z among the dimensions is an IndexError: the source
    has no depth axis to take the slice of. *)
Theorem X12_read_field_dimensions self :
  (forall file d1 d2 fill_value,
     has_char "z" d1 = has_char "z" d2 -> has_char "t" d1 = has_char "t" d2 ->
     SOSEGrid.read_field self file d1 fill_value
     = SOSEGrid.read_field self file d2 fill_value) /\
  (forall (file : arr2) dimensions fill_value,
     SOSEGrid.trim_extend self = true ->
     0 <= SOSEGrid.nx self -> 0 <= SOSEGrid.ny self -> 0 <= SOSEGrid.nz self ->
     has_char "z" dimensions = true ->
     SOSEGrid.read_field self (A2 file) dimensions fill_value = Err IndexError).
Proof.
  split.
  - intros file d1 d2 fill_value Hz Ht. unfold SOSEGrid.read_field.
    rewrite Hz, Ht. reflexivity.
  - intros file dimensions fill_value Hte Hnx Hny Hnz Hz.
    unfold SOSEGrid.read_field. rewrite Hte, Hz.
    rewrite (full_nonneg _ _ Hnx). simpl. rewrite (full_nonneg _ _ Hny). simpl.
    rewrite (full_nonneg _ _ Hnz). simpl.
    destruct (has_char "t" dimensions); [|reflexivity].
    rewrite full_nonneg by (unfold len; lia). reflexivity.
Qed.

Lemma X12_witness :
  exists mg g,
    Grid.init Examples.consts Examples.weddell_raw true None = Ok mg /\
    SOSEGrid.init Examples.consts Examples.sose_raw (Some mg) (Some 180) = Ok g /\
    SOSEGrid.read_field g (A3 Examples.sose_field) "zyx" None
    = SOSEGrid.read_field g (A3 Examples.sose_field) "xyz" None /\
    SOSEGrid.read_field g (A2 [[1; 2]; [3; 4]]%Q) "xyz" None = Err IndexError.
Proof.
  eexists. eexists.
  split; [vm_compute; reflexivity|].
  split; [vm_compute; reflexivity|].
  match goal with
  | |- SOSEGrid.read_field ?g _ _ _ = _ /\ _ => set (G := g)
  end.
  split.
  - apply (proj1 (X12_read_field_dimensions G)); reflexivity.
  - apply (proj2 (X12_read_field_dimensions G)); vm_compute; congruence.
Defined.

(** ** The axes of a trimmed and extended SOSE grid *)

Lemma ones_times_length x n l :
  SOSEGrid.ones_times x n = Ok l -> 0 <= n /\ length l = Z.to_nat n.
Proof.
  unfold SOSEGrid.ones_times. intros H. apply full_Ok in H as [Hn ->].
  rewrite length_replicate. done.
Qed.

(** X13: on a SOSEGrid constructed with a model grid from grid files of one
    horizontal shape (positive SOSE resolution), the trimmed and extended
    axes have the lengths the object records: nx for the two longitude
    axes, ny for the two latitude axes, nz for the depth axis; the three
    are positive, and nx is at most the native number of columns, since
    longitude is only trimmed. *)
Theorem X13_SOSE_axis_lengths c raw mg split g ny0 nx0 :
  (0 < sose_res c)%Q ->
  shape2 (SOSEGrid.XC raw) ny0 nx0 -> shape2 (SOSEGrid.XG raw) ny0 nx0 ->
  shape2 (SOSEGrid.YC raw) ny0 nx0 -> shape2 (SOSEGrid.YG raw) ny0 nx0 ->
  SOSEGrid.init c raw (Some mg) split = Ok g ->
  len (SOSEGrid.lon_1d g) = SOSEGrid.nx g /\
  len (SOSEGrid.lon_corners_1d g) = SOSEGrid.nx g /\
  len (SOSEGrid.lat_1d g) = SOSEGrid.ny g /\
  len (SOSEGrid.lat_corners_1d g) = SOSEGrid.ny g /\
  len (SOSEGrid.z g) = SOSEGrid.nz g /\
  0 < SOSEGrid.nx g <= Z.of_nat nx0 /\ 0 < SOSEGrid.ny g /\ 0 < SOSEGrid.nz g.
Proof.
  intros Hres HXC HXG [HYC _] [HYG _] Hinit.
  destruct (SOSE_init_indices_ok _ _ _ _ _ Hres Hinit) as (_ & _ & Hok).
  destruct (SOSE_init_inv _ _ _ _ _ Hinit)
    as (max_lon & i_split & lon & lonc & lat & latc & self & h & hw & hs
        & m & mu & mv & Hlon & Hlat & Hlatc & Htrim & _ & ->).
  destruct (trim_axes_inv _ _ _ _ _ _ _ _ _ Htrim)
    as (xmin & xmax & ymin & ymax & zs & zd & first & firstc & above & mz1
        & mz2 & below & _ & _ & _ & _ & _ & _ & _ & Heb & _ & Hnb & Hdb
        & _ & _ & Hi0a & Hi1a & Hnx & Hj1a & Hny & Hk0b & Hl & Hlc
        & _ & Hla & _ & Hlac & Habove & _ & _ & Hbelow & Hz & Hcheck).
  destruct (read_longitude_length _ _ _ _ _ _ _ _ HXC HXG Hlon) as [El Elc].
  apply col0_length in Hlat, Hlatc.
  apply eastern_bound_le in Heb. apply northern_bound_le in Hnb.
  pose proof (depth_bounds_le _ _ _ _ _ _ _ Hdb) as Hk1.
  apply depth_bounds_Ok in Hdb as (Hk0 & Hk1b & Hk1a & Hnz); [|unfold len; lia].
  apply ones_times_length in Habove as [_ Habove].
  apply ones_times_length in Hbelow as [_ Hbelow].
  destruct Hok as ((Hi & Hi0 & _ & _) & (Hj & Hj0 & _ & _) & _). simpl in *.
  unfold len in Heb, Hnb, Hk1.
  assert (Lx : len (SOSEGrid.lon_1d self) = SOSEGrid.nx self).
  { unfold len. rewrite Hl, py_slice_length; unfold len; lia. }
  assert (Lxc : len (SOSEGrid.lon_corners_1d self) = SOSEGrid.nx self).
  { unfold len. rewrite Hlc, py_slice_length; unfold len; lia. }
  assert (Ly : len (SOSEGrid.lat_1d self) = SOSEGrid.ny self).
  { unfold len. rewrite Hla, length_app, extend_south_length, py_slice_length;
      unfold len; lia. }
  assert (Lyc : len (SOSEGrid.lat_corners_1d self) = SOSEGrid.ny self).
  { unfold len.
    rewrite Hlac, length_app, extend_south_length, py_slice_length;
      unfold len; lia. }
  assert (Lz : len (SOSEGrid.z self) = SOSEGrid.nz self).
  { unfold len. rewrite Hz, !length_app, Habove, Hbelow, py_slice_length;
      unfold len; lia. }
  apply check_bounds_Ok in Hcheck
    as (w & e & s & n & top & bottom & Hw & _ & Hs & _ & Ht & _).
  apply py_index_Ok_len in Hw, Hs, Ht.
  unfold len in *. repeat split; try assumption; lia.
Qed.

Lemma X13_witness :
  exists mg g,
    Grid.init Examples.consts Examples.weddell_raw true None = Ok mg /\
    SOSEGrid.init Examples.consts Examples.sose_raw (Some mg) (Some 180) = Ok g /\
    (SOSEGrid.nx g, SOSEGrid.ny g, SOSEGrid.nz g) = (3, 7, 4) /\
    len (SOSEGrid.lat_1d g) = SOSEGrid.ny g.
Proof.
  eexists. eexists.
  split; [vm_compute; reflexivity|].
  match goal with
  | |- SOSEGrid.init _ _ (Some ?mg) _ = _ /\ _ => set (MG := mg)
  end.
  split; [vm_compute; reflexivity|]. split; [reflexivity|].
  match goal with
  | |- len (SOSEGrid.lat_1d ?g) = _ => set (G := g)
  end.
  refine (proj1 (proj2 (proj2
    (X13_SOSE_axis_lengths Examples.consts Examples.sose_raw MG (Some 180) G
       4 6 _ _ _ _ _ _)))).
  - reflexivity.
  - vm_compute. repeat constructor.
  - vm_compute. repeat constructor.
  - vm_compute. repeat constructor.
  - vm_compute. repeat constructor.
  - vm_compute. reflexivity.
Defined.

Lemma depth_bounds_inv zs zd z n k0a k1b k1a nz :
  SOSEGrid.depth_bounds zs zd z n = Ok (k0a, k1b, k1a, nz) ->
  exists top bottom,
    z !! 0%nat = Some top /\ last z = Some bottom /\
    k0a = (if Qle_bool zs top then 0 else 1) /\
    k1a = k1b + k0a /\
    nz = (if Qltb zd bottom then k1a + 1 else k1a) /\
    if Qgtb zd bottom
    then exists m, nonzero_first (map (fun d => Qltb d zd) z) = Ok m /\
                   k1b = m + 1
    else k1b = n.
Proof.
  unfold SOSEGrid.depth_bounds. intros H.
  apply bind_Ok in H as (first & Hfirst & H).
  apply bind_Ok in H as (final & Hlast & H).
  apply bind_Ok in H as (k1 & Hk1 & H).
  apply bind_Ok in H as (final' & Hlast' & H).
  rewrite Hlast in Hlast'. injection Hlast' as <-.
  injection H as <- <- <- <-.
  exists first, final. split; [apply py_index_first, Hfirst|].
  split; [apply py_index_last, Hlast|]. do 3 (split; [reflexivity|]).
  destruct (Qgtb zd final).
  - apply bind_Ok in Hk1 as (m & Hm & Hk1). injection Hk1 as <-.
    exists m. done.
  - injection Hk1 as <-. reflexivity.
Qed.

Lemma py_slice_take {A : Type} (l : list A) (hi : Z) :
  0 <= hi -> py_slice l (Some 0) (Some hi) = take (Z.to_nat hi) l.
Proof.
  intros Hhi. unfold py_slice, slice_lo, slice_hi.
  rewrite !clip_nonneg by lia.
  replace (Z.to_nat (Z.min (len l) 0)) with 0%nat by (unfold len; lia).
  rewrite drop_0, Nat.sub_0_r.
  destruct (Z.le_gt_cases hi (len l)) as [Hle | Hgt].
  - rewrite Z.min_r by lia. reflexivity.
  - rewrite Z.min_l by lia. unfold len in *.
    rewrite !firstn_all2 by lia. reflexivity.
Qed.

(** X14: the depth axis of a SOSEGrid constructed with a model grid is the
    SOSE axis RC cut after k1_before levels, with at most one synthetic
    level at either end: a level at depth 0 on top exactly when the
    shallowest model level lies above the first SOSE level, and a level at
    2*z[-1] - z[-2] of the model grid below exactly when the deepest model
    level lies below the last SOSE level.  nz is the length of this axis.
    Levels are cut only when the deepest model level lies above the last
    SOSE level, and then the last level kept is the first SOSE level below
    the deepest model level.  The model grid has at least two levels:
    z[-2] is evaluated in every case. *)
Theorem X14_SOSE_depth_axis c raw mg split g :
  SOSEGrid.init c raw (Some mg) split = Ok g ->
  exists z_shallow z_deep mz2 top bottom,
    py_index (Grid.z mg) 0 = Ok z_shallow /\
    py_index (Grid.z mg) (-1) = Ok z_deep /\
    py_index (Grid.z mg) (-2) = Ok mz2 /\
    2 <= len (Grid.z mg) /\
    SOSEGrid.RC raw !! 0%nat = Some top /\
    last (SOSEGrid.RC raw) = Some bottom /\
    SOSEGrid.k0_before g = 0 /\
    SOSEGrid.k0_after g = (if Qle_bool z_shallow top then 0 else 1) /\
    SOSEGrid.z g
    = (if Qle_bool z_shallow top then [] else [0%Q])
      ++ take (Z.to_nat (SOSEGrid.k1_before g)) (SOSEGrid.RC raw)
      ++ (if Qltb z_deep bottom then [(2 * z_deep - mz2)%Q] else []) /\
    SOSEGrid.nz g = len (SOSEGrid.z g) /\
    ((z_deep <= bottom)%Q -> SOSEGrid.k1_before g = len (SOSEGrid.RC raw)) /\
    ((bottom < z_deep)%Q ->
       0 < SOSEGrid.k1_before g <= len (SOSEGrid.RC raw) /\
       exists d,
         SOSEGrid.RC raw !! Z.to_nat (SOSEGrid.k1_before g - 1) = Some d /\
         (d < z_deep)%Q /\
         forall (m : nat) d', Z.of_nat m < SOSEGrid.k1_before g - 1 ->
           SOSEGrid.RC raw !! m = Some d' -> (z_deep <= d')%Q).
Proof.
  intros Hinit.
  destruct (SOSE_init_inv _ _ _ _ _ Hinit)
    as (max_lon & i_split & lon & lonc & lat & latc & self & h & hw & hs
        & m & mu & mv & _ & _ & _ & Htrim & _ & ->).
  destruct (trim_axes_inv _ _ _ _ _ _ _ _ _ Htrim)
    as (xmin & xmax & ymin & ymax & zs & zd & first & firstc & above & mz1
        & mz2 & below & _ & _ & _ & _ & Hzs & Hzd & _ & _ & _ & _ & Hdb
        & _ & _ & _ & _ & _ & _ & _ & Hk0b & _ & _
        & _ & _ & _ & _ & Habove & Hmz1 & Hmz2 & Hbelow & Hz & _).
  rewrite Hzd in Hmz1. injection Hmz1 as <-.
  pose proof (depth_bounds_le _ _ _ _ _ _ _ Hdb) as Hk1.
  destruct (depth_bounds_Ok _ _ _ _ _ _ _ _ Hdb) as (_ & Hk1b & _);
    [unfold len; lia|].
  destruct (depth_bounds_inv _ _ _ _ _ _ _ _ Hdb)
    as (top & bottom & Htop & Hbottom & Hk0a & Hk1a & Hnz & Hcut).
  apply full_Ok in Habove as [_ ->]. apply full_Ok in Hbelow as [_ ->].
  exists zs, zd, mz2, top, bottom. simpl.
  do 3 (split; [assumption|]).
  split.
  { unfold py_index in Hmz2. destruct (-2 <? 0) eqn:E; [|lia].
    destruct (-2 + len (Grid.z mg) <? 0) eqn:E'; [discriminate|]. lia. }
  do 3 (split; [assumption|]). split; [assumption|].
  assert (Ez : SOSEGrid.z self
    = (if Qle_bool zs top then [] else [0%Q])
      ++ take (Z.to_nat (SOSEGrid.k1_before self)) (SOSEGrid.RC raw)
      ++ (if Qltb zd bottom then [(2 * zd - mz2)%Q] else [])).
  { rewrite Hz, py_slice_take by lia. f_equal; [|f_equal].
    - rewrite Hk0a. destruct (Qle_bool zs top); reflexivity.
    - rewrite Hnz. destruct (Qltb zd bottom).
      + replace (SOSEGrid.k1_after self + 1 - SOSEGrid.k1_after self)
          with 1 by lia. reflexivity.
      + rewrite Z.sub_diag. reflexivity. }
  split; [exact Ez|]. split.
  { rewrite Ez. unfold len in *. rewrite !length_app, length_take.
    rewrite Hnz, Hk1a, Hk0a.
    destruct (Qle_bool zs top), (Qltb zd bottom); simpl; lia. }
  split.
  - intros Hle. apply Qgtb_false in Hle. rewrite Hle in Hcut. exact Hcut.
  - intros Hlt. apply Qgtb_true in Hlt. rewrite Hlt in Hcut.
    destruct Hcut as (n & Hn & Hk).
    apply nonzero_first_Ok in Hn as (Hrange & Ht & Hbefore).
    unfold len in Hrange. rewrite length_map in Hrange.
    split; [unfold len in *; lia|].
    replace (SOSEGrid.k1_before self - 1) with n by lia.
    rewrite lookup_map in Ht.
    destruct (SOSEGrid.RC raw !! Z.to_nat n) as [d|] eqn:Hd; [|discriminate].
    exists d. split; [reflexivity|]. injection Ht as Ht.
    split; [apply Qltb_true, Ht|].
    intros k d' Hk' Hd'. specialize (Hbefore k ltac:(lia)).
    rewrite lookup_map, Hd' in Hbefore. injection Hbefore as Hbefore.
    apply Qltb_false, Hbefore.
Qed.

Lemma X14_witness :
  exists mg g,
    Grid.init Examples.consts Examples.weddell_raw true None = Ok mg /\
    SOSEGrid.init Examples.consts Examples.sose_raw (Some mg) (Some 180) = Ok g /\
    SOSEGrid.z g = [0; -10; -20; -35]%Q /\
    exists z_shallow z_deep mz2 top bottom,
      py_index (Grid.z mg) 0 = Ok z_shallow /\
      py_index (Grid.z mg) (-1) = Ok z_deep /\
      py_index (Grid.z mg) (-2) = Ok mz2 /\
      2 <= len (Grid.z mg) /\
      SOSEGrid.RC Examples.sose_raw !! 0%nat = Some top /\
      last (SOSEGrid.RC Examples.sose_raw) = Some bottom /\
      SOSEGrid.k0_before g = 0.
Proof.
  eexists. eexists.
  split; [vm_compute; reflexivity|].
  match goal with
  | |- SOSEGrid.init _ _ (Some ?mg) _ = _ /\ _ => set (MG := mg)
  end.
  split; [vm_compute; reflexivity|]. split; [reflexivity|].
  match goal with
  | |- context [SOSEGrid.k0_before ?g] => set (G := g)
  end.
  destruct (X14_SOSE_depth_axis Examples.consts Examples.sose_raw MG
              (Some 180) G ltac:(vm_compute; reflexivity))
    as (zs & zd & mz2 & top & bottom & H1 & H2 & H3 & H4 & H5 & H6 & H7 & _).
  exists zs, zd, mz2, top, bottom. repeat split; assumption.
Defined.

(** ** How far the trimming goes *)

Lemma py_slice_lookup_Some {A : Type} (l : list A) (lo hi : Z) (m : nat) x :
  0 <= lo -> 0 <= hi ->
  py_slice l (Some lo) (Some hi) !! m = Some x ->
  l !! (m + Z.to_nat lo)%nat = Some x /\ Z.of_nat m + lo < hi.
Proof.
  intros Hlo Hhi H. unfold py_slice, slice_lo, slice_hi in H.
  rewrite !clip_nonneg in H by lia.
  apply lookup_take_Some in H as [H Hlt]. rewrite lookup_drop in H.
  pose proof (lookup_lt_Some _ _ _ H) as Hlen. unfold len in *.
  replace (m + Z.to_nat lo)%nat
    with (Z.to_nat (Z.min (Z.of_nat (length l)) lo) + m)%nat by lia.
  split; [exact H | lia].
Qed.

Lemma py_slice_lookup_in {A : Type} (l : list A) (lo hi : Z) (m : nat) :
  0 <= lo -> Z.of_nat m + lo < hi -> Z.of_nat m + lo < len l ->
  py_slice l (Some lo) (Some hi) !! m = l !! (m + Z.to_nat lo)%nat.
Proof.
  intros Hlo Hhi Hlen. unfold py_slice, slice_lo, slice_hi, len in *.
  rewrite !clip_nonneg by lia. rewrite lookup_take_lt by lia.
  rewrite lookup_drop. f_equal. lia.
Qed.

Lemma increasing_adjacent (l : arr1) (k : nat) (a b : Q) :
  strictly_increasing l = true ->
  l !! k = Some a -> l !! S k = Some b -> (a < b)%Q.
Proof.
  revert k. induction l as [|x l IH]; intros k H Ha Hb; [done|].
  destruct l as [|y l]; [done|].
  rewrite strictly_increasing_cons, andb_true_iff in H. destruct H as [Hd Hl].
  destruct k as [|k].
  - simpl in Ha, Hb. injection Ha as <-. injection Hb as <-.
    apply Qgtb_true in Hd. clear -Hd. lra.
  - apply (IH k Hl); assumption.
Qed.

Lemma increasing_lookup (l : arr1) (i j : nat) (a b : Q) :
  strictly_increasing l = true -> (i < j)%nat ->
  l !! i = Some a -> l !! j = Some b -> (a < b)%Q.
Proof.
  intros H Hij Ha. revert b. induction j as [|j IH]; [lia|]. intros b Hb.
  destruct (decide (i = j)) as [->|Hne].
  - eapply increasing_adjacent; eauto.
  - destruct (l !! j) as [c|] eqn:Hc.
    + eapply Qlt_trans; [apply IH; [lia | reflexivity]|].
      eapply increasing_adjacent; eauto.
    + apply lookup_ge_None in Hc. apply lookup_lt_Some in Hb. lia.
Qed.

(** The western block: the centre at [i0_before] is not east of [xmin], the
    next one is. *)
Lemma western_bound_spec xmin lon i :
  strictly_increasing lon = true ->
  SOSEGrid.western_bound xmin lon = Ok i ->
  exists a, lon !! Z.to_nat i = Some a /\ (a <= xmin)%Q /\
    forall b, lon !! S (Z.to_nat i) = Some b -> (xmin < b)%Q.
Proof.
  intros Hinc H. pose proof (western_bound_Ok _ _ _ H) as Hi.
  unfold SOSEGrid.western_bound in H.
  apply bind_Ok in H as (first & Hfirst & H).
  apply py_index_first in Hfirst.
  destruct (Qeq_bool xmin first) eqn:Eq.
  - injection H as <-. apply Qeq_bool_iff in Eq. exists first.
    split; [exact Hfirst|]. split; [rewrite Eq; apply Qle_refl|].
    intros b Hb. rewrite Eq. eapply increasing_adjacent; eauto.
  - destruct (Qgtb xmin first) eqn:Gt; [|discriminate].
    apply bind_Ok in H as (n & Hn & H). injection H as <-.
    apply nonzero_first_Ok in Hn as (Hrange & Ht & Hbefore).
    specialize (Hbefore (Z.to_nat (n - 1)) ltac:(lia)).
    rewrite lookup_map in Hbefore, Ht.
    destruct (lon !! Z.to_nat (n - 1)) as [a|] eqn:Ha; [|discriminate].
    injection Hbefore as Hbefore. apply Qgtb_false in Hbefore.
    exists a. split; [reflexivity|]. split; [exact Hbefore|].
    intros b Hb. replace (S (Z.to_nat (n - 1))) with (Z.to_nat n) in Hb by lia.
    rewrite Hb in Ht. injection Ht as Ht. apply Qgtb_true, Ht.
Qed.

(** The eastern block: either nothing is trimmed, or the corner at
    [i1_before - 1] is the first one east of [xmax]. *)
Lemma eastern_bound_spec xmax lonc n i :
  SOSEGrid.eastern_bound xmax lonc n = Ok i ->
  exists final, last lonc = Some final /\
    ((xmax == final /\ i = n) \/
     (0 < i <= len lonc /\
      (exists e, lonc !! Z.to_nat (i - 1) = Some e /\ (xmax < e)%Q) /\
      forall (m : nat) p, Z.of_nat m < i - 1 -> lonc !! m = Some p ->
        (p <= xmax)%Q)).
Proof.
  unfold SOSEGrid.eastern_bound. intros H.
  apply bind_Ok in H as (final & Hfinal & H). apply py_index_last in Hfinal.
  exists final. split; [exact Hfinal|].
  destruct (Qeq_bool xmax final) eqn:Eq.
  - injection H as <-. apply Qeq_bool_iff in Eq. left. done.
  - destruct (Qltb xmax final) eqn:Lt; [|discriminate].
    apply bind_Ok in H as (k & Hk & H). injection H as <-.
    apply nonzero_first_Ok in Hk as (Hrange & Ht & Hbefore).
    unfold len in Hrange. rewrite length_map in Hrange.
    right. split; [unfold len; lia|].
    replace (k + 1 - 1) with k by lia. split.
    + rewrite lookup_map in Ht.
      destruct (lonc !! Z.to_nat k) as [e|]; [|discriminate].
      injection Ht as Ht. exists e. split; [reflexivity|].
      apply Qgtb_true, Ht.
    + intros m p Hm Hp. specialize (Hbefore m ltac:(lia)).
      rewrite lookup_map, Hp in Hbefore. injection Hbefore as Hbefore.
      apply Qgtb_false, Hbefore.
Qed.

(** X15: the longitude trimming of a SOSEGrid constructed with a model grid
    keeps the smallest window about the model's range: the first cell
    centre kept is not east of xmin (the smallest corner longitude of the
    model) and the second one is east of it; the last corner kept is not
    west of xmax (the largest centre longitude of the model) and the corner
    before it is not east of xmax. *)
Theorem X15_SOSE_longitude_window c raw mg split g xmin xmax :
  SOSEGrid.init c raw (Some mg) split = Ok g ->
  amin2 (Grid.lon_corners_2d mg) = Ok xmin ->
  amax2 (Grid.lon_2d mg) = Ok xmax ->
  (exists a, SOSEGrid.lon_1d g !! 0%nat = Some a /\ (a <= xmin)%Q /\
     forall b, SOSEGrid.lon_1d g !! 1%nat = Some b -> (xmin < b)%Q) /\
  (exists e, last (SOSEGrid.lon_corners_1d g) = Some e /\ (xmax <= e)%Q /\
     forall (k : nat) p,
       S (S k) = length (SOSEGrid.lon_corners_1d g) ->
       SOSEGrid.lon_corners_1d g !! k = Some p -> (p <= xmax)%Q).
Proof.
  intros Hinit Hxmin Hxmax.
  destruct (SOSE_init_inv _ _ _ _ _ Hinit)
    as (max_lon & i_split & lon & lonc & lat & latc & self & h & hw & hs
        & m & mu & mv & Hlon & _ & _ & Htrim & _ & ->).
  destruct (trim_axes_inv _ _ _ _ _ _ _ _ _ Htrim)
    as (xmin' & xmax' & ymin & ymax & zs & zd & first & firstc & above & mz1
        & mz2 & below & Hxmin' & Hxmax' & _ & _ & _ & _ & Hwb & Heb & _ & _
        & _ & _ & _ & _ & _ & _ & _ & _ & _ & Hl & Hlc & _ & _ & _ & _ & _
        & _ & _ & _ & _ & Hcheck).
  rewrite Hxmin in Hxmin'. injection Hxmin' as <-.
  rewrite Hxmax in Hxmax'. injection Hxmax' as <-.
  destruct (read_longitude_increasing _ _ _ _ _ _ Hlon) as [Il Ilc].
  pose proof (western_bound_Ok _ _ _ Hwb) as Hi0.
  pose proof (eastern_bound_Ok _ _ _ _ Heb ltac:(unfold len; lia)) as Hi1.
  apply check_bounds_Ok in Hcheck
    as (w & e & s & n & top & bottom & Hw & He & _ & _ & _ & _
        & _ & Hcleared & _).
  assert (Hlt : SOSEGrid.i0_before self < SOSEGrid.i1_before self).
  { apply (py_slice_nonempty lonc); [lia | lia |].
    rewrite <- Hlc. intros E. rewrite E in Hw. discriminate. }
  simpl. split.
  - destruct (western_bound_spec _ _ _ Il Hwb) as (a & Ha & Hle & Hnext).
    exists a. split; [|split; [exact Hle|]].
    + rewrite Hl, py_slice_lookup_in by lia. exact Ha.
    + intros b Hb. rewrite Hl in Hb.
      apply py_slice_lookup_Some in Hb as [Hb _]; [|lia|lia].
      apply Hnext. rewrite <- Hb. f_equal; lia.
  - exists e. split; [apply py_index_last, He|]. split; [exact Hcleared|].
    intros k p Hk Hp.
    pose proof (py_index_last _ _ He) as Hlast.
    rewrite last_lookup, <- Hk in Hlast. simpl in Hlast.
    assert (Ic : strictly_increasing (SOSEGrid.lon_corners_1d self) = true)
      by (rewrite Hlc; apply strictly_increasing_py_slice, Ilc).
    pose proof (increasing_adjacent _ _ _ _ Ic Hp Hlast) as Hpe.
    rewrite Hlc in Hp, Hlast.
    apply py_slice_lookup_Some in Hp as [Hp Hpk]; [|lia|lia].
    apply py_slice_lookup_Some in Hlast as [Hlast' Hek]; [|lia|lia].
    destruct (eastern_bound_spec _ _ _ _ Heb)
      as (final & Hfinal & [[Heq _] | (Hrange & _ & Hbefore)]).
    + (* nothing trimmed: the last corner is xmax *)
      apply Qlt_le_weak. eapply Qlt_le_trans; [exact Hpe|].
      rewrite Heq. rewrite last_lookup in Hfinal.
      pose proof (lookup_lt_Some _ _ _ Hlast') as Hlen.
      destruct (decide (S k + Z.to_nat (SOSEGrid.i0_before self)
                        = pred (length lonc))%nat) as [E|E].
      * rewrite E, Hfinal in Hlast'. injection Hlast' as ->. apply Qle_refl.
      * apply Qlt_le_weak.
        eapply (increasing_lookup lonc _ _ _ _ Ilc); [|exact Hlast'|exact Hfinal].
        lia.
    + (* trimmed: the corner before the last is not east of xmax *)
      apply (Hbefore (k + Z.to_nat (SOSEGrid.i0_before self))%nat); [|exact Hp].
      assert (length (py_slice lonc (Some (SOSEGrid.i0_before self))
                        (Some (SOSEGrid.i1_before self)))
              = Z.to_nat (SOSEGrid.i1_before self - SOSEGrid.i0_before self))
        by (apply py_slice_length; lia).
      rewrite Hlc in Hk. lia.
Qed.

Lemma X15_witness :
  exists mg g xmin xmax,
    Grid.init Examples.consts Examples.weddell_raw true None = Ok mg /\
    SOSEGrid.init Examples.consts Examples.sose_raw (Some mg) (Some 180) = Ok g /\
    amin2 (Grid.lon_corners_2d mg) = Ok xmin /\
    amax2 (Grid.lon_2d mg) = Ok xmax /\
    (xmin, xmax) = ((-65)%Q, (-30)%Q) /\
    SOSEGrid.lon_1d g = [-90; -30; 30]%Q /\
    SOSEGrid.lon_corners_1d g = [-120; -60; 0]%Q /\
    exists a, SOSEGrid.lon_1d g !! 0%nat = Some a /\ (a <= xmin)%Q.
Proof.
  eexists. eexists. eexists. eexists.
  split; [vm_compute; reflexivity|].
  match goal with
  | |- SOSEGrid.init _ _ (Some ?mg) _ = _ /\ _ => set (MG := mg)
  end.
  split; [vm_compute; reflexivity|].
  match goal with
  | |- amin2 (Grid.lon_corners_2d MG) = _ /\ _ /\ _ /\ SOSEGrid.lon_1d ?g = _ /\ _ =>
      set (G := g)
  end.
  split; [vm_compute; reflexivity|]. split; [vm_compute; reflexivity|].
  split; [reflexivity|]. split; [reflexivity|]. split; [reflexivity|].
  destruct (X15_SOSE_longitude_window Examples.consts Examples.sose_raw MG
              (Some 180) G (-65) (-30)
              ltac:(vm_compute; reflexivity) ltac:(vm_compute; reflexivity)
              ltac:(vm_compute; reflexivity))
    as [(a & Ha & Hle & _) _].
  exists a. split; assumption.
Defined.

(** The first entry of the first column. *)
Lemma col0_first (a : arr2) (l : arr1) (x : Q) :
  col0 a = Ok l -> at2 a 0 0 = Some x -> l !! 0%nat = Some x.
Proof.
  unfold col0, at2. intros Hl Hx. apply mapM_Forall2 in Hl.
  destruct (a !! 0%nat) as [r|] eqn:Hr; [|discriminate]. simpl in Hx.
  destruct (Forall2_lookup_l _ _ _ _ _ Hl Hr) as (y & Hy & Hidx).
  apply py_index_first in Hidx. rewrite Hx in Hidx. injection Hidx as <-.
  exact Hy.
Qed.

(** The southern block, case by case. *)
Lemma southern_bound_spec c ymin lat jb ja :
  (0 < sose_res c)%Q ->
  SOSEGrid.southern_bound c ymin lat = Ok (jb, ja) ->
  exists first, lat !! 0%nat = Some first /\ 0 <= jb < len lat /\
    (((ymin == first)%Q /\ jb = 0 /\ ja = 0) \/
     ((first < ymin)%Q /\ ja = 0 /\
      (exists a, lat !! Z.to_nat jb = Some a /\ (a <= ymin)%Q) /\
      forall b, lat !! S (Z.to_nat jb) = Some b -> (ymin < b)%Q) \/
     ((ymin < first)%Q /\ jb = 0 /\ 0 < ja)).
Proof.
  intros Hres H.
  destruct (southern_bound_Ok _ _ _ _ _ H) as (first & Hfirst & Hjb & _).
  exists first. split; [exact Hfirst|]. split; [exact Hjb|].
  unfold SOSEGrid.southern_bound in H.
  apply bind_Ok in H as (first' & Hfirst' & H).
  apply py_index_first in Hfirst'. rewrite Hfirst in Hfirst'.
  injection Hfirst' as <-.
  destruct (Qeq_bool ymin first) eqn:Eq.
  { injection H as <- <-. apply Qeq_bool_iff in Eq. left. done. }
  right. destruct (Qgtb ymin first) eqn:Gt.
  - left. apply Qgtb_true in Gt.
    apply bind_Ok in H as (n & Hn & H). injection H as <- <-.
    apply nonzero_first_Ok in Hn as (Hrange & Ht & Hbefore).
    split; [exact Gt|]. split; [reflexivity|].
    specialize (Hbefore (Z.to_nat (n - 1)) ltac:(lia)).
    rewrite lookup_map in Hbefore, Ht.
    destruct (lat !! Z.to_nat (n - 1)) as [a|] eqn:Ha; [|discriminate].
    injection Hbefore as Hbefore. apply Qgtb_false in Hbefore.
    split; [exists a; done|].
    intros b Hb. replace (S (Z.to_nat (n - 1))) with (Z.to_nat n) in Hb by lia.
    rewrite Hb in Ht. injection Ht as Ht. apply Qgtb_true, Ht.
  - right. destruct (Qltb ymin first) eqn:Lt; [|discriminate].
    apply Qltb_true in Lt.
    destruct (Qeq_bool (sose_res c) 0); [discriminate|].
    injection H as <- <-. split; [exact Lt|]. split; [reflexivity|].
    apply Qceiling_pos.
    apply (south_quotient_error (first - ymin) (sose_res c) Hres).
    clear -Lt. lra.
Qed.

(** X16: on a SOSEGrid constructed with a model grid (positive SOSE
    resolution) the southern side of the latitude axis is either trimmed
    or extended, never both.  When ymin (the smallest corner latitude of the
    model) is not south of the first SOSE latitude, no row is added, the
    first cell centre kept is not north of ymin and, unless it equals ymin,
    the second one is north of ymin.  When ymin is south of the first SOSE
    latitude, rows are added and no SOSE row is trimmed in the south. *)
Theorem X16_SOSE_southern_window c raw mg split g ymin lat0 :
  (0 < sose_res c)%Q ->
  SOSEGrid.init c raw (Some mg) split = Ok g ->
  amin2 (Grid.lat_corners_2d mg) = Ok ymin ->
  at2 (SOSEGrid.YC raw) 0 0 = Some lat0 ->
  ((lat0 <= ymin)%Q ->
     SOSEGrid.j0_after g = 0 /\
     exists a, SOSEGrid.lat_1d g !! 0%nat = Some a /\ (a <= ymin)%Q /\
       (a == ymin \/
        forall b, SOSEGrid.lat_1d g !! 1%nat = Some b -> (ymin < b)%Q)) /\
  ((ymin < lat0)%Q ->
     SOSEGrid.j0_before g = 0 /\ 0 < SOSEGrid.j0_after g) /\
  0 <= SOSEGrid.j0_before g /\ 0 <= SOSEGrid.j0_after g /\
  (SOSEGrid.j0_before g = 0 \/ SOSEGrid.j0_after g = 0).
Proof.
  intros Hres Hinit Hymin Hlat0.
  destruct (SOSE_init_indices_ok _ _ _ _ _ Hres Hinit)
    as (_ & _ & _ & (Hj & Hj0 & _ & _) & _).
  destruct (SOSE_init_inv _ _ _ _ _ Hinit)
    as (max_lon & i_split & lon & lonc & lat & latc & self & h & hw & hs
        & m & mu & mv & _ & Hlat & Hlatc & Htrim & _ & ->).
  destruct (trim_axes_inv _ _ _ _ _ _ _ _ _ Htrim)
    as (xmin & xmax & ymin' & ymax & zs & zd & first & firstc & above & mz1
        & mz2 & below & _ & _ & Hymin' & _ & _ & _ & _ & _ & Hsb & Hnb & _
        & _ & _ & _ & _ & _ & Hj1a & Hny & _ & _ & _ & Hfirst & Hlat1d
        & _ & Hlatc1d & _ & _ & _ & _ & _ & Hcheck).
  simpl in *. rewrite Hymin in Hymin'. injection Hymin' as <-.
  pose proof (col0_first _ _ _ Hlat Hlat0) as Hl0.
  destruct (southern_bound_spec _ _ _ _ _ Hres Hsb)
    as (lat0' & Hlat0' & Hjb & Hcases).
  rewrite Hl0 in Hlat0'. injection Hlat0' as <-.
  assert (Hor : SOSEGrid.j0_before self = 0 \/ SOSEGrid.j0_after self = 0).
  { destruct Hcases as [(_ & ? & _) | [(_ & ? & _) | (_ & ? & _)]]; auto. }
  split; [|split; [|split; [lia|split; [lia|exact Hor]]]].
  - intros Hnorth.
    destruct Hcases as [(Heq & Hjb0 & Hja0)
                       | [(Hlt & Hja0 & (a & Ha & Hle) & Hnext)
                         | (Hlt & _)]].
    + (* nothing to do *)
      split; [exact Hja0|].
      assert (Hj1 : 0 < SOSEGrid.j1_before self).
      { apply check_bounds_Ok in Hcheck
          as (w & e & s & n & top & bottom & _ & _ & Hs & _).
        rewrite Hlatc1d, Hja0, Hjb0 in Hs. simpl in Hs.
        apply (py_slice_nonempty latc); [lia | lia |].
        intros E. unfold SOSEGrid.extend_south in Hs. simpl in Hs.
        rewrite E in Hs. discriminate. }
      exists lat0. rewrite Hlat1d, Hja0, Hjb0.
      unfold SOSEGrid.extend_south. simpl.
      split; [|split; [rewrite Heq; apply Qle_refl | left; symmetry; exact Heq]].
      rewrite py_slice_lookup_in by lia. exact Hl0.
    + (* trimmed *)
      split; [exact Hja0|].
      assert (Hj1 : SOSEGrid.j0_before self < SOSEGrid.j1_before self).
      { apply check_bounds_Ok in Hcheck
          as (w & e & s & n & top & bottom & _ & _ & Hs & _).
        rewrite Hlatc1d, Hja0 in Hs.
        apply (py_slice_nonempty latc); [lia | lia |].
        intros E. unfold SOSEGrid.extend_south in Hs. simpl in Hs.
        rewrite E in Hs. discriminate. }
      exists a. rewrite Hlat1d, Hja0. unfold SOSEGrid.extend_south. simpl.
      split; [|split; [exact Hle|right]].
      * rewrite py_slice_lookup_in by lia. exact Ha.
      * intros b Hb. apply py_slice_lookup_Some in Hb as [Hb _]; [|lia|lia].
        apply Hnext. rewrite <- Hb. f_equal; lia.
    + exfalso. clear -Hnorth Hlt. lra.
  - intros Hsouth.
    destruct Hcases as [(Heq & _) | [(Hlt & _) | (_ & Hjb0 & Hpos)]].
    + exfalso. clear -Hsouth Heq. lra.
    + exfalso. clear -Hsouth Hlt. lra.
    + split; assumption.
Qed.

Lemma X16_witness :
  exists mg g ymin,
    Grid.init Examples.consts
      (Examples.model_raw [-60; -50; -40; -30]%Q
         [-697 # 10; -6968 # 100; -6966 # 100; -6964 # 100]%Q) true None
    = Ok mg /\
    SOSEGrid.init Examples.consts Examples.sose_raw (Some mg) (Some 180) = Ok g /\
    amin2 (Grid.lat_corners_2d mg) = Ok ymin /\
    ymin == -698 # 10 /\
    SOSEGrid.j0_before g = 1 /\
    SOSEGrid.lat_1d g !! 0%nat = Some (-419 # 6)%Q /\
    SOSEGrid.lat_1d g !! 1%nat = Some (-209 # 3)%Q /\
    SOSEGrid.j0_after g = 0.
Proof.
  eexists. eexists. eexists.
  split; [vm_compute; reflexivity|].
  match goal with
  | |- SOSEGrid.init _ _ (Some ?mg) _ = _ /\ _ => set (MG := mg)
  end.
  split; [vm_compute; reflexivity|].
  match goal with
  | |- _ /\ _ /\ SOSEGrid.j0_before ?g = _ /\ _ => set (G := g)
  end.
  split; [vm_compute; reflexivity|].
  split; [reflexivity|]. split; [reflexivity|].
  split; [reflexivity|]. split; [reflexivity|].
  match goal with
  | |- SOSEGrid.j0_after G = 0 => idtac
  end.
  refine (proj1 (proj1
    (X16_SOSE_southern_window Examples.consts Examples.sose_raw MG (Some 180)
       G (-6980 # 100) (-70) _ _ _ _) _)).
  - reflexivity.
  - vm_compute. reflexivity.
  - vm_compute. reflexivity.
  - reflexivity.
  - vm_compute. discriminate.
Defined.

(** ** hfac and the land masks of a trimmed and extended SOSE grid *)

Lemma SOSE_init_hfac_inv c raw mg split g :
  SOSEGrid.init c raw (Some mg) split = Ok g ->
  exists self,
    g = SOSEGrid.with_hfac self (SOSEGrid.hfac g) (SOSEGrid.hfac_w g)
          (SOSEGrid.hfac_s g) (SOSEGrid.land_mask g) (SOSEGrid.land_mask_u g)
          (SOSEGrid.land_mask_v g) /\
    SOSEGrid.read_hfac self (SOSEGrid.hFacC raw) = Ok (SOSEGrid.hfac g) /\
    SOSEGrid.read_hfac self (SOSEGrid.hFacW raw) = Ok (SOSEGrid.hfac_w g) /\
    SOSEGrid.read_hfac self (SOSEGrid.hFacS raw) = Ok (SOSEGrid.hfac_s g) /\
    Grid.build_land_mask (SOSEGrid.hfac g) = Ok (SOSEGrid.land_mask g) /\
    Grid.build_land_mask (SOSEGrid.hfac_w g) = Ok (SOSEGrid.land_mask_u g) /\
    Grid.build_land_mask (SOSEGrid.hfac_s g) = Ok (SOSEGrid.land_mask_v g).
Proof.
  unfold SOSEGrid.init. intros H.
  apply bind_Ok in H as (max_lon & _ & H).
  apply bind_Ok in H as ([[i_split lon] lonc] & _ & H).
  apply bind_Ok in H as (lat & _ & H).
  apply bind_Ok in H as (latc & _ & H).
  apply bind_Ok in H as ([[[self h] hw] hs] & Hself & H).
  apply bind_Ok in Hself as (self' & _ & Hself).
  apply bind_Ok in Hself as (h' & Hh & Hself).
  apply bind_Ok in Hself as (hw' & Hhw & Hself).
  apply bind_Ok in Hself as (hs' & Hhs & Hself).
  injection Hself as <- <- <- <-.
  apply bind_Ok in H as (m & Hm & H).
  apply bind_Ok in H as (mu & Hmu & H).
  apply bind_Ok in H as (mv & Hmv & H). injection H as <-.
  exists self'. simpl. done.
Qed.

Lemma Qsum_zero (l : arr1) : Forall (fun x => x == 0) l -> Qsum l == 0.
Proof.
  induction 1 as [|x l Hx _ IH]; simpl; [reflexivity|].
  rewrite Hx, IH. reflexivity.
Qed.

(** A column of zeros is land. *)
Lemma land_mask_of_dry_column (hf : arr3) (m : mask2) j i :
  Grid.build_land_mask hf = Ok m ->
  (0 < length hf)%nat ->
  (forall k, (k < length hf)%nat -> at3 hf k j i = Some 0%Q) ->
  at2 m j i = Some true.
Proof.
  unfold Grid.build_land_mask. intros H Hlen Hdry.
  apply bind_Ok in H as (s & Hs & H). injection H as <-.
  destruct (hf !! 0%nat) as [top|] eqn:Htop;
    [|apply lookup_ge_None in Htop; lia].
  pose proof (Hdry 0%nat Hlen) as H0. unfold at3 in H0. rewrite Htop in H0.
  simpl in H0.
  destruct (proj2 (sum_axis0_shape _ _ _ j i Hs Htop)) as [v Hv];
    [rewrite H0; eexists; reflexivity|].
  unfold cmp2. rewrite at2_map, Hv. simpl. f_equal.
  destruct (sum_axis0_at _ _ _ _ _ Hs Hv) as [E Hall].
  apply Qeq_bool_iff. rewrite E. apply Qsum_zero.
  apply Forall_lookup. intros k x Hx.
  rewrite (column_lookup _ _ _ _ Hall) in Hx.
  assert (Hk : (k < length hf)%nat).
  { unfold at3 in Hx. destruct (hf !! k) eqn:E'; [|discriminate].
    eapply lookup_lt_Some, E'. }
  rewrite (Hdry k Hk) in Hx. injection Hx as <-. reflexivity.
Qed.

Lemma read_hfac_land self file h m :
  SOSEGrid.trim_extend self = true -> SOSEGrid.indices_ok self ->
  0 <= SOSEGrid.i_split self -> 0 < SOSEGrid.nz self ->
  SOSEGrid.covers3 self file ->
  SOSEGrid.read_hfac self file = Ok h ->
  Grid.build_land_mask h = Ok m ->
  SOSEGrid.aligned3 self 0 (split_longitude3 file (SOSEGrid.i_split self)) h /\
  forall j i : nat,
    Z.of_nat j < SOSEGrid.ny self -> Z.of_nat i < SOSEGrid.nx self ->
    SOSEGrid.in_window (SOSEGrid.j0_after self) (SOSEGrid.j1_after self) j
    && SOSEGrid.in_window (SOSEGrid.i0_after self) (SOSEGrid.i1_after self) i
    = false ->
    at2 m j i = Some true.
Proof.
  intros Hte Hok Hsplit Hnz Hcov Hread Hmask.
  destruct (read_field_aligned self 0 Hte Hok Hsplit) as (_ & _ & Hxyz & _).
  destruct (Hxyz file Hcov) as (data & Hdata & Hal).
  unfold SOSEGrid.read_hfac in Hread. rewrite Hdata in Hread. simpl in Hread.
  injection Hread as <-. split; [exact Hal|].
  intros j i Hj Hi Hout. destruct Hal as [[Hlen _] Hat].
  apply (land_mask_of_dry_column data); [exact Hmask | lia |].
  intros k Hk. specialize (Hat k j i ltac:(lia) Hj Hi).
  rewrite <- andb_assoc, Hout, andb_false_r in Hat. exact Hat.
Qed.

(** X17: on a SOSEGrid constructed with a model grid from grid files of the
    native shape (positive SOSE resolution), each of the three hfac arrays
    is its file rotated at i_split and placed in the windows of the grid,
    with hfac 0 in every cell that was added (the rows south of SOSE, the
    synthetic levels at the surface and at depth); in the matching land
    mask every point of the rows added in the south is land. *)
Theorem X17_SOSE_extension_is_land c raw mg split g ny0 nx0 :
  (0 < sose_res c)%Q ->
  shape2 (SOSEGrid.XC raw) ny0 nx0 -> shape2 (SOSEGrid.XG raw) ny0 nx0 ->
  shape2 (SOSEGrid.YC raw) ny0 nx0 -> shape2 (SOSEGrid.YG raw) ny0 nx0 ->
  SOSEGrid.init c raw (Some mg) split = Ok g ->
  forall file h m,
    (file, h, m) ∈ [ (SOSEGrid.hFacC raw, SOSEGrid.hfac g, SOSEGrid.land_mask g);
                     (SOSEGrid.hFacW raw, SOSEGrid.hfac_w g, SOSEGrid.land_mask_u g);
                     (SOSEGrid.hFacS raw, SOSEGrid.hfac_s g, SOSEGrid.land_mask_v g) ] ->
    shape3 file (length (SOSEGrid.RC raw)) ny0 nx0 ->
    SOSEGrid.aligned3 g 0 (split_longitude3 file (SOSEGrid.i_split g)) h /\
    forall j i : nat,
      Z.of_nat j < SOSEGrid.j0_after g -> Z.of_nat i < SOSEGrid.nx g ->
      at2 m j i = Some true.
Proof.
  intros Hres HXC HXG HYC HYG Hinit file h m Hin Hfile.
  destruct (SOSE_init_indices_ok _ _ _ _ _ Hres Hinit) as (Hte & Hsplit & Hok).
  destruct (native_file_covers _ _ _ _ _ _ _ HXC HXG HYC HYG Hinit)
    as [_ Hcov3].
  specialize (Hcov3 file Hfile).
  assert (Hnz : 0 < SOSEGrid.nz g).
  { destruct (SOSE_init_inv _ _ _ _ _ Hinit)
      as (max_lon & i_split & lon & lonc & lat & latc & self & h' & hw & hs
          & m' & mu & mv & _ & _ & _ & Htrim & _ & ->).
    destruct (trim_axes_inv _ _ _ _ _ _ _ _ _ Htrim)
      as (xmin & xmax & ymin & ymax & zs & zd & first & firstc & above & mz1
          & mz2 & below & _ & _ & _ & _ & _ & _ & _ & _ & _ & _ & Hdb & _).
    simpl.
    destruct (depth_bounds_Ok _ _ _ _ _ _ _ _ Hdb) as (Hk0 & _ & Hk1a & Hnz);
      [unfold len; lia|].
    destruct (depth_bounds_inv _ _ _ _ _ _ _ _ Hdb)
      as (top & bottom & Htop & _ & _ & _ & _ & Hcut).
    apply lookup_lt_Some in Htop.
    destruct (Qgtb zd bottom).
    - destruct Hcut as (n & Hn & Hk). apply nonzero_first_Ok in Hn. lia.
    - unfold len in Hcut. lia. }
  destruct (SOSE_init_hfac_inv _ _ _ _ _ Hinit)
    as (self & Hg & Hh & Hhw & Hhs & Hm & Hmu & Hmv).
  assert (Hall : SOSEGrid.read_hfac self file = Ok h /\
                 Grid.build_land_mask h = Ok m).
  { repeat (apply elem_of_cons in Hin as [[= -> -> ->] | Hin]); try done.
    apply elem_of_nil in Hin. done. }
  destruct Hall as [Hread Hmask].
  pose proof Hok as (_ & (Hj & Hj0 & Hj1 & Hj1n) & _).
  rewrite Hg in Hte, Hsplit, Hok, Hcov3, Hnz.
  destruct (read_hfac_land self file h m Hte Hok Hsplit Hnz Hcov3 Hread Hmask)
    as [Hal Hland].
  rewrite Hg. split; [exact Hal|].
  intros j i Hj' Hi. rewrite Hg in Hj, Hj0, Hj1, Hj1n. simpl in *.
  apply Hland; [lia | exact Hi |].
  unfold SOSEGrid.in_window. apply andb_false_iff. left. apply andb_false_iff. left.
  apply Z.leb_gt. exact Hj'.
Qed.

Lemma X17_witness :
  exists mg g,
    Grid.init Examples.consts Examples.weddell_raw true None = Ok mg /\
    SOSEGrid.init Examples.consts Examples.sose_raw (Some mg) (Some 180) = Ok g /\
    SOSEGrid.j0_after g = 3 /\
    at3 (SOSEGrid.hfac g) 1 3 0 = Some (4 # 1000)%Q /\
    forall j i : nat,
      Z.of_nat j < SOSEGrid.j0_after g -> Z.of_nat i < SOSEGrid.nx g ->
      at2 (SOSEGrid.land_mask g) j i = Some true.
Proof.
  eexists. eexists.
  split; [vm_compute; reflexivity|].
  match goal with
  | |- SOSEGrid.init _ _ (Some ?mg) _ = _ /\ _ => set (MG := mg)
  end.
  split; [vm_compute; reflexivity|]. split; [reflexivity|].
  match goal with
  | |- at3 (SOSEGrid.hfac ?g) _ _ _ = _ /\ _ => set (G := g)
  end.
  split; [vm_compute; reflexivity|].
  refine (proj2 (X17_SOSE_extension_is_land Examples.consts Examples.sose_raw
                   MG (Some 180) G 4 6 _ _ _ _ _ _
                   (SOSEGrid.hFacC Examples.sose_raw) (SOSEGrid.hfac G)
                   (SOSEGrid.land_mask G) _ _)).
  - reflexivity.
  - vm_compute. repeat constructor.
  - vm_compute. repeat constructor.
  - vm_compute. repeat constructor.
  - vm_compute. repeat constructor.
  - vm_compute. reflexivity.
  - apply elem_of_cons. left. reflexivity.
  - vm_compute. repeat constructor.
Defined.

(** ** The two layouts of the coordinate variables *)

Lemma col0_meshgrid (x y : arr1) :
  x <> [] -> col0 (snd (meshgrid x y)) = Ok y.
Proof.
  intros Hx. destruct x as [|x0 x]; [done|]. unfold col0, meshgrid. simpl.
  induction y as [|y0 y IH]; [reflexivity|].
  simpl. rewrite IH. reflexivity.
Qed.

Lemma row0_meshgrid (x y : arr1) :
  y <> [] -> row0 (fst (meshgrid x y)) = Ok x.
Proof. intros Hy. destruct y as [|y0 y]; [done|]. reflexivity. Qed.

(** X18: the two layouts Grid.__init__ accepts for the coordinates of a
    regular grid agree.  Axes of rank 1 (xmitgcm output) are expanded with
    np.meshgrid; arrays of rank 2 are reduced to their first row and first
    column.  For axes that are not empty, the constructor given the four
    axes and the constructor given their meshgrid expansions return the same
    result, whatever the other variables and arguments. *)
Theorem X18_Grid_coordinate_layouts c (x y xg yg : arr1)
    dxg dyg rac rc rf drf drc hc hw hs depth x_is_lon max_lon :
  x <> [] -> y <> [] -> xg <> [] -> yg <> [] ->
  Grid.axes (Grid.Coords2D (fst (meshgrid x y)) (snd (meshgrid x y))
                           (fst (meshgrid xg yg)) (snd (meshgrid xg yg)))
  = Grid.axes (Grid.Coords1D x y xg yg) /\
  Grid.init c
    (Grid.RawGrid
       (Grid.Coords2D (fst (meshgrid x y)) (snd (meshgrid x y))
                      (fst (meshgrid xg yg)) (snd (meshgrid xg yg)))
       dxg dyg rac rc rf drf drc hc hw hs depth) x_is_lon max_lon
  = Grid.init c
      (Grid.RawGrid (Grid.Coords1D x y xg yg)
         dxg dyg rac rc rf drf drc hc hw hs depth) x_is_lon max_lon.
Proof.
  intros Hx Hy Hxg Hyg.
  assert (E : Grid.axes (Grid.Coords2D (fst (meshgrid x y)) (snd (meshgrid x y))
                           (fst (meshgrid xg yg)) (snd (meshgrid xg yg)))
              = Grid.axes (Grid.Coords1D x y xg yg)).
  { unfold Grid.axes.
    rewrite (row0_meshgrid x y Hy), (col0_meshgrid x y Hx),
      (row0_meshgrid xg yg Hyg), (col0_meshgrid xg yg Hxg).
    reflexivity. }
  split; [exact E|].
  unfold Grid.init.
  change (Grid.XY (Grid.RawGrid ?xy _ _ _ _ _ _ _ _ _ _ _)) with xy.
  cbn [Grid.XY]. rewrite E. reflexivity.
Qed.

Lemma X18_witness :
  Grid.init Examples.consts Examples.weddell_raw true None
  = Grid.init Examples.consts
      (Grid.RawGrid
         (Grid.Coords1D [-60; -50; -40; -30]%Q
            [-703 # 10; -701 # 10; -699 # 10; -697 # 10]%Q
            (map (fun x => x - 5)%Q [-60; -50; -40; -30]%Q)
            (map (fun y => y - (1 # 10))%Q
               [-703 # 10; -701 # 10; -699 # 10; -697 # 10]%Q))
         (Grid.DXG Examples.weddell_raw) (Grid.DYG Examples.weddell_raw)
         (Grid.RAC Examples.weddell_raw) (Grid.RC Examples.weddell_raw)
         (Grid.RF Examples.weddell_raw) (Grid.DRF Examples.weddell_raw)
         (Grid.DRC Examples.weddell_raw) (Grid.hFacC Examples.weddell_raw)
         (Grid.hFacW Examples.weddell_raw) (Grid.hFacS Examples.weddell_raw)
         (Grid.Depth Examples.weddell_raw)) true None.
Proof.
  apply (proj2 (X18_Grid_coordinate_layouts Examples.consts
                  [-60; -50; -40; -30]%Q
                  [-703 # 10; -701 # 10; -699 # 10; -697 # 10]%Q
                  (map (fun x => x - 5)%Q [-60; -50; -40; -30]%Q)
                  (map (fun y => y - (1 # 10))%Q
                     [-703 # 10; -701 # 10; -699 # 10; -697 # 10]%Q)
                  _ _ _ _ _ _ _ _ _ _ _ true None
                  ltac:(discriminate) ltac:(discriminate)
                  ltac:(discriminate) ltac:(discriminate))).
Defined.
